(** * Smart auto-scaling system: forecaster, decision engine, resource manager

    A shallow embedding of the core classes of the repository,

      - [DemandPredictor]  (src/predictor.py),
      - [MetricsCollector] (src/metrics_collector.py),
      - [ScalingEngine]    (src/scaling_engine.py),
      - [ResourceManager]  (src/resource_manager.py),

    and the properties of them that the specification states, followed by
    further properties that the code shows.

    Conventions of the embedding.
      - Python floats are idealised as rationals ([Q]); numeric results are
        compared with [==] ([Qeq]).  Python ints are [Z].  Where the branch
        that the code takes at a threshold depends on the rounding of the
        arithmetic, as in the rule ladder of the forecaster, the function is
        given on IEEE 754 binary64 floats ([PredictorDoubles]).
      - A Python dict whose keys may be absent is a record of [option]
        fields, or a [gmap string _] where the code treats it as an open
        map (the resource allocation).
      - A Python exception is the [Raise] outcome of the [outcome] type;
        [try]/[except Exception] is [try_except].
      - An [f"{x:.1f}"] rendering of a float is the Python runtime's; it is
        a parameter ([fmt digits x]) of the sections that build such texts. *)

From Stdlib Require Import QArith Qminmax Qround Lqa Floats.
From stdpp Require Import gmap strings list pretty.

Local Open Scope string_scope.
Local Open Scope Z_scope.

(* Decimal literals such as 0.9 stand for the nearest binary64 value, as in
   Python. *)
#[local] Set Warnings "-inexact-float".

(** ** Python numerics on rationals *)

Module Py.

Definition ltb (x y : Q) : bool :=
  match (x ?= y)%Q with Lt => true | _ => false end.

Definition leb (x y : Q) : bool := negb (ltb y x).

(** [min(a, b)]: the first argument unless the second is strictly smaller. *)
Definition min2 (a b : Q) : Q := if ltb b a then b else a.

(** [max(a, b)]: the first argument unless the second is strictly larger. *)
Definition max2 (a b : Q) : Q := if ltb a b then b else a.

Definition minZ (a b : Z) : Z := if b <? a then b else a.
Definition maxZ (a b : Z) : Z := if a <? b then b else a.

(** [sum(xs)]: left to right, starting from 0. *)
Definition sum_list (xs : list Q) : Q := fold_left Qplus xs 0%Q.

(** [max(xs)] of the non-empty list [x :: rest]: the running best, replaced
    only by a strictly larger element. *)
Definition max_list (x : Q) (rest : list Q) : Q := fold_left max2 rest x.

(** [round(x, ndigits)] on the idealised value: to the nearest multiple of
    [10^-ndigits], ties to the even one. *)
Definition round (x : Q) (ndigits : nat) : Q :=
  let scale := inject_Z (10 ^ Z.of_nat ndigits) in
  let scaled := (x * scale)%Q in
  let low := Qfloor scaled in
  let rest := (scaled - inject_Z low)%Q in
  let nearest :=
    if ltb rest 0.5 then low
    else if ltb 0.5 rest then low + 1
    else if Z.even low then low else low + 1 in
  (inject_Z nearest / scale)%Q.

(** The factor [10 ** ndigits] of [round]. *)
Definition scale_of (ndigits : nat) : Q := inject_Z (10 ^ Z.of_nat ndigits).

(** [len(xs)] as a number. *)
Definition len {A} (xs : list A) : Q := inject_Z (Z.of_nat (length xs)).

(** [xs[-n:]] for a positive [n]: the last [n] elements, or all of them. *)
Definition take_last {A} (n : nat) (xs : list A) : list A :=
  drop (length xs - n) xs.

(** [int(x)]: truncation toward zero. *)
Definition int (x : Q) : Z := Qnum x ÷ Zpos (Qden x).

(** [xs[-k:]] for any integer [k]: the last [k] elements when [k] is
    positive, the whole list when [k] is 0 (the slice [xs[0:]]), and the
    list without its first [-k] elements when [k] is negative. *)
Definition slice_last {A} (k : Z) (xs : list A) : list A :=
  if 0 <? k then take_last (Z.to_nat k) xs
  else if k =? 0 then xs
  else drop (Z.to_nat (- k)) xs.

(** [abs(x)]. *)
Definition abs (x : Q) : Q := if ltb x 0 then (- x)%Q else x.

End Py.

(** ** The forecaster: [DemandPredictor] (src/predictor.py) *)

Module Predictor.

(** One telemetry sample, the dict built by the metrics collector.  The
    timestamp is the instant its ISO text denotes, in seconds. *)
Record MetricSample := {
  timestamp : Q;
  cpu_percent : Q;
  memory_percent : Q;
  memory_used_gb : Q;
  disk_percent : Q;
  network_bytes_sent : Z;
  network_bytes_recv : Z;
  response_time_ms : Q;
  active_connections : Z;
  load_score : Q
}.

(** The dict returned by [get_scaling_recommendation]; the last three keys
    are absent from the "no predictions" answer. *)
Record Recommendation := {
  action : string;
  confidence : Q;
  reason : string;
  predicted_load : option Q;
  max_predicted_load : option Q;
  trend : option Q
}.

(** What one pass of the forecasting loop over the current window does
    before it appends anything.  The frame construction (pandas), the
    scaler and the linear model (scikit-learn) are libraries; a trained
    predictor is given by its flag and by this outcome of a window. *)
Inductive StepOutcome :=
  | FrameError                (* building the frame raised: outer handler *)
  | NoCompleteRow             (* [len(df) == 0] after [dropna] *)
  | StepError                 (* extraction, scaling or predict raised *)
  | Predicted (prediction : Q). (* [self.model.predict(X_scaled)[0]] *)

Record DemandPredictor := {
  is_trained : bool;
  model_step : list MetricSample -> StepOutcome
}.

(** [_create_synthetic_metric]: a deep copy of the last sample, one minute
    later, carrying the predicted load and the metrics derived from it. *)
Definition _create_synthetic_metric
    (last_metric : MetricSample) (predicted_load : Q) : MetricSample :=
  let load_factor := (predicted_load / 100)%Q in
  {| timestamp := (timestamp last_metric + 60)%Q;
     cpu_percent := Py.min2 100 (load_factor * 80);
     memory_percent := Py.min2 100 (load_factor * 70);
     memory_used_gb := memory_used_gb last_metric;
     disk_percent := disk_percent last_metric;
     network_bytes_sent := network_bytes_sent last_metric;
     network_bytes_recv := network_bytes_recv last_metric;
     response_time_ms := (50 + load_factor * 150)%Q;
     active_connections := active_connections last_metric;
     load_score := predicted_load |}.

(** [_simple_trend_prediction]: the loop [for i in range(horizon)], from
    index [i] on. *)
Fixpoint trend_steps (current_load trend : Q) (i : nat) (remaining : nat)
    : list Q :=
  match remaining with
  | O => []
  | S remaining' =>
      let next_load := (current_load + trend * inject_Z (Z.of_nat i + 1))%Q in
      let next_load := Py.max2 0 (Py.min2 100 next_load) in
      next_load :: trend_steps current_load trend (S i) remaining'
  end.

Definition _simple_trend_prediction
    (recent_metrics : list MetricSample) (horizon : nat) : list Q :=
  if (length recent_metrics <? 2)%nat then replicate horizon 50%Q
  else
    let loads := map load_score (Py.take_last 10 recent_metrics) in
    match loads with
    | [] => []                 (* no such case: at least two samples *)
    | first :: others =>
        let final := List.last others first in
        let trend :=
          if (1 <? length loads)%nat
          then ((final - first) / Py.len loads)%Q else 0%Q in
        trend_steps final trend 0 horizon
    end.

(** The body of [for step in range(horizon)] in [predict_demand], where
    [last_metrics] is the growing window and [current_load] is
    [recent_metrics[-1]['load_score']].  [None] is an exception that leaves
    the loop for the outer handler.  A window is never empty here; were it,
    [last_metrics[-1]] would raise after the prediction was appended, and the
    inner handler would append the current load as well. *)
Fixpoint forecast_loop (p : DemandPredictor) (current_load : Q)
    (last_metrics : list MetricSample) (remaining : nat) : option (list Q) :=
  match remaining with
  | O => Some []
  | S remaining' =>
      match model_step p last_metrics with
      | FrameError => None
      | NoCompleteRow =>
          cons current_load <$>
            forecast_loop p current_load last_metrics remaining'
      | StepError =>
          cons current_load <$>
            forecast_loop p current_load last_metrics remaining'
      | Predicted prediction =>
          let prediction := Py.max2 0 (Py.min2 100 prediction) in
          match last last_metrics with
          | Some last_metric =>
              let synthetic_metric :=
                _create_synthetic_metric last_metric prediction in
              cons prediction <$>
                forecast_loop p current_load
                  (last_metrics ++ [synthetic_metric]) remaining'
          | None =>
              (fun rest => prediction :: current_load :: rest) <$>
                forecast_loop p current_load last_metrics remaining'
          end
      end
  end.

(** [predict_demand(recent_metrics, horizon)]; [horizon] counts steps. *)
Definition predict_demand (p : DemandPredictor)
    (recent_metrics : list MetricSample) (horizon : nat) : list Q :=
  if negb (is_trained p) || (length recent_metrics <? 5)%nat then
    let current_load :=
      match last recent_metrics with
      | Some m => load_score m
      | None => 50%Q
      end in
    replicate horizon current_load
  else
    match last recent_metrics with
    | Some m =>
        match forecast_loop p (load_score m)
                (Py.take_last 15 recent_metrics) horizon with
        | Some predictions => predictions
        | None => _simple_trend_prediction recent_metrics horizon
        end
    | None => _simple_trend_prediction recent_metrics horizon
    end.

Section Recommend.

(** [fmt digits x] is the text of [f"{x:.<digits>f}"]. *)
Context (fmt : nat -> Q -> string).

(** [get_scaling_recommendation] with exact arithmetic, for the statements
    that no rounding touches (ranges, the set of actions); the rule that
    fires on given doubles is that of
    [PredictorDoubles.get_scaling_recommendation]. *)
Definition get_scaling_recommendation
    (predictions : list Q) (current_load : Q) : Recommendation :=
  match predictions with
  | [] =>
      {| action := "maintain"; confidence := 0.5%Q;
         reason := "No predictions available";
         predicted_load := None; max_predicted_load := None; trend := None |}
  | first :: others =>
      let avg_predicted_load :=
        (Py.sum_list predictions / Py.len predictions)%Q in
      let max_predicted_load := Py.max_list first others in
      let trend := (List.last others first - current_load)%Q in
      let '(action, confidence, reason) :=
        if Py.ltb 80 max_predicted_load then
          ("scale_up",
           Py.min2 0.9 ((max_predicted_load - 80) / 20),
           "High load predicted: " +:+ fmt 1 max_predicted_load +:+ "%")
        else if Py.ltb avg_predicted_load 30 && Py.ltb current_load 40 then
          ("scale_down",
           Py.min2 0.8 ((40 - avg_predicted_load) / 40),
           "Low load predicted: " +:+ fmt 1 avg_predicted_load +:+ "%")
        else if Py.ltb 15 trend then
          ("scale_up", 0.7%Q,
           "Rising trend detected: +" +:+ fmt 1 trend +:+ "%")
        else if Py.ltb trend (-15) then
          ("scale_down", 0.6%Q,
           "Declining trend detected: " +:+ fmt 1 trend +:+ "%")
        else
          ("maintain", 0.8%Q,
           "Stable load predicted: " +:+ fmt 1 avg_predicted_load +:+ "%") in
      {| action := action; confidence := confidence; reason := reason;
         predicted_load := Some avg_predicted_load;
         max_predicted_load := Some max_predicted_load;
         trend := Some trend |}
  end.

End Recommend.

(** [self.anomaly_threshold], set once by [__init__]. *)
Definition anomaly_threshold : Q := 2.0.

Section Anomalies.

(** [np.mean] and [np.std] of a window. *)
Context (np_mean np_std : list Q -> Q).

(** [detect_anomalies(recent_metrics, window_size)]; [window_size] counts
    samples.  The window of index [i] is [loads[i-window_size:i]]; it is
    empty only for a window size of zero, where numpy has no number to
    give. *)
Definition detect_anomalies (recent_metrics : list MetricSample)
    (window_size : nat) : list bool :=
  if (length recent_metrics <? window_size)%nat then
    replicate (length recent_metrics) false
  else
    let loads := map load_score recent_metrics in
    map (fun i : nat =>
           if (i <? window_size)%nat then false
           else
             let window := take window_size (drop (i - window_size) loads) in
             let mean_val := np_mean window in
             let std_val := np_std window in
             match loads !! i with
             | Some load =>
                 if Py.ltb 0 std_val then
                   let z_score := (Py.abs (load - mean_val) / std_val)%Q in
                   Py.ltb anomaly_threshold z_score
                 else false
             | None => false      (* no such case: [i] indexes [loads] *)
             end)
        (seq 0 (length loads)).

End Anomalies.

(** The non-empty result of [prepare_time_series_data]: the feature names
    it pins in [self.feature_columns], the feature matrix and the targets. *)
Record Prepared := {
  feature_columns : list string;
  X : list (list Q);
  y : list Q
}.

Section Prepare.

(** The pandas accessors [.dt.hour], [.dt.minute] and [.dt.dayofweek] of a
    parsed timestamp. *)
Context (hour minute day_of_week : Q -> Q).

Definition lag_column (lag : nat) : string :=
  "load_score_lag_" +:+ pretty lag.

Definition rolling_column (window : nat) : string :=
  "load_score_rolling_" +:+ pretty window.

(** [prepare_time_series_data(metrics)] for the default target column
    ['load_score'], on samples without missing values.  [shift(lag)] leaves
    the first [lag] rows without a value, [rolling(window).mean()] the first
    [window - 1]; [dropna] keeps the rows where every column has one.
    [None] is the empty pair of arrays. *)
Definition prepare_time_series_data (metrics : list MetricSample)
    : option Prepared :=
  if (length metrics <? 10)%nat then None
  else
    let rows := length metrics in
    let loads := map load_score metrics in
    let lag_features :=
      List.filter (fun lag => (lag + 5 <? rows)%nat) [1; 2; 3]%nat in
    let rolling_features :=
      List.filter (fun window => (window + 5 <? rows)%nat) [3; 5]%nat in
    let complete (i : nat) :=
      forallb (fun lag => (lag <=? i)%nat) lag_features
      && forallb (fun window => (window - 1 <=? i)%nat) rolling_features in
    let kept := List.filter complete (seq 0 rows) in
    if (length kept <? 5)%nat then None
    else
      let columns :=
        (["hour"; "minute"; "day_of_week"; "cpu_percent"; "memory_percent";
          "response_time_ms"]
         ++ map lag_column lag_features
         ++ map rolling_column rolling_features)%list in
      let features (i : nat) : list Q :=
        match metrics !! i with
        | Some m =>
            ([hour (timestamp m); minute (timestamp m);
              day_of_week (timestamp m);
              cpu_percent m; memory_percent m; response_time_ms m]
             ++ map (fun lag => default 0%Q (loads !! (i - lag)%nat))
                    lag_features
             ++ map (fun window =>
                       let values := take window (drop (i + 1 - window) loads) in
                       (Py.sum_list values / Py.len values)%Q)
                    rolling_features)%list
        | None => []             (* no such case: [i] indexes [metrics] *)
        end in
      Some {| feature_columns := columns;
              X := map features kept;
              y := map (fun i => default 0%Q (loads !! i)) kept |}.

End Prepare.

End Predictor.

(** ** The rule ladder of the forecaster on binary64 floats *)

(** [get_scaling_recommendation] as the interpreter runs it: the loads are
    IEEE 754 doubles, each operation rounds to the nearest double, and a
    comparison with a nan is false.  Which rule fires at a threshold depends
    on that rounding: [64.01 - 49.01] is above 15 in doubles. *)
Module PredictorDoubles.

(** [min(a, b)]: the second argument when it is smaller, else the first. *)
Definition min2 (a b : float) : float := if (b <? a)%float then b else a.

(** [max(xs)] on a non-empty list: the running maximum is replaced by an
    item that compares greater. *)
Definition max_list (x : float) (rest : list float) : float :=
  fold_left (fun best item => if (best <? item)%float then item else best)
            rest x.

(** [len(xs)] as the float that a true division converts it to. *)
Definition len {A} (xs : list A) : float :=
  PrimFloat.of_uint63 (Uint63.of_Z (Z.of_nat (length xs))).

(** The built-in [sum] of floats as CPython computes it before 3.12: from
    the integer 0, left to right.  Later versions compensate the rounding
    errors; the definitions below take the sum as a parameter. *)
Definition left_sum (xs : list float) : float :=
  fold_left PrimFloat.add xs 0%float.

Record Recommendation := {
  action : string;
  confidence : float;
  reason : string;
  predicted_load : option float;
  max_predicted_load : option float;
  trend : option float
}.

Section Recommend.

(** [fmt digits x] is the text of [f"{x:.<digits>f}"]; [sum] is the
    built-in [sum] on a list of floats. *)
Context (fmt : nat -> float -> string) (sum : list float -> float).

Definition get_scaling_recommendation
    (predictions : list float) (current_load : float) : Recommendation :=
  match predictions with
  | [] =>
      {| action := "maintain"; confidence := 0.5%float;
         reason := "No predictions available";
         predicted_load := None; max_predicted_load := None; trend := None |}
  | first :: others =>
      let avg_predicted_load := (sum predictions / len predictions)%float in
      let max_predicted_load := max_list first others in
      let trend := (List.last others first - current_load)%float in
      let '(action, confidence, reason) :=
        if (80 <? max_predicted_load)%float then
          ("scale_up",
           min2 0.9 ((max_predicted_load - 80) / 20)%float,
           "High load predicted: " +:+ fmt 1 max_predicted_load +:+ "%")
        else if (avg_predicted_load <? 30)%float
                && (current_load <? 40)%float then
          ("scale_down",
           min2 0.8 ((40 - avg_predicted_load) / 40)%float,
           "Low load predicted: " +:+ fmt 1 avg_predicted_load +:+ "%")
        else if (15 <? trend)%float then
          ("scale_up", 0.7%float,
           "Rising trend detected: +" +:+ fmt 1 trend +:+ "%")
        else if (trend <? -15)%float then
          ("scale_down", 0.6%float,
           "Declining trend detected: " +:+ fmt 1 trend +:+ "%")
        else
          ("maintain", 0.8%float,
           "Stable load predicted: " +:+ fmt 1 avg_predicted_load +:+ "%") in
      {| action := action; confidence := confidence; reason := reason;
         predicted_load := Some avg_predicted_load;
         max_predicted_load := Some max_predicted_load;
         trend := Some trend |}
  end.

End Recommend.

(** [x > y] and [x < y] on floats, as propositions. *)
Definition above (x y : float) : Prop := (y <? x)%float = true.
Definition below (x y : float) : Prop := (x <? y)%float = true.

(** The rendering that prints nothing. *)
Definition silent (digits : nat) (x : float) : string := "".

End PredictorDoubles.

(** ** The telemetry source: [MetricsCollector] (src/metrics_collector.py) *)

Module Collector.

Import Predictor.

(** What [psutil.net_io_counters()] does: raise, return nothing, or return
    the cumulative byte counters. *)
Inductive NetReading :=
  | NetRaised
  | NetNone
  | NetCounters (bytes_sent bytes_recv : Z).

(** The operating-system readings of one [collect_metrics] call: the clock
    (the instant of [datetime.now()], in seconds), [psutil.cpu_percent],
    the [percent] and [used] fields of [psutil.virtual_memory()],
    [shutil.disk_usage] as (total, used), or [None] when it raises, and the
    network counters. *)
Record Readings := {
  clock : Q;
  cpu : Q;
  memory : Q;
  memory_used : Z;
  disk_usage : option (Z * Z);
  net_io : NetReading
}.

Definition _simulate_response_time (cpu_percent : Q) : Q :=
  let base_time := 50%Q in
  let load_factor := (cpu_percent / 100 * 200)%Q in
  Py.round (base_time + load_factor) 2.

Definition _simulate_connections (cpu_percent : Q) : Z :=
  let base_connections := 100 in
  let load_connections := Py.int (cpu_percent / 100 * 500) in
  base_connections + load_connections.

Definition _calculate_load_score (cpu memory response_time : Q) : Q :=
  let response_score := Py.min2 (response_time / 200 * 100) 100 in
  let load_score :=
    (cpu * 0.4 + memory * 0.3 + response_score * 0.3)%Q in
  Py.round load_score 2.

(** [collect_metrics]; a zero disk total divides by zero inside the [try]
    and takes the fallback like any other failure. *)
Definition collect_metrics (r : Readings) : MetricSample :=
  let cpu_percent := cpu r in
  let disk_percent :=
    match disk_usage r with
    | Some (total, used) =>
        if total =? 0 then 50.0%Q
        else (inject_Z used / inject_Z total * 100)%Q
    | None => 50.0%Q
    end in
  let '(network_sent, network_recv) :=
    match net_io r with
    | NetCounters sent recv => (sent, recv)
    | NetNone => (0, 0)
    | NetRaised => (0, 0)
    end in
  let response_time := _simulate_response_time cpu_percent in
  let active_connections := _simulate_connections cpu_percent in
  {| timestamp := clock r;
     cpu_percent := cpu_percent;
     memory_percent := memory r;
     memory_used_gb := (inject_Z (memory_used r) / inject_Z (1024 ^ 3))%Q;
     disk_percent := disk_percent;
     network_bytes_sent := network_sent;
     network_bytes_recv := network_recv;
     response_time_ms := response_time;
     active_connections := active_connections;
     load_score := _calculate_load_score cpu_percent (memory r) response_time |}.

(** The collector object: the history in memory and the content of the
    storage file ([None] before the first write). *)
Record MetricsCollector := {
  metrics_history : list MetricSample;
  storage_file : option (list MetricSample)
}.

(** [_save_metrics]; the write itself is taken to succeed. *)
Definition _save_metrics (self : MetricsCollector) : MetricsCollector :=
  {| metrics_history := metrics_history self;
     storage_file := Some (metrics_history self) |}.

Definition store_metrics (metrics : MetricSample) (self : MetricsCollector)
    : MetricsCollector :=
  let history := (metrics_history self ++ [metrics])%list in
  let history :=
    if (1000 <? length history)%nat then Py.take_last 1000 history
    else history in
  _save_metrics {| metrics_history := history;
                   storage_file := storage_file self |}.

Definition get_recent_metrics (self : MetricsCollector) (count : Z)
    : list MetricSample :=
  match metrics_history self with
  | [] => []
  | _ => Py.slice_last count (metrics_history self)
  end.

End Collector.

(** ** JSON files *)

(** What [json.load] followed by [dict.update] makes of a settings file,
    inside a [try] whose handler swallows every exception:
      - [Missing]: there is no file;
      - [Unreadable]: nothing is assigned; the file cannot be opened or
        parsed, or it holds a value that [update] refuses before it assigns
        anything (a number, a boolean, [null], a text, an array whose first
        element is not a pair);
      - [Document]: a JSON object, all of whose keys are assigned;
      - [Pairs]: a JSON array, of which [update] assigns the leading
        elements that are key/value pairs, in order, until the array ends or
        an element is not a pair; that element raises, and what was assigned
        before it stays assigned.
    Keys are texts, as the program reads its dicts by text keys only; an
    array with a pair under another kind of key is not modelled. *)
Inductive FileContent (V : Type) : Type :=
  | Missing
  | Unreadable
  | Document (d : gmap string V)
  | Pairs (assigned : list (string * V)).
Arguments Missing {V}.
Arguments Unreadable {V}.
Arguments Document {V} d.
Arguments Pairs {V} assigned.

(** [defaults.update(loaded)] under that [try]: the dict after it. *)
Definition update_from {V} (file : FileContent V) (defaults : gmap string V)
    : gmap string V :=
  match file with
  | Missing => defaults
  | Unreadable => defaults
  | Document loaded => loaded ∪ defaults
  | Pairs assigned =>
      foldl (fun dict pair => <[pair.1 := pair.2]> dict) defaults assigned
  end.

(** ** The decision engine: [ScalingEngine] (src/scaling_engine.py) *)

Module Engine.

Record ResourceLimits := {
  cpu_cores : Q;
  memory_gb : Q;
  storage_gb : Q
}.

(** [self.config]: the recognised keys, after the merge over the defaults. *)
Record Config := {
  min_instances : Z;
  max_instances : Z;
  scale_up_threshold : Q;
  scale_down_threshold : Q;
  scale_up_cooldown : Q;
  scale_down_cooldown : Q;
  confidence_threshold : Q;
  resource_limits : ResourceLimits
}.

Definition default_config : Config :=
  {| min_instances := 1;
     max_instances := 10;
     scale_up_threshold := 70;
     scale_down_threshold := 30;
     scale_up_cooldown := 300;
     scale_down_cooldown := 600;
     confidence_threshold := 0.6;
     resource_limits :=
       {| cpu_cores := 16; memory_gb := 32; storage_gb := 500 |} |}.

(** The [current_state] dict handed to the engine; every key is read with
    [.get] and a default. *)
Record CurrentState := {
  current_instances : option Z;
  load_score : option Q;
  current_resources : option (gmap string Q)
}.

(** An entry of [recent_decisions]: the two keys the cooldown gate reads.
    The timestamp is the instant [datetime.fromisoformat] yields, in
    seconds. *)
Record PriorDecision := {
  pd_timestamp : Q;
  pd_action : string
}.

(** The dict returned by [_check_cooldown]. *)
Record CooldownCheck := {
  allowed : bool;
  cc_reason : option string;
  remaining_time : option Q
}.

Record CostImpact := {
  current_hourly_cost : Q;
  target_hourly_cost : Q;
  hourly_cost_change : Q;
  daily_cost_change : Q;
  monthly_cost_change : Q
}.

(** The dict returned by [make_scaling_decision].  [cooldown_remaining] is
    only in the cooldown answer; the keys from [d_current_instances] on are
    only in the full answer. *)
Record ScalingDecision := {
  timestamp : Q;
  action : string;
  reason : string;
  confidence : Q;
  recommended_instances : Z;
  recommended_resources : gmap string Q;
  cooldown_remaining : option Q;
  d_current_instances : option Z;
  d_current_resources : option (gmap string Q);
  predicted_load : option Q;
  max_predicted_load : option Q;
  cost_impact : option CostImpact
}.

Definition cooldown_allowed : CooldownCheck :=
  {| allowed := true; cc_reason := None; remaining_time := None |}.

(** The loop of [_check_cooldown] over [reversed(recent_decisions[-10:])]. *)
Fixpoint cooldown_scan (config : Config) (current_time : Q)
    (decisions : list PriorDecision) : CooldownCheck :=
  match decisions with
  | [] => cooldown_allowed
  | decision :: rest =>
      let time_diff := (current_time - pd_timestamp decision)%Q in
      if (pd_action decision =? "scale_up")%string then
        if Py.ltb time_diff (scale_up_cooldown config) then
          let remaining := (scale_up_cooldown config - time_diff)%Q in
          {| allowed := false;
             cc_reason := Some "Scale-up cooldown active";
             remaining_time := Some remaining |}
        else cooldown_scan config current_time rest
      else if (pd_action decision =? "scale_down")%string then
        if Py.ltb time_diff (scale_down_cooldown config) then
          let remaining := (scale_down_cooldown config - time_diff)%Q in
          {| allowed := false;
             cc_reason := Some "Scale-down cooldown active";
             remaining_time := Some remaining |}
        else cooldown_scan config current_time rest
      else cooldown_scan config current_time rest
  end.

Definition _check_cooldown (config : Config) (current_time : Q)
    (recent_decisions : list PriorDecision) : CooldownCheck :=
  match recent_decisions with
  | [] => cooldown_allowed
  | _ =>
      cooldown_scan config current_time
        (rev (Py.take_last 10 recent_decisions))
  end.

Definition _calculate_resource_allocation (config : Config)
    (instances : Z) (predicted_load : Q) : gmap string Q :=
  let load_factor := (predicted_load / 100)%Q in
  let base_cpu := 2%Q in
  let base_memory := 4%Q in
  let base_storage := 20%Q in
  let cpu_per_instance := (base_cpu + load_factor * 2)%Q in
  let memory_per_instance := (base_memory + load_factor * 4)%Q in
  let storage_per_instance := (base_storage + load_factor * 10)%Q in
  {[ "total_cpu_cores" :=
       Py.min2 (cpu_cores (resource_limits config))
               (inject_Z instances * cpu_per_instance);
     "total_memory_gb" :=
       Py.min2 (memory_gb (resource_limits config))
               (inject_Z instances * memory_per_instance);
     "total_storage_gb" :=
       Py.min2 (storage_gb (resource_limits config))
               (inject_Z instances * storage_per_instance);
     "cpu_per_instance" := cpu_per_instance;
     "memory_per_instance" := memory_per_instance;
     "storage_per_instance" := storage_per_instance ]}.

Definition _calculate_target_resources (config : Config)
    (current_state : CurrentState) (recommendation : Predictor.Recommendation)
    : Z * gmap string Q :=
  let current_instances := default 1 (current_instances current_state) in
  let current_load := default 50%Q (load_score current_state) in
  let predicted_load :=
    default current_load (Predictor.max_predicted_load recommendation) in
  let target_instances :=
    if (Predictor.action recommendation =? "scale_up")%string then
      let load_factor := (predicted_load / 100)%Q in
      let additional_instances := Py.maxZ 1 (Py.int (load_factor * 2)) in
      current_instances + additional_instances
    else if (Predictor.action recommendation =? "scale_down")%string then
      if Py.ltb predicted_load 20 then Py.maxZ 1 (current_instances - 2)
      else if Py.ltb predicted_load 40 then Py.maxZ 1 (current_instances - 1)
      else current_instances
    else current_instances in
  let target_resources :=
    _calculate_resource_allocation config target_instances predicted_load in
  (target_instances, target_resources).

Definition _estimate_cost_impact (current_instances target_instances : Z)
    : CostImpact :=
  let cost_per_instance_hour := 0.10%Q in
  let current_cost := (inject_Z current_instances * cost_per_instance_hour)%Q in
  let target_cost := (inject_Z target_instances * cost_per_instance_hour)%Q in
  let cost_change := (target_cost - current_cost)%Q in
  {| current_hourly_cost := Py.round current_cost 2;
     target_hourly_cost := Py.round target_cost 2;
     hourly_cost_change := Py.round cost_change 2;
     daily_cost_change := Py.round (cost_change * 24) 2;
     monthly_cost_change := Py.round (cost_change * 24 * 30) 2 |}.

Section Decide.

(** [fmt digits x] is the text of [f"{x:.<digits>f}"]. *)
Context (fmt : nat -> Q -> string).

Definition _generate_decision_reason
    (recommendation : Predictor.Recommendation) (target current : Z)
    : string :=
  let base_reason := Predictor.reason recommendation in
  if current <? target then
    "Scaling up from " +:+ pretty current +:+ " to " +:+ pretty target
      +:+ " instances: " +:+ base_reason
  else if target <? current then
    "Scaling down from " +:+ pretty current +:+ " to " +:+ pretty target
      +:+ " instances: " +:+ base_reason
  else
    "Maintaining " +:+ pretty current +:+ " instances: " +:+ base_reason.

(** [make_scaling_decision]; [timestamp] and [current_time] are its two
    readings of the clock, the second one taken by [_check_cooldown]. *)
Definition make_scaling_decision (config : Config)
    (timestamp current_time : Q)
    (current_state : CurrentState) (recommendation : Predictor.Recommendation)
    (recent_decisions : list PriorDecision) : ScalingDecision :=
  let cooldown_check := _check_cooldown config current_time recent_decisions in
  if negb (allowed cooldown_check) then
    {| timestamp := timestamp;
       action := "maintain";
       reason := "Cooldown active: " +:+ default "" (cc_reason cooldown_check);
       confidence := 1.0%Q;
       recommended_instances := default 1 (current_instances current_state);
       recommended_resources := default ∅ (current_resources current_state);
       cooldown_remaining :=
         Some (default 0%Q (remaining_time cooldown_check));
       d_current_instances := None; d_current_resources := None;
       predicted_load := None; max_predicted_load := None;
       cost_impact := None |}
  else if Py.ltb (Predictor.confidence recommendation)
                 (confidence_threshold config) then
    {| timestamp := timestamp;
       action := "maintain";
       reason :=
         "Low confidence: " +:+ fmt 2 (Predictor.confidence recommendation);
       confidence := Predictor.confidence recommendation;
       recommended_instances := default 1 (current_instances current_state);
       recommended_resources := default ∅ (current_resources current_state);
       cooldown_remaining := None;
       d_current_instances := None; d_current_resources := None;
       predicted_load := None; max_predicted_load := None;
       cost_impact := None |}
  else
    let '(target_instances, target_resources) :=
      _calculate_target_resources config current_state recommendation in
    let target_instances :=
      Py.maxZ (min_instances config)
              (Py.minZ (max_instances config) target_instances) in
    let current_instances := default 1 (current_instances current_state) in
    let action :=
      if current_instances <? target_instances then "scale_up"
      else if target_instances <? current_instances then "scale_down"
      else "maintain" in
    {| timestamp := timestamp;
       action := action;
       reason :=
         _generate_decision_reason recommendation target_instances
           current_instances;
       confidence := Predictor.confidence recommendation;
       recommended_instances := target_instances;
       recommended_resources := target_resources;
       cooldown_remaining := None;
       d_current_instances := Some current_instances;
       d_current_resources :=
         Some (default ∅ (current_resources current_state));
       predicted_load :=
         Some (default 0%Q (Predictor.predicted_load recommendation));
       max_predicted_load :=
         Some (default 0%Q (Predictor.max_predicted_load recommendation));
       cost_impact :=
         Some (_estimate_cost_impact current_instances target_instances) |}.

End Decide.




(** The numbers of the full answer of [evaluate_scaling_effectiveness]. *)
Record EffectivenessDetails := {
  prediction_accuracy : Q;
  decision_appropriateness : Q;
  evaluated_predicted_load : Q;
  actual_avg_load : Q;
  prediction_error : Q
}.

(** The dict returned by [evaluate_scaling_effectiveness]; [details] is
    absent from the "unknown" answer. *)
Record Effectiveness := {
  effectiveness : string;
  score : Q;
  details : option EffectivenessDetails
}.

Definition evaluate_scaling_effectiveness (decision : ScalingDecision)
    (actual_metrics : list Predictor.MetricSample) : Effectiveness :=
  match actual_metrics with
  | [] => {| effectiveness := "unknown"; score := 0.5; details := None |}
  | _ =>
      let predicted_load := default 50%Q (predicted_load decision) in
      let actual_loads := map Predictor.load_score actual_metrics in
      let avg_actual_load :=
        (Py.sum_list actual_loads / Py.len actual_loads)%Q in
      let prediction_error := Py.abs (predicted_load - avg_actual_load) in
      let accuracy_score := Py.max2 0 (1 - prediction_error / 100) in
      let action := action decision in
      let effectiveness_score :=
        if (action =? "scale_up")%string then
          if Py.ltb 70 avg_actual_load then 0.9%Q
          else if Py.ltb 50 avg_actual_load then 0.7%Q
          else 0.3%Q
        else if (action =? "scale_down")%string then
          if Py.ltb avg_actual_load 30 then 0.9%Q
          else if Py.ltb avg_actual_load 50 then 0.7%Q
          else 0.3%Q
        else
          if Py.leb 30 avg_actual_load && Py.leb avg_actual_load 70
          then 0.8%Q else 0.4%Q in
      let overall_score := ((accuracy_score + effectiveness_score) / 2)%Q in
      {| effectiveness :=
           if Py.ltb 0.8 overall_score then "excellent"
           else if Py.ltb 0.6 overall_score then "good"
           else if Py.ltb 0.4 overall_score then "fair"
           else "poor";
         score := Py.round overall_score 2;
         details :=
           Some {| prediction_accuracy := Py.round accuracy_score 2;
                   decision_appropriateness :=
                     Py.round effectiveness_score 2;
                   evaluated_predicted_load := predicted_load;
                   actual_avg_load := Py.round avg_actual_load 2;
                   prediction_error := Py.round prediction_error 2 |} |}
  end.

End Engine.

(** ** Exceptions and mutable state *)

(** The result of running Python code that may raise: a value, or the
    message [str(e)] of the exception. *)
Inductive outcome (A : Type) : Type :=
  | Ok (a : A)
  | Raise (msg : string).
Arguments Ok {A} a.
Arguments Raise {A} msg.

(** A computation over a mutable object of type [S].  The object is
    returned in both cases: what was assigned before an exception stays
    assigned. *)
Definition M (S A : Type) : Type := S -> outcome A * S.

Definition ret {S A} (a : A) : M S A := fun s => (Ok a, s).

Definition raise {S A} (msg : string) : M S A := fun s => (Raise msg, s).

Definition bind {S A B} (c : M S A) (k : A -> M S B) : M S B :=
  fun s =>
    match c s with
    | (Ok a, s') => k a s'
    | (Raise msg, s') => (Raise msg, s')
    end.

Definition get {S} : M S S := fun s => (Ok s, s).

Definition modify {S} (f : S -> S) : M S unit := fun s => (Ok tt, f s).

(** [d[key]] on a dict field that may be absent: [KeyError(key)], whose
    text is the quoted key. *)
Definition key_error {S A} (key : string) : M S A :=
  raise ("'" +:+ key +:+ "'").

Definition item {S A} (field : option A) (key : string) : M S A :=
  match field with
  | Some v => ret v
  | None => key_error key
  end.

Declare Scope py_scope.
Delimit Scope py_scope with py.
Notation "x <- c ;; k" := (bind c (fun x => k))
  (at level 100, c at next level, right associativity) : py_scope.
Notation "c ;;; k" := (bind c (fun _ => k))
  (at level 100, right associativity) : py_scope.

(** [for x in xs: body(x)], collecting what each pass yields. *)
Fixpoint for_each {S A B} (xs : list A) (body : A -> M S B) : M S (list B) :=
  match xs with
  | [] => ret []
  | x :: rest =>
      (y <- body x ;;
       ys <- for_each rest body ;;
       ret (y :: ys))%py
  end.

(** [try: body except Exception as e: handler(e)]. *)
Definition try_except {S A} (body : M S A) (handler : string -> M S A)
    : M S A :=
  fun s =>
    match body s with
    | (Ok a, s') => (Ok a, s')
    | (Raise msg, s') => handler msg s'
    end.

(** Running a computation on one component of a larger object. *)
Definition on_part {S T A} (project : S -> T) (update : T -> S -> S)
    (c : M T A) : M S A :=
  fun s =>
    match c (project s) with
    | (r, t') => (r, update t' s)
    end.

(** ** The resource lifecycle manager: [ResourceManager]
       (src/resource_manager.py) *)

Module Manager.

(** An entry of [scaling_events]. *)
Record ScalingEvent := {
  ev_timestamp : string;
  ev_action : string;
  instances_before : Z;
  instances_after : Z;
  ev_reason : string;
  execution_time : Q
}.

(** [self.current_state]; timestamps are kept as their ISO text. *)
Record ResourceState := {
  instances : Z;
  resources : gmap string Q;
  status : string;
  last_updated : string;
  scaling_events : list ScalingEvent
}.

(** The decision dict handed to [execute_scaling_decision]: the four keys
    the manager reads, each of which a caller may have left out. *)
Record Decision := {
  action : option string;
  recommended_instances : option Z;
  recommended_resources : option (gmap string Q);
  reason : option string
}.

(** A provisioned or terminated instance descriptor. *)
Record Instance := {
  id : string;
  inst_cpu_cores : option Q;
  inst_memory_gb : option Q;
  inst_storage_gb : option Q;
  inst_status : string
}.

(** The dict returned by the three operations. *)
Inductive OperationResult :=
  | ScaledUp (instances_added new_total_instances : Z)
             (provisioned_instances : list Instance)
             (resource_allocation : gmap string Q)
  | ScaledDown (instances_removed new_total_instances : Z)
               (removed_instances : list Instance)
               (resource_allocation : gmap string Q)
  | Maintained (instances_maintained : Z) (optimization_applied : bool)
               (resource_allocation : gmap string Q).

(** [dict(self.current_state)], the shallow copy kept as [previous_state]:
    its scalar entries.  The copy shares the [scaling_events] list object
    with the live state and is only ever read for ['instances']. *)
Record PreviousState := {
  prev_instances : Z;
  prev_resources : gmap string Q;
  prev_status : string;
  prev_last_updated : string
}.

(** [execution_result]; [decision_id] (an object address) is left out. *)
Record ExecutionResult := {
  er_timestamp : string;
  er_action : string;
  er_status : string;
  execution_time_seconds : Q;
  previous_state : PreviousState;
  errors : list string;
  warnings : list string;
  operation : option OperationResult
}.

(** The manager object: its state, its log, and the content of the state
    file ([None] before the first write). *)
Record ResourceManager := {
  current_state : ResourceState;
  execution_history : list ExecutionResult;
  state_file : option ResourceState
}.

(** What the world contributes to one call: the two readings of the clock
    ([datetime.now().isoformat()] on entry and in [_save_state]) and the
    behaviour of the simulated infrastructure action of a checklist step
    ([print] of the given line, then [time.sleep]): [None] when it
    completes, the exception text when it raises. *)
Record World := {
  now_on_entry : string;
  now_on_save : string;
  step_raises : string -> option string
}.

(** The world in which every simulated action completes. *)
Definition calm (t_entry t_save : string) : World :=
  {| now_on_entry := t_entry; now_on_save := t_save;
     step_raises := fun _ => None |}.

Definition run_step {S} (w : World) (line : string) : M S unit :=
  match step_raises w line with
  | None => ret tt
  | Some msg => raise msg
  end.

Definition set_instances (n : Z) (s : ResourceState) : ResourceState :=
  {| instances := n; resources := resources s; status := status s;
     last_updated := last_updated s; scaling_events := scaling_events s |}.

Definition set_resources (r : gmap string Q) (s : ResourceState)
    : ResourceState :=
  {| instances := instances s; resources := r; status := status s;
     last_updated := last_updated s; scaling_events := scaling_events s |}.

Definition set_last_updated (t : string) (s : ResourceState) : ResourceState :=
  {| instances := instances s; resources := resources s; status := status s;
     last_updated := t; scaling_events := scaling_events s |}.

Definition set_scaling_events (evs : list ScalingEvent) (s : ResourceState)
    : ResourceState :=
  {| instances := instances s; resources := resources s; status := status s;
     last_updated := last_updated s; scaling_events := evs |}.

Definition _simulate_scaling_time (action : string) : Q :=
  if (action =? "scale_up")%string then 2.0%Q
  else if (action =? "scale_down")%string then 1.0%Q
  else 0.5%Q.

Definition provisioning_steps : list string :=
  [ "Requesting compute resources";
    "Allocating CPU and memory";
    "Setting up networking";
    "Installing application";
    "Running health checks";
    "Adding to load balancer" ].

Definition shutdown_steps : list string :=
  [ "Draining connections";
    "Removing from load balancer";
    "Stopping application";
    "Backing up data";
    "Deallocating resources" ].

Definition maintenance_checks : list string :=
  [ "Performing health checks";
    "Optimizing resource allocation";
    "Updating monitoring configuration" ].

Definition _scale_up (w : World) (decision : Decision)
    : M ResourceState OperationResult :=
  (state <- get ;;
   let current_instances := instances state in
   target_instances <- item (recommended_instances decision)
                            "recommended_instances" ;;
   let new_instances := target_instances - current_instances in
   provisioned_instances <-
     for_each (seqZ 0 new_instances) (fun i =>
       let instance_id := "instance-" +:+ pretty (current_instances + i + 1) in
       for_each provisioning_steps (fun step =>
         run_step w ("  " +:+ instance_id +:+ ": " +:+ step +:+ "...")) ;;;
       recommended <- item (recommended_resources decision)
                           "recommended_resources" ;;
       cpu <- item (recommended !! "cpu_per_instance") "cpu_per_instance" ;;
       memory <- item (recommended !! "memory_per_instance")
                      "memory_per_instance" ;;
       storage <- item (recommended !! "storage_per_instance")
                       "storage_per_instance" ;;
       ret {| id := instance_id;
              inst_cpu_cores := Some cpu;
              inst_memory_gb := Some memory;
              inst_storage_gb := Some storage;
              inst_status := "active" |}) ;;
   allocation <- item (recommended_resources decision)
                      "recommended_resources" ;;
   ret (ScaledUp new_instances target_instances provisioned_instances
                 allocation))%py.

Definition _scale_down (w : World) (decision : Decision)
    : M ResourceState OperationResult :=
  (state <- get ;;
   let current_instances := instances state in
   target_instances <- item (recommended_instances decision)
                            "recommended_instances" ;;
   let instances_to_remove := current_instances - target_instances in
   removed_instances <-
     for_each (seqZ 0 instances_to_remove) (fun i =>
       let instance_id := "instance-" +:+ pretty (current_instances - i) in
       for_each shutdown_steps (fun step =>
         run_step w ("  " +:+ instance_id +:+ ": " +:+ step +:+ "...")) ;;;
       ret {| id := instance_id;
              inst_cpu_cores := None;
              inst_memory_gb := None;
              inst_storage_gb := None;
              inst_status := "terminated" |}) ;;
   allocation <- item (recommended_resources decision)
                      "recommended_resources" ;;
   ret (ScaledDown instances_to_remove target_instances removed_instances
                   allocation))%py.

Definition _maintain_resources (w : World) (decision : Decision)
    : M ResourceState OperationResult :=
  (for_each maintenance_checks (fun check =>
     run_step w ("  " +:+ check +:+ "...")) ;;;
   state <- get ;;
   ret (Maintained (instances state) true (resources state)))%py.

(** [_update_state], called with a result whose status is ['completed']. *)
Definition _update_state (decision : Decision)
    (execution_result : ExecutionResult) : M ResourceState unit :=
  if (er_status execution_result =? "completed")%string then
    (action <- item (action decision) "action" ;;
     (if (action =? "scale_up")%string || (action =? "scale_down")%string
      then
        n <- item (recommended_instances decision) "recommended_instances" ;;
        modify (set_instances n) ;;;
        r <- item (recommended_resources decision) "recommended_resources" ;;
        modify (set_resources r)
      else ret tt) ;;;
     state <- get ;;
     reason <- item (reason decision) "reason" ;;
     let scaling_event :=
       {| ev_timestamp := er_timestamp execution_result;
          ev_action := action;
          instances_before :=
            prev_instances (previous_state execution_result);
          instances_after := instances state;
          ev_reason := reason;
          execution_time := execution_time_seconds execution_result |} in
     modify (fun s =>
       set_scaling_events (scaling_events s ++ [scaling_event]) s) ;;;
     state <- get ;;
     if (50 <? length (scaling_events state))%nat then
       modify (set_scaling_events (Py.take_last 50 (scaling_events state)))
     else ret tt)%py
  else ret tt.

Definition snapshot (s : ResourceState) : PreviousState :=
  {| prev_instances := instances s; prev_resources := resources s;
     prev_status := status s; prev_last_updated := last_updated s |}.

Definition set_status (st : string) (r : ExecutionResult) : ExecutionResult :=
  {| er_timestamp := er_timestamp r; er_action := er_action r;
     er_status := st;
     execution_time_seconds := execution_time_seconds r;
     previous_state := previous_state r; errors := errors r;
     warnings := warnings r; operation := operation r |}.

Definition add_error (msg : string) (r : ExecutionResult) : ExecutionResult :=
  {| er_timestamp := er_timestamp r; er_action := er_action r;
     er_status := er_status r;
     execution_time_seconds := execution_time_seconds r;
     previous_state := previous_state r; errors := errors r ++ [msg];
     warnings := warnings r; operation := operation r |}.

(** [execution_result.update(result)]. *)
Definition update_with (result : OperationResult) (r : ExecutionResult)
    : ExecutionResult :=
  {| er_timestamp := er_timestamp r; er_action := er_action r;
     er_status := er_status r;
     execution_time_seconds := execution_time_seconds r;
     previous_state := previous_state r; errors := errors r;
     warnings := warnings r; operation := Some result |}.

(** The two objects the [try] block of [execute_scaling_decision] works
    on: the result under construction and the live state. *)
Definition on_result {A} (c : M ExecutionResult A)
    : M (ExecutionResult * ResourceState) A :=
  on_part fst (fun r p => (r, snd p)) c.

Definition on_state {A} (c : M ResourceState A)
    : M (ExecutionResult * ResourceState) A :=
  on_part snd (fun s p => (fst p, s)) c.

(** The body of the [try] block. *)
Definition try_body (w : World) (decision : Decision)
    : M (ExecutionResult * ResourceState) unit :=
  (action <- item (action decision) "action" ;;
   result <-
     on_state
       (if (action =? "scale_up")%string then _scale_up w decision
        else if (action =? "scale_down")%string then _scale_down w decision
        else _maintain_resources w decision) ;;
   on_result (modify (update_with result)) ;;;
   on_result (modify (set_status "completed")) ;;;
   execution_result <- on_result get ;;
   on_state (_update_state decision execution_result))%py.

(** The [except Exception as e] handler. *)
Definition except_handler (msg : string)
    : M (ExecutionResult * ResourceState) unit :=
  (on_result (modify (set_status "failed")) ;;;
   on_result (modify (add_error msg)))%py.

(** [_save_state]: stamp the state and write it to the state file; the
    write itself is taken to succeed. *)
Definition _save_state (w : World) : M ResourceManager unit :=
  modify (fun self =>
    let state := set_last_updated (now_on_save w) (current_state self) in
    {| current_state := state;
       execution_history := execution_history self;
       state_file := Some state |}).

Definition execute_scaling_decision (w : World) (decision : Decision)
    : M ResourceManager ExecutionResult :=
  (let timestamp := now_on_entry w in
   action <- item (action decision) "action" ;;
   let execution_time := _simulate_scaling_time action in
   self <- get ;;
   let execution_result :=
     {| er_timestamp := timestamp;
        er_action := action;
        er_status := "started";
        execution_time_seconds := execution_time;
        previous_state := snapshot (current_state self);
        errors := [];
        warnings := [];
        operation := None |} in
   execution_result <-
     on_part (fun self => (execution_result, current_state self))
             (fun p self =>
                {| current_state := snd p;
                   execution_history := execution_history self;
                   state_file := state_file self |})
       (try_except (try_body w decision) except_handler ;;;
        on_result get) ;;
   modify (fun self =>
     {| current_state := current_state self;
        execution_history := execution_history self ++ [execution_result];
        state_file := state_file self |}) ;;;
   _save_state w ;;;
   ret execution_result)%py.

(** What [rollback_last_scaling] returns: the small "nothing to roll back"
    dict, or the result of the execution. *)
Inductive RollbackResult :=
  | NothingToRollback (rb_status rb_reason : string)
  | Executed (result : ExecutionResult).

Definition rollback_decision (last_event : ScalingEvent) : Decision :=
  {| action := Some "rollback";
     recommended_instances := Some (instances_before last_event);
     reason :=
       Some ("Rollback of " +:+ ev_action last_event +:+ " from "
               +:+ ev_timestamp last_event);
     recommended_resources := Some ∅ |}.

Definition rollback_last_scaling (w : World) : M ResourceManager RollbackResult :=
  (self <- get ;;
   match last (scaling_events (current_state self)) with
   | None =>
       ret (NothingToRollback "failed" "No scaling events to rollback")
   | Some last_event =>
       result <- execute_scaling_decision w (rollback_decision last_event) ;;
       ret (Executed result)
   end)%py.

(** [get_scaling_history(limit)]: the slice [scaling_events[-limit:]]. *)
Definition get_scaling_history (self : ResourceManager) (limit : Z)
    : list ScalingEvent :=
  Py.slice_last limit (scaling_events (current_state self)).

(** A manager as [__init__] leaves it when no state file exists, on a host
    with the given resources. *)
Definition fresh (host : gmap string Q) (now : string) : ResourceManager :=
  {| current_state :=
       {| instances := 1; resources := host; status := "active";
          last_updated := now; scaling_events := [] |};
     execution_history := [];
     state_file := None |}.

(** A sequence of calls of [execute_scaling_decision], each in its world;
    the results are returned in call order. *)
Definition execute_all (calls : list (World * Decision))
    : M ResourceManager (list ExecutionResult) :=
  for_each calls (fun call =>
    execute_scaling_decision (fst call) (snd call)).

(** The dict returned by [_calculate_cost_estimate]. *)
Record CostEstimate := {
  hourly_cost : Q;
  daily_cost : Q;
  monthly_cost : Q;
  cost_per_instance : Q
}.

Definition _calculate_cost_estimate (self : ResourceManager) : CostEstimate :=
  let instances := instances (current_state self) in
  let cost_per_instance_hour := 0.10%Q in
  let hourly_cost := (inject_Z instances * cost_per_instance_hour)%Q in
  {| hourly_cost := Py.round hourly_cost 2;
     daily_cost := Py.round (hourly_cost * 24) 2;
     monthly_cost := Py.round (hourly_cost * 24 * 30) 2;
     cost_per_instance := cost_per_instance_hour |}.

(** The dict returned by [_calculate_uptime]. *)
Record Uptime := {
  success_rate_percent : Q;
  total_scaling_events : nat;
  failed_events : nat;
  current_status : string
}.

Definition _calculate_uptime (self : ResourceManager) : Uptime :=
  let total_events := length (scaling_events (current_state self)) in
  let failed_events :=
    length (List.filter (fun e => (er_status e =? "failed")%string)
              (execution_history self)) in
  let success_rate :=
    if (total_events =? 0)%nat then 1.0%Q
    else (inject_Z (Z.of_nat total_events - Z.of_nat failed_events)
          / inject_Z (Z.of_nat total_events))%Q in
  {| success_rate_percent := Py.round (success_rate * 100) 2;
     total_scaling_events := total_events;
     failed_events := failed_events;
     current_status := status (current_state self) |}.

(** The dict returned by [_calculate_utilization]. *)
Record Utilization := {
  cpu_utilization_percent : Q;
  memory_utilization_percent : Q;
  storage_utilization_percent : Q;
  network_utilization_percent : Q
}.

(** [self.metrics_collector]: absent, or a collector of which one call
    uses [collect_metrics()] (which may raise) and
    [get_recent_metrics(5)]. *)
Inductive Telemetry :=
  | NoCollector
  | WithCollector (collect : outcome Predictor.MetricSample)
                  (recent : list Predictor.MetricSample).

(** The direct operating-system readings of the fallback branch:
    [psutil.cpu_percent], [psutil.virtual_memory().percent] (either may
    raise), [shutil.disk_usage] as (total, used) or [None] when it raises,
    and [psutil.net_io_counters()]. *)
Record Psutil := {
  ps_cpu_percent : outcome Q;
  ps_memory_percent : outcome Q;
  ps_disk_usage : option (Z * Z);
  ps_net_io : Collector.NetReading
}.

Definition static_utilization : Utilization :=
  {| cpu_utilization_percent := 25.0;
     memory_utilization_percent := 20.0;
     storage_utilization_percent := 15.0;
     network_utilization_percent := 10.0 |}.

Definition rounded_utilization (cpu memory disk network : Q) : Utilization :=
  {| cpu_utilization_percent := Py.round cpu 1;
     memory_utilization_percent := Py.round memory 1;
     storage_utilization_percent := Py.round disk 1;
     network_utilization_percent := Py.round network 1 |}.

Definition _calculate_utilization (telemetry : Telemetry) (os : Psutil)
    : Utilization :=
  match telemetry with
  | WithCollector collect recent_metrics =>
      match collect with
      | Raise _ => static_utilization
      | Ok current_metrics =>
          let cpu_utilization := Predictor.cpu_percent current_metrics in
          let memory_utilization :=
            Predictor.memory_percent current_metrics in
          let network_utilization :=
            match recent_metrics with
            | [] => 10.0%Q
            | first :: others =>
                let network_bytes :=
                  map (fun m => Predictor.network_bytes_sent m
                                + Predictor.network_bytes_recv m)
                      recent_metrics in
                if (1 <? length network_bytes)%nat then
                  let newest :=
                    List.last network_bytes
                      (Predictor.network_bytes_sent first
                       + Predictor.network_bytes_recv first) in
                  let oldest :=
                    Predictor.network_bytes_sent first
                    + Predictor.network_bytes_recv first in
                  let rate :=
                    (inject_Z (newest - oldest) / Py.len network_bytes)%Q in
                  Py.min2 100 (Py.max2 0 (rate / 1024 / 1024))
                else 10.0%Q
            end in
          let disk_utilization := Predictor.disk_percent current_metrics in
          rounded_utilization cpu_utilization memory_utilization
            disk_utilization network_utilization
      end
  | NoCollector =>
      match ps_cpu_percent os, ps_memory_percent os with
      | Ok cpu_utilization, Ok memory_utilization =>
          let disk_utilization :=
            match ps_disk_usage os with
            | Some (total, used) =>
                if total =? 0 then 50.0%Q
                else (inject_Z used / inject_Z total * 100)%Q
            | None => 50.0%Q
            end in
          let network_utilization :=
            match ps_net_io os with
            | Collector.NetCounters bytes_sent bytes_recv =>
                let total_bytes := bytes_sent + bytes_recv in
                Py.min2 50 (inject_Z total_bytes / inject_Z (1024 ^ 3) * 10)
            | Collector.NetNone => 5.0%Q
            | Collector.NetRaised => 5.0%Q
            end in
          rounded_utilization cpu_utilization memory_utilization
            disk_utilization network_utilization
      | _, _ => static_utilization
      end
  end.

(** A value of the state document. *)
Inductive StateValue :=
  | SNumber (n : Z)
  | STable (r : gmap string Q)
  | SText (s : string)
  | SEvents (evs : list ScalingEvent).

(** The host as [_load_state] measures it: [psutil.virtual_memory().total],
    [psutil.cpu_count()], and the total of [shutil.disk_usage], or [None]
    when that raises. *)
Record Host := {
  memory_total : Z;
  cpu_count : Z;
  disk_total : option Z
}.

(** The state dict, key by key, as [json.dump] writes it. *)
Definition state_document (s : ResourceState) : gmap string StateValue :=
  {[ "instances" := SNumber (instances s);
     "resources" := STable (resources s);
     "status" := SText (status s);
     "last_updated" := SText (last_updated s);
     "scaling_events" := SEvents (scaling_events s) ]}.

(** [_load_state]: the state dict a manager starts from. *)
Definition _load_state (host : Host) (now : string)
    (file : FileContent StateValue) : gmap string StateValue :=
  let memory_gb :=
    Py.round (inject_Z (memory_total host) / inject_Z (1024 ^ 3)) 1 in
  let cpu_cores := inject_Z (cpu_count host) in
  let storage_gb :=
    match disk_total host with
    | Some total => Py.round (inject_Z total / inject_Z (1024 ^ 3)) 1
    | None => 500%Q
    end in
  let default_state : gmap string StateValue :=
    {[ "instances" := SNumber 1;
       "resources" :=
         STable {[ "total_cpu_cores" := cpu_cores;
                   "total_memory_gb" := memory_gb;
                   "total_storage_gb" := storage_gb;
                   "cpu_per_instance" := cpu_cores;
                   "memory_per_instance" := memory_gb;
                   "storage_per_instance" := storage_gb ]};
       "status" := SText "active";
       "last_updated" := SText now;
       "scaling_events" := SEvents [] ]} in
  update_from file default_state.

End Manager.

(** ** Vocabulary of the statements about the forecaster *)

Module PredictorSpec.

Import Predictor.

(** A load value in the range of a load score. *)
Definition in_range (x : Q) : Prop := (0 <= x <= 100)%Q.

(** The window after one pass of the forecasting loop over [window]: a
    prediction extends it by the synthetic sample, anything else leaves it
    as it is. *)
Definition next_window (p : DemandPredictor) (window : list MetricSample)
    : list MetricSample :=
  match model_step p window, last window with
  | Predicted prediction, Some last_metric =>
      window ++ [_create_synthetic_metric last_metric
                   (Py.max2 0 (Py.min2 100 prediction))]
  | _, _ => window
  end.

(** The window that pass number [k] of the loop works on. *)
Fixpoint window_at (p : DemandPredictor) (window : list MetricSample)
    (k : nat) : list MetricSample :=
  match k with
  | O => window
  | S k' => window_at p (next_window p window) k'
  end.

(** Pass [k] fails on its own: no complete row, or an exception in the
    inner [try]. *)
Definition step_fails (p : DemandPredictor) (window : list MetricSample)
    (k : nat) : Prop :=
  model_step p (window_at p window k) = NoCompleteRow \/
  model_step p (window_at p window k) = StepError.

(** [m] is a greatest element of [xs]. *)
Definition is_max (m : Q) (xs : list Q) : Prop :=
  (exists x, In x xs /\ (x == m)%Q) /\ Forall (fun x => (x <= m)%Q) xs.

(** A predictor and samples to run the statements on. *)

Definition sample (load : Q) : MetricSample :=
  {| timestamp := 0; cpu_percent := 10; memory_percent := 20;
     memory_used_gb := 1; disk_percent := 30;
     network_bytes_sent := 0; network_bytes_recv := 0;
     response_time_ms := 70; active_connections := 150;
     load_score := load |}.

Definition untrained : DemandPredictor :=
  {| is_trained := false; model_step := fun _ => StepError |}.

(** A trained predictor whose model fails on windows of exactly six samples
    and predicts 120 on all others. *)
Definition moody : DemandPredictor :=
  {| is_trained := true;
     model_step := fun window =>
       if (length window =? 6)%nat then StepError else Predicted 120 |}.

Definition five_samples : list MetricSample :=
  [sample 10; sample 20; sample 30; sample 40; sample 42].

End PredictorSpec.

(** ** Vocabulary of the statements about the decision engine *)

Module EngineSpec.

Import Engine.

(** The instance count lies in the configured interval. *)
Definition within_instance_bounds (config : Config) (n : Z) : Prop :=
  min_instances config <= n <= max_instances config.

(** A resource total, when the allocation has one, is at most its ceiling. *)
Definition at_most (limit : Q) (total : option Q) : Prop :=
  match total with
  | Some v => (v <= limit)%Q
  | None => True
  end.

Definition within_ceilings (config : Config) (r : gmap string Q) : Prop :=
  at_most (cpu_cores (resource_limits config)) (r !! "total_cpu_cores") /\
  at_most (memory_gb (resource_limits config)) (r !! "total_memory_gb") /\
  at_most (storage_gb (resource_limits config)) (r !! "total_storage_gb").

Definition within_limits (config : Config) (d : ScalingDecision) : Prop :=
  within_instance_bounds config (recommended_instances d) /\
  within_ceilings config (recommended_resources d).

(** One of the two gates of [make_scaling_decision] turns the
    recommendation down. *)
Definition vetoed (config : Config) (current_time : Q)
    (recommendation : Predictor.Recommendation)
    (recent_decisions : list PriorDecision) : bool :=
  negb (allowed (_check_cooldown config current_time recent_decisions))
  || Py.ltb (Predictor.confidence recommendation)
            (confidence_threshold config).

(** The cooldown that applies after a prior decision of this direction. *)
Definition cooldown_of (config : Config) (d : PriorDecision) : Q :=
  if (pd_action d =? "scale_up")%string then scale_up_cooldown config
  else scale_down_cooldown config.

(** The prior decision is a scaling action still inside its cooldown. *)
Definition in_cooldown (config : Config) (current_time : Q)
    (d : PriorDecision) : Prop :=
  (pd_action d = "scale_up" \/ pd_action d = "scale_down") /\
  (current_time - pd_timestamp d < cooldown_of config d)%Q.

(** A host whose own resources exceed the default ceilings: the state the
    resource manager starts from on a machine with 32 cores and 64 GB. *)
Definition big_host : gmap string Q :=
  {[ "total_cpu_cores" := 32%Q; "total_memory_gb" := 64%Q;
     "total_storage_gb" := 1000%Q; "cpu_per_instance" := 32%Q;
     "memory_per_instance" := 64%Q; "storage_per_instance" := 1000%Q ]}.

Definition on_big_host : CurrentState :=
  {| current_instances := Some 1; load_score := Some 50%Q;
     current_resources := Some big_host |}.

(** Twelve instances running, under the default maximum of ten. *)
Definition twelve_running : CurrentState :=
  {| current_instances := Some 12; load_score := Some 50%Q;
     current_resources := Some ∅ |}.

Definition plain (digits : nat) (x : Q) : string := "".

(** The recommendation of the forecaster on five predictions of 90 at a
    current load of 50: scale_up with confidence 0.5. *)
Definition high_load : Predictor.Recommendation :=
  Predictor.get_scaling_recommendation plain [90; 90; 90; 90; 90]%Q 50.

(** A confident scale_up recommendation. *)
Definition confident_up : Predictor.Recommendation :=
  {| Predictor.action := "scale_up"; Predictor.confidence := 0.8;
     Predictor.reason := "High load predicted";
     Predictor.predicted_load := Some 85%Q;
     Predictor.max_predicted_load := Some 100%Q;
     Predictor.trend := Some 35%Q |}.

Definition small_config : Config :=
  {| min_instances := 1; max_instances := 3;
     scale_up_threshold := 70; scale_down_threshold := 30;
     scale_up_cooldown := 300; scale_down_cooldown := 600;
     confidence_threshold := 0.6;
     resource_limits :=
       {| cpu_cores := 16; memory_gb := 32; storage_gb := 500 |} |}.

Definition one_running : CurrentState :=
  {| current_instances := Some 1; load_score := Some 75%Q;
     current_resources := Some ∅ |}.

(** A scale_up decided at second 1000. *)
Definition scaled_up_at_1000 : PriorDecision :=
  {| pd_timestamp := 1000; pd_action := "scale_up" |}.

End EngineSpec.

(** ** Vocabulary of the statements about the resource manager *)

Module ManagerSpec.

Import Manager.

Definition is_scaling (a : string) : bool :=
  (a =? "scale_up")%string || (a =? "scale_down")%string.

(** The result dict as [execute_scaling_decision] first builds it. *)
Definition started (w : World) (a : string) (self : ResourceManager)
    : ExecutionResult :=
  {| er_timestamp := now_on_entry w;
     er_action := a;
     er_status := "started";
     execution_time_seconds := _simulate_scaling_time a;
     previous_state := snapshot (current_state self);
     errors := [];
     warnings := [];
     operation := None |}.

(** The operation that the action selects. *)
Definition operation_for (w : World) (d : Decision) (a : string)
    : M ResourceState OperationResult :=
  if (a =? "scale_up")%string then _scale_up w d
  else if (a =? "scale_down")%string then _scale_down w d
  else _maintain_resources w d.

(** The computation leaves the object as it found it. *)
Definition read_only {S A} (c : M S A) : Prop := forall s, snd (c s) = s.

(** The line that a simulated step on the numbered instance prints. *)
Definition instance_line (number : Z) (step : string) : string :=
  "  " +:+ ("instance-" +:+ pretty number) +:+ ": " +:+ step +:+ "...".

(** The checklist of the operation for action [a] on state [s]: the lines
    of its simulated steps, in the order in which it works through them
    when nothing stops it. *)
Definition checklist (d : Decision) (a : string) (s : ResourceState)
    : list string :=
  if (a =? "scale_up")%string then
    match recommended_instances d with
    | Some target =>
        concat
          (map (fun i =>
                  map (instance_line (instances s + i + 1)) provisioning_steps)
               (seqZ 0 (target - instances s)))
    | None => []
    end
  else if (a =? "scale_down")%string then
    match recommended_instances d with
    | Some target =>
        concat
          (map (fun i =>
                  map (instance_line (instances s - i)) shutdown_steps)
               (seqZ 0 (instances s - target)))
    | None => []
    end
  else map (fun check => "  " +:+ check +:+ "...") maintenance_checks.

(** The simulated action of some step of that checklist raises. *)
Definition checklist_step_raises (w : World) (d : Decision) (a : string)
    (s : ResourceState) : Prop :=
  Exists (fun line => is_Some (step_raises w line)) (checklist d a s).

(** The event list after a new event is recorded: appended at the end, and
    cut back to the last fifty when longer. *)
Definition record_event (ev : ScalingEvent) (evs : list ScalingEvent)
    : list ScalingEvent :=
  if (50 <? length (evs ++ [ev]))%nat then Py.take_last 50 (evs ++ [ev])
  else (evs ++ [ev])%list.

(** The event that [_update_state] builds from the result [r], for action
    [a], instance count [after] and reason [why]. *)
Definition event_of (r : ExecutionResult) (a : string) (after : Z)
    (why : string) : ScalingEvent :=
  {| ev_timestamp := er_timestamp r;
     ev_action := a;
     instances_before := prev_instances (previous_state r);
     instances_after := after;
     ev_reason := why;
     execution_time := execution_time_seconds r |}.

(** The manager after the log entry and [_save_state]. *)
Definition saved (w : World) (r : ExecutionResult) (s : ResourceState)
    (self : ResourceManager) : ResourceManager :=
  {| current_state := set_last_updated (now_on_save w) s;
     execution_history := execution_history self ++ [r];
     state_file := Some (set_last_updated (now_on_save w) s) |}.

(** The allocation and the event log are the same in both states. *)
Definition same_allocation (before after : ResourceState) : Prop :=
  instances after = instances before /\
  resources after = resources before /\
  scaling_events after = scaling_events before.

(** The event records a scale_up or scale_down. *)
Definition records_scaling_transition (ev : ScalingEvent) : Prop :=
  ev_action ev = "scale_up" \/ ev_action ev = "scale_down".

(** The event changes the instance count. *)
Definition changes_instance_count (ev : ScalingEvent) : Prop :=
  instances_before ev <> instances_after ev.

(** All the calls completed. *)
Definition all_completed (results : list ExecutionResult) : Prop :=
  Forall (fun r => er_status r = "completed") results.

(** Scenarios. *)

Definition small_allocation : gmap string Q :=
  {[ "total_cpu_cores" := 6%Q; "total_memory_gb" := 12%Q;
     "total_storage_gb" := 60%Q; "cpu_per_instance" := 2%Q;
     "memory_per_instance" := 4%Q; "storage_per_instance" := 20%Q ]}.

Definition up_to_three : Decision :=
  {| action := Some "scale_up";
     recommended_instances := Some 3;
     recommended_resources := Some small_allocation;
     reason := Some "Test scaling operation" |}.

Definition keep_as_is : Decision :=
  {| action := Some "maintain";
     recommended_instances := Some 1;
     recommended_resources := Some small_allocation;
     reason := Some "Test execution" |}.

(** The same scale_up, without the ['reason'] key. *)
Definition up_to_three_unexplained : Decision :=
  {| action := Some "scale_up";
     recommended_instances := Some 3;
     recommended_resources := Some small_allocation;
     reason := None |}.

Definition just_started : ResourceManager := fresh small_allocation "t0".

(** A world in which installing the application on the third instance
    raises. *)
Definition install_fails : World :=
  {| now_on_entry := "t1"; now_on_save := "t2";
     step_raises := fun line =>
       if (line =? "  instance-3: Installing application...")%string
       then Some "installation failed" else None |}.

(** The manager after a completed scale_up from one to three instances. *)
Definition scaled_to_three : ResourceManager :=
  snd (execute_scaling_decision (calm "t1" "t2") up_to_three just_started).

(** A scale_up without the ['recommended_instances'] key. *)
Definition up_without_count : Decision :=
  {| action := Some "scale_up";
     recommended_instances := None;
     recommended_resources := Some small_allocation;
     reason := Some "Test scaling operation" |}.

(** A dict without the ['action'] key. *)
Definition without_action : Decision :=
  {| action := None;
     recommended_instances := Some 3;
     recommended_resources := Some small_allocation;
     reason := Some "Test scaling operation" |}.

Definition an_event : ScalingEvent :=
  {| ev_timestamp := "t0"; ev_action := "maintain";
     instances_before := 1; instances_after := 1;
     ev_reason := "Test execution"; execution_time := 0.5 |}.

(** The event log of a state file that holds fifty-one events. *)
Definition fifty_one_events : list ScalingEvent := replicate 51 an_event.

(** The manager that [__init__] builds from that state file: [_load_state]
    takes the log as the file has it. *)
Definition overlong : ResourceManager :=
  {| current_state :=
       {| instances := 1; resources := small_allocation; status := "active";
          last_updated := "t0"; scaling_events := fifty_one_events |};
     execution_history := [];
     state_file := None |}.

(** Fifty-five scale_up decisions, each run in a world where no step
    raises. *)
Definition fifty_five_calls : list (World * Decision) :=
  replicate 55 (calm "t1" "t2", up_to_three).

End ManagerSpec.

(** ** Further vocabulary about the resource manager *)

Module ManagerTerms.

Import Manager.

(** No simulated action raises in this world. *)
Definition calm_world (w : World) : Prop :=
  forall line, step_raises w line = None.

(** The allocation names the three per-instance sizes. *)
Definition sized_per_instance (r : gmap string Q) : Prop :=
  is_Some (r !! "cpu_per_instance") /\
  is_Some (r !! "memory_per_instance") /\
  is_Some (r !! "storage_per_instance").

(** The descriptor of a provisioned instance. *)
Definition active_instance (r : gmap string Q) (number : Z) : Instance :=
  {| id := "instance-" +:+ pretty number;
     inst_cpu_cores := r !! "cpu_per_instance";
     inst_memory_gb := r !! "memory_per_instance";
     inst_storage_gb := r !! "storage_per_instance";
     inst_status := "active" |}.

(** The descriptor of a terminated instance. *)
Definition terminated_instance (number : Z) : Instance :=
  {| id := "instance-" +:+ pretty number;
     inst_cpu_cores := None; inst_memory_gb := None;
     inst_storage_gb := None; inst_status := "terminated" |}.

(** The decision has what its operation and [_update_state] read. *)
Definition executable (current : Z) (d : Decision) : Prop :=
  exists a,
    action d = Some a /\ is_Some (reason d) /\
    (ManagerSpec.is_scaling a = true ->
       exists n r,
         recommended_instances d = Some n /\
         recommended_resources d = Some r /\
         (a = "scale_up" -> current < n -> sized_per_instance r)).

(** The decision has what its operation and [_update_state] read, whatever
    the state it is executed on. *)
Definition complete_decision (d : Decision) : Prop :=
  exists a,
    action d = Some a /\ is_Some (reason d) /\
    (ManagerSpec.is_scaling a = true ->
       exists n r,
         recommended_instances d = Some n /\
         recommended_resources d = Some r /\
         (a = "scale_up" -> sized_per_instance r)).

(** A call that cannot fail: no step raises, and nothing is missing. *)
Definition sound_call (call : World * Decision) : Prop :=
  calm_world (fst call) /\ complete_decision (snd call).

(** The number of failed executions in the log. *)
Definition failures (self : ResourceManager) : nat :=
  length (List.filter (fun e => (er_status e =? "failed")%string)
            (execution_history self)).

(** The keys of a state document. *)
Definition state_keys : list string :=
  ["instances"; "resources"; "status"; "last_updated"; "scaling_events"].

Definition a_host : Host :=
  {| memory_total := 17179869184; cpu_count := 8;
     disk_total := Some 536870912000 |}.

(** A state file that only sets the instance count. *)
Definition only_instances : gmap string StateValue :=
  {[ "instances" := SNumber 4 ]}.

(** What [update] assigns from the state file [[["instances", 5], 3]]. *)
Definition instances_then_junk : list (string * StateValue) :=
  [("instances", SNumber 5)].

(** An operating system whose CPU reading fails. *)
Definition blind_os : Psutil :=
  {| ps_cpu_percent := Raise "access denied";
     ps_memory_percent := Ok 40%Q;
     ps_disk_usage := None;
     ps_net_io := Collector.NetNone |}.

Definition scale_down_to_one : Decision :=
  {| action := Some "scale_down";
     recommended_instances := Some 1;
     recommended_resources := Some ManagerSpec.small_allocation;
     reason := Some "Low load predicted" |}.

End ManagerTerms.

(** ** Further vocabulary about the decision engine *)

Module EngineTerms.

Import Engine.

(** The instance count the engine works from. *)
Definition current_count (current_state : CurrentState) : Z :=
  default 1 (current_instances current_state).

(** The load that sizes a decision: the recommendation's maximum predicted
    load, else the current load score, else 50. *)
Definition sizing_load (current_state : CurrentState)
    (recommendation : Predictor.Recommendation) : Q :=
  default (default 50%Q (load_score current_state))
          (Predictor.max_predicted_load recommendation).

(** The six keys of a resource allocation. *)
Definition allocation_keys : list string :=
  ["total_cpu_cores"; "total_memory_gb"; "total_storage_gb";
   "cpu_per_instance"; "memory_per_instance"; "storage_per_instance"].

(** The action turned out wrong for the load that followed: a scale_up
    followed by at most 50, a scale_down followed by at least 50, or
    anything else followed by a load outside [30, 70]. *)
Definition misjudged (action : string) (avg_actual_load : Q) : Prop :=
  (action = "scale_up" /\ (avg_actual_load <= 50)%Q) \/
  (action = "scale_down" /\ (50 <= avg_actual_load)%Q) \/
  (action <> "scale_up" /\ action <> "scale_down" /\
   ((avg_actual_load < 30)%Q \/ (70 < avg_actual_load)%Q)).

(** Every load that followed shows the action to have been wrong: a
    scale_up followed only by loads of at most 50, a scale_down followed
    only by loads of at least 50, or anything else followed only by loads
    below 30 or only by loads above 70. *)
Definition followed_by_the_wrong_loads (action : string) (loads : list Q)
    : Prop :=
  (action = "scale_up" /\ Forall (fun x => (x <= 50)%Q) loads) \/
  (action = "scale_down" /\ Forall (fun x => (50 <= x)%Q) loads) \/
  (action <> "scale_up" /\ action <> "scale_down" /\
   (Forall (fun x => (x < 30)%Q) loads \/
    Forall (fun x => (70 < x)%Q) loads)).



(** A full decision to scale up. *)
Definition a_scale_up : ScalingDecision :=
  make_scaling_decision EngineSpec.plain default_config 0 0
    EngineSpec.one_running EngineSpec.confident_up [].

End EngineTerms.

(** ** Further vocabulary about the forecaster and the collector *)

Module PredictorTerms.

Import Predictor.

(** The clamp of a prediction to the range of a load score. *)
Definition clamp (x : Q) : Q := Py.max2 0 (Py.min2 100 x).

(** Each value is at most the next one. *)
Definition nondecreasing (xs : list Q) : Prop :=
  forall (i : nat) a b,
    xs !! i = Some a -> xs !! S i = Some b -> (a <= b)%Q.

(** Each value is at least the next one. *)
Definition nonincreasing (xs : list Q) : Prop :=
  forall (i : nat) a b,
    xs !! i = Some a -> xs !! S i = Some b -> (b <= a)%Q.

(** The window of [_simple_trend_prediction]: the load scores of the last
    ten samples. *)
Definition trend_window (recent_metrics : list MetricSample) : list Q :=
  map load_score (Py.take_last 10 recent_metrics).

(** A percentage. *)
Definition percent (x : Q) : Prop := (0 <= x <= 100)%Q.

(** A mean and a deviation under which 90 is far from the window. *)
Definition mean_50 (window : list Q) : Q := 50.
Definition deviation_10 (window : list Q) : Q := 10.

(** Readings of an idle host. *)
Definition idle : Collector.Readings :=
  {| Collector.clock := 0; Collector.cpu := 5; Collector.memory := 40;
     Collector.memory_used := 4294967296;
     Collector.disk_usage := None;
     Collector.net_io := Collector.NetRaised |}.

(** A trained predictor whose frame cannot be built on windows of seven
    samples and whose model predicts 60 on all others. *)
Definition brittle : DemandPredictor :=
  {| is_trained := true;
     model_step := fun window =>
       if (length window =? 7)%nat then FrameError else Predicted 60 |}.

Definition spike : list MetricSample :=
  [PredictorSpec.sample 50; PredictorSpec.sample 50; PredictorSpec.sample 90].

Definition six_rising : list MetricSample :=
  [PredictorSpec.sample 10; PredictorSpec.sample 20;
   PredictorSpec.sample 30; PredictorSpec.sample 40;
   PredictorSpec.sample 50; PredictorSpec.sample 60].

End PredictorTerms.

(** ** The wiring of the orchestrator (src/main.py, src/dashboard.py) *)

Module Pipeline.



(** No prior decision holds the engine back. *)
Definition no_cooldown (config : Engine.Config) (current_time : Q)
    (recent_decisions : list Engine.PriorDecision) : Prop :=
  Engine.allowed
    (Engine._check_cooldown config current_time recent_decisions) = true.


End Pipeline.

(** * Properties *)

(** ** Facts about the Python numerics *)

Module PyFacts.

Lemma ltb_lt x y : Py.ltb x y = true <-> (x < y)%Q.
Proof.
  unfold Py.ltb. rewrite Qlt_alt. destruct (x ?= y)%Q; split; congruence.
Qed.

Lemma ltb_ge x y : Py.ltb x y = false <-> (y <= x)%Q.
Proof.
  split.
  - intros E. apply Qnot_lt_le. intros H. apply ltb_lt in H. congruence.
  - intros H. destruct (Py.ltb x y) eqn:E; [|reflexivity].
    apply ltb_lt in E. exfalso. exact (Qlt_not_le _ _ E H).
Qed.

Lemma min2_spec a b : (Py.min2 a b == Qmin a b)%Q.
Proof.
  unfold Py.min2. destruct (Py.ltb b a) eqn:E.
  - apply ltb_lt in E. symmetry. apply Q.min_r. now apply Qlt_le_weak.
  - apply ltb_ge in E. symmetry. now apply Q.min_l.
Qed.

Lemma max2_spec a b : (Py.max2 a b == Qmax a b)%Q.
Proof.
  unfold Py.max2. destruct (Py.ltb a b) eqn:E.
  - apply ltb_lt in E. symmetry. apply Q.max_r. now apply Qlt_le_weak.
  - apply ltb_ge in E. symmetry. now apply Q.max_l.
Qed.

Lemma min2_le_l a b : (Py.min2 a b <= a)%Q.
Proof. rewrite min2_spec. apply Q.le_min_l. Qed.

Lemma min2_le_r a b : (Py.min2 a b <= b)%Q.
Proof. rewrite min2_spec. apply Q.le_min_r. Qed.

Lemma max2_ge_l a b : (a <= Py.max2 a b)%Q.
Proof. rewrite max2_spec. apply Q.le_max_l. Qed.

Lemma max2_ge_r a b : (b <= Py.max2 a b)%Q.
Proof. rewrite max2_spec. apply Q.le_max_r. Qed.

(** The clamp [max(lo, min(hi, x))] lands in [[lo, hi]] whenever [lo <= hi]. *)
Lemma clamp_range lo hi x :
  (lo <= hi)%Q -> (lo <= Py.max2 lo (Py.min2 hi x) <= hi)%Q.
Proof.
  intros Hlh. split; [apply max2_ge_l|].
  rewrite max2_spec. apply Q.max_lub; [exact Hlh | apply min2_le_l].
Qed.

Lemma length_take_last {A} n (xs : list A) :
  length (Py.take_last n xs) = Nat.min n (length xs).
Proof. unfold Py.take_last. rewrite length_drop. lia. Qed.

Lemma take_last_all {A} n (xs : list A) :
  (length xs <= n)%nat -> Py.take_last n xs = xs.
Proof.
  intros H. unfold Py.take_last. replace (length xs - n)%nat with 0%nat by lia.
  reflexivity.
Qed.

End PyFacts.

(** ** The forecaster *)

Module PredictorFacts.

Import Predictor PredictorSpec.

Lemma in_range_clamp x : in_range (Py.max2 0 (Py.min2 100 x)).
Proof. apply PyFacts.clamp_range. discriminate. Qed.

Lemma in_range_50 : in_range 50.
Proof. split; discriminate. Qed.

Lemma trend_steps_length current_load trend i n :
  length (trend_steps current_load trend i n) = n.
Proof.
  revert i. induction n as [|n IH]; intros i; simpl; [reflexivity|].
  now rewrite IH.
Qed.

Lemma trend_steps_in_range current_load trend i n :
  Forall in_range (trend_steps current_load trend i n).
Proof.
  revert i. induction n as [|n IH]; intros i; simpl; constructor.
  - apply in_range_clamp.
  - apply IH.
Qed.

Lemma simple_trend_length recent horizon :
  length (_simple_trend_prediction recent horizon) = horizon.
Proof.
  unfold _simple_trend_prediction.
  destruct (length recent <? 2)%nat eqn:E.
  - apply length_replicate.
  - apply Nat.ltb_ge in E.
    destruct (map load_score (Py.take_last 10 recent)) as [|first others] eqn:L.
    + apply (f_equal length) in L.
      rewrite length_map, PyFacts.length_take_last in L.
      change (length (@nil Q)) with 0%nat in L. lia.
    + apply trend_steps_length.
Qed.

Lemma simple_trend_in_range recent horizon :
  Forall in_range (_simple_trend_prediction recent horizon).
Proof.
  unfold _simple_trend_prediction.
  destruct (length recent <? 2)%nat.
  - apply Forall_replicate, in_range_50.
  - destruct (map load_score (Py.take_last 10 recent)); [constructor|].
    apply trend_steps_in_range.
Qed.

Lemma last_nonempty {A} (xs : list A) :
  xs <> [] -> exists x, last xs = Some x.
Proof.
  intros H. destruct (last xs) eqn:E; [eauto|].
  apply last_None in E. contradiction.
Qed.

Lemma next_window_nonempty p window :
  window <> [] -> next_window p window <> [].
Proof.
  intros H. unfold next_window.
  destruct (model_step p window); try exact H.
  destruct (last window); [|exact H].
  intros E. apply app_eq_nil in E as [_ E]. discriminate.
Qed.

(** One pass of the loop, for a window that is not empty: nothing on a frame
    error, otherwise one value in front of what the remaining passes
    produce on the next window. *)
Lemma forecast_loop_step p current_load window n :
  window <> [] ->
  forecast_loop p current_load window (S n) =
    match model_step p window with
    | FrameError => None
    | NoCompleteRow | StepError =>
        cons current_load <$>
          forecast_loop p current_load (next_window p window) n
    | Predicted prediction =>
        cons (Py.max2 0 (Py.min2 100 prediction)) <$>
          forecast_loop p current_load (next_window p window) n
    end.
Proof.
  intros H. destruct (last_nonempty window H) as [m Hm].
  simpl. unfold next_window.
  destruct (model_step p window); try reflexivity.
  now rewrite Hm.
Qed.

Lemma forecast_loop_sound p current_load n :
  in_range current_load ->
  forall window predictions,
    window <> [] ->
    forecast_loop p current_load window n = Some predictions ->
    length predictions = n /\ Forall in_range predictions.
Proof.
  intros Hcur. induction n as [|n IH]; intros window predictions Hne Hrun.
  - simpl in Hrun. injection Hrun as <-. split; [reflexivity|constructor].
  - rewrite forecast_loop_step in Hrun by exact Hne.
    pose proof (next_window_nonempty p window Hne) as Hne'.
    destruct (model_step p window) as [ | | |prediction];
      try discriminate;
      destruct (forecast_loop p current_load (next_window p window) n)
        as [rest|] eqn:Hrest; try discriminate;
      injection Hrun as <-;
      destruct (IH _ _ Hne' Hrest) as [Hlen Hrange];
      (split; [simpl; now rewrite Hlen | constructor; [|exact Hrange]]);
      try exact Hcur.
    apply in_range_clamp.
Qed.

(** The value that pass [k] contributes. *)
Lemma forecast_loop_lookup p current_load n :
  forall window predictions k,
    window <> [] ->
    forecast_loop p current_load window n = Some predictions ->
    (k < n)%nat ->
    predictions !! k =
      Some match model_step p (window_at p window k) with
           | Predicted prediction => Py.max2 0 (Py.min2 100 prediction)
           | _ => current_load
           end.
Proof.
  induction n as [|n IH]; intros window predictions k Hne Hrun Hk; [lia|].
  rewrite forecast_loop_step in Hrun by exact Hne.
  pose proof (next_window_nonempty p window Hne) as Hne'.
  destruct k as [|k].
  - simpl.
    destruct (model_step p window); try discriminate;
      destruct (forecast_loop p current_load (next_window p window) n);
      try discriminate; injection Hrun as <-; reflexivity.
  - assert (Hk' : (k < n)%nat) by lia. simpl window_at.
    destruct (model_step p window); try discriminate;
      destruct (forecast_loop p current_load (next_window p window) n)
        as [rest|] eqn:Hrest; try discriminate;
      injection Hrun as <-; simpl; exact (IH _ _ _ Hne' Hrest Hk').
Qed.

(** Without a frame error the loop runs to its end. *)
Lemma forecast_loop_completes p current_load n :
  forall window,
    window <> [] ->
    (forall k, (k < n)%nat ->
       model_step p (window_at p window k) <> FrameError) ->
    exists predictions,
      forecast_loop p current_load window n = Some predictions.
Proof.
  induction n as [|n IH]; intros window Hne Hok; [simpl; eauto|].
  rewrite forecast_loop_step by exact Hne.
  pose proof (Hok 0%nat ltac:(lia)) as H0. simpl in H0.
  destruct (IH (next_window p window) (next_window_nonempty p window Hne))
    as [rest Hrest].
  { intros k Hk. apply (Hok (S k)). lia. }
  rewrite Hrest.
  destruct (model_step p window); simpl; eauto. contradiction.
Qed.

Lemma take_last_nonempty {A} n (xs : list A) :
  (0 < n)%nat -> xs <> [] -> Py.take_last n xs <> [].
Proof.
  intros Hn Hxs E. apply (f_equal length) in E.
  rewrite PyFacts.length_take_last in E.
  destruct xs; [contradiction|]. cbn [length] in E. lia.
Qed.

Lemma last_in {A} (xs : list A) x : last xs = Some x -> In x xs.
Proof.
  intros H. apply last_Some in H as [l' ->]. apply in_or_app. right. now left.
Qed.

(** The untrained or short-history answer. *)
Lemma predict_demand_fallback p recent horizon :
  is_trained p = false \/ (length recent < 5)%nat ->
  predict_demand p recent horizon =
    replicate horizon
      match last recent with Some m => load_score m | None => 50%Q end.
Proof.
  intros H. unfold predict_demand.
  assert (E : negb (is_trained p) || (length recent <? 5)%nat = true).
  { destruct H as [->|H]; [reflexivity|].
    apply Nat.ltb_lt in H. rewrite H. apply orb_true_r. }
  now rewrite E.
Qed.

(** The answer of a trained predictor on at least five samples. *)
Lemma predict_demand_trained p recent horizon m :
  is_trained p = true -> (5 <= length recent)%nat ->
  last recent = Some m ->
  predict_demand p recent horizon =
    match forecast_loop p (load_score m) (Py.take_last 15 recent) horizon with
    | Some predictions => predictions
    | None => _simple_trend_prediction recent horizon
    end.
Proof.
  intros Ht Hlen Hm. unfold predict_demand.
  rewrite Ht. apply Nat.ltb_ge in Hlen. rewrite Hlen. simpl. now rewrite Hm.
Qed.


Lemma fold_max2_is_max others : forall acc,
  let m := fold_left Py.max2 others acc in
  In m (acc :: others) /\ (acc <= m)%Q /\ Forall (fun x => (x <= m)%Q) others.
Proof.
  induction others as [|x others IH]; intros acc; cbn [fold_left].
  - split; [now left|]. split; [apply Qle_refl|constructor].
  - destruct (IH (Py.max2 acc x)) as (Hin & Hacc & Hall).
    cbv zeta in Hin, Hacc, Hall. cbv zeta.
    split; [|split].
    + destruct Hin as [Hin|Hin]; [|right; right; exact Hin].
      rewrite <- Hin at 1. unfold Py.max2.
      destruct (Py.ltb acc x); [right; now left|now left].
    + eapply Qle_trans; [apply PyFacts.max2_ge_l|exact Hacc].
    + constructor; [|exact Hall].
      eapply Qle_trans; [apply PyFacts.max2_ge_r|exact Hacc].
Qed.

Lemma max_list_is_max first others :
  is_max (Py.max_list first others) (first :: others).
Proof.
  destruct (fold_max2_is_max others first) as (Hin & Hacc & Hall).
  split.
  - exists (Py.max_list first others). split; [exact Hin|reflexivity].
  - constructor; assumption.
Qed.

Lemma is_max_unique m1 m2 xs : is_max m1 xs -> is_max m2 xs -> (m1 == m2)%Q.
Proof.
  intros [(x1 & Hin1 & E1) Hall1] [(x2 & Hin2 & E2) Hall2].
  rewrite Forall_forall in Hall1, Hall2.
  apply Qle_antisym.
  - rewrite <- E1. apply Hall2. now apply list_elem_of_In.
  - rewrite <- E2. apply Hall1. now apply list_elem_of_In.
Qed.

Lemma sum_list_fold_right xs : (Py.sum_list xs == fold_right Qplus 0 xs)%Q.
Proof.
  unfold Py.sum_list.
  assert (H : forall acc, (fold_left Qplus xs acc == acc + fold_right Qplus 0 xs)%Q).
  { induction xs as [|x xs IH]; intros acc; simpl.
    - now rewrite Qplus_0_r.
    - rewrite IH. now rewrite Qplus_assoc. }
  rewrite H. apply Qplus_0_l.
Qed.

Lemma list_last_cons {A} (x : A) xs : forall d,
  List.last (x :: xs) d = List.last xs x.
Proof.
  revert x. induction xs as [|y ys IH]; intros x d; [reflexivity|].
  change (List.last (x :: y :: ys) d) with (List.last (y :: ys) d).
  now rewrite !IH.
Qed.

Lemma last_cons_default {A} (first : A) others final :
  last (first :: others) = Some final -> List.last others first = final.
Proof.
  revert first. induction others as [|x others IH]; intros first H.
  - simpl in *. congruence.
  - rewrite list_last_cons. apply IH. exact H.
Qed.

(** The recommendation, by the branch of the ladder that is taken. *)
Lemma recommendation_cases fmt first others current_load :
  let predictions := first :: others in
  let r := get_scaling_recommendation fmt predictions current_load in
  let avg := (Py.sum_list predictions / Py.len predictions)%Q in
  let top := Py.max_list first others in
  let trend := (List.last others first - current_load)%Q in
  ((80 < top)%Q /\ action r = "scale_up" /\
     confidence r = Py.min2 0.9 ((top - 80) / 20)) \/
  ((top <= 80)%Q /\ ((avg < 30)%Q /\ (current_load < 40)%Q) /\
     action r = "scale_down" /\
     confidence r = Py.min2 0.8 ((40 - avg) / 40)) \/
  ((top <= 80)%Q /\ ~ ((avg < 30)%Q /\ (current_load < 40)%Q) /\
     (15 < trend)%Q /\ action r = "scale_up" /\ confidence r = 0.7%Q) \/
  ((top <= 80)%Q /\ ~ ((avg < 30)%Q /\ (current_load < 40)%Q) /\
     (trend <= 15)%Q /\ (trend < -15)%Q /\
     action r = "scale_down" /\ confidence r = 0.6%Q) \/
  ((top <= 80)%Q /\ ~ ((avg < 30)%Q /\ (current_load < 40)%Q) /\
     (trend <= 15)%Q /\ (-15 <= trend)%Q /\
     action r = "maintain" /\ confidence r = 0.8%Q).
Proof.
  cbv zeta. unfold get_scaling_recommendation.
  generalize (Py.sum_list (first :: others) / Py.len (first :: others))%Q
    as avg.
  generalize (Py.max_list first others) as top.
  generalize (List.last others first - current_load)%Q as trend.
  intros trend top avg.
  destruct (Py.ltb 80 top) eqn:E1.
  { left. apply PyFacts.ltb_lt in E1. auto. }
  apply PyFacts.ltb_ge in E1. right.
  destruct (Py.ltb avg 30 && Py.ltb current_load 40) eqn:E2.
  { left. apply andb_true_iff in E2 as [Ea Ec].
    apply PyFacts.ltb_lt in Ea, Ec. auto. }
  assert (N2 : ~ ((avg < 30)%Q /\ (current_load < 40)%Q)).
  { intros [Ea Ec]. apply PyFacts.ltb_lt in Ea, Ec.
    rewrite Ea, Ec in E2. discriminate. }
  right.
  destruct (Py.ltb 15 trend) eqn:E3.
  { left. apply PyFacts.ltb_lt in E3. auto. }
  apply PyFacts.ltb_ge in E3. right.
  destruct (Py.ltb trend (-15)) eqn:E4.
  { left. apply PyFacts.ltb_lt in E4. auto 10. }
  apply PyFacts.ltb_ge in E4. right. auto 10.
Qed.

(** C9. For a non-empty list of recent samples whose last element is [m]:
    when the predictor is untrained, or fewer than five samples are given,
    [predict_demand] returns the load score of [m] repeated [horizon]
    times. *)
Theorem predict_demand_fallback_repeats_last_load p recent horizon m :
  last recent = Some m ->
  is_trained p = false \/ (length recent < 5)%nat ->
  predict_demand p recent horizon = replicate horizon (load_score m).
Proof.
  intros Hm Hcond.
  rewrite predict_demand_fallback by exact Hcond. now rewrite Hm.
Qed.

Lemma predict_demand_fallback_witness :
  last five_samples = Some (sample 42) /\
  (is_trained untrained = false \/ (length five_samples < 5)%nat) /\
  predict_demand untrained five_samples 3 = [42; 42; 42]%Q.
Proof.
  split; [reflexivity|]. split; [left; reflexivity|].
  exact (predict_demand_fallback_repeats_last_load untrained five_samples 3
           (sample 42) eq_refl (or_introl eq_refl)).
Defined.

(** C5. When every recent sample has its load score in [0,100],
    [predict_demand] returns exactly [horizon] values, each in [0,100], for
    every predictor.  For a trained predictor on at least five samples whose
    passes meet no frame error, a pass that fails on its own contributes the
    load score of the last recent sample at its own position. *)
Theorem predict_demand_length_and_range p recent horizon :
  Forall (fun m => in_range (load_score m)) recent ->
  length (predict_demand p recent horizon) = horizon /\
  Forall in_range (predict_demand p recent horizon) /\
  (forall m,
     is_trained p = true -> (5 <= length recent)%nat ->
     last recent = Some m ->
     (forall k, (k < horizon)%nat ->
        model_step p (window_at p (Py.take_last 15 recent) k) <> FrameError) ->
     forall k, (k < horizon)%nat ->
       step_fails p (Py.take_last 15 recent) k ->
       predict_demand p recent horizon !! k = Some (load_score m)).
Proof.
  intros Hrange.
  assert (Hlast : forall m, last recent = Some m -> in_range (load_score m)).
  { intros m Hm. rewrite Forall_forall in Hrange.
    apply Hrange, list_elem_of_In, last_in, Hm. }
  assert (Hwin : forall m, last recent = Some m ->
                 Py.take_last 15 recent <> []).
  { intros m Hm. apply take_last_nonempty; [lia|].
    intros ->. discriminate. }
  split; [|split].
  - unfold predict_demand.
    destruct (negb (is_trained p) || (length recent <? 5)%nat).
    + apply length_replicate.
    + destruct (last recent) as [m|] eqn:Hm; [|apply simple_trend_length].
      destruct (forecast_loop p (load_score m) (Py.take_last 15 recent) horizon)
        as [predictions|] eqn:Hrun; [|apply simple_trend_length].
      eapply forecast_loop_sound; eauto.
  - unfold predict_demand.
    destruct (negb (is_trained p) || (length recent <? 5)%nat).
    + apply Forall_replicate.
      destruct (last recent) as [m|] eqn:Hm; [now apply Hlast|].
      apply in_range_50.
    + destruct (last recent) as [m|] eqn:Hm; [|apply simple_trend_in_range].
      destruct (forecast_loop p (load_score m) (Py.take_last 15 recent) horizon)
        as [predictions|] eqn:Hrun; [|apply simple_trend_in_range].
      eapply forecast_loop_sound; eauto.
  - intros m Htrained Hlen Hm Hframes k Hk Hfail.
    rewrite (predict_demand_trained p recent horizon m Htrained Hlen Hm).
    destruct (forecast_loop_completes p (load_score m) horizon
                (Py.take_last 15 recent) (Hwin m Hm) Hframes)
      as [predictions Hrun].
    rewrite Hrun.
    rewrite (forecast_loop_lookup p (load_score m) horizon _ _ k
               (Hwin m Hm) Hrun Hk).
    destruct Hfail as [-> | ->]; reflexivity.
Qed.

Lemma predict_demand_length_and_range_witness :
  Forall (fun m => in_range (load_score m)) five_samples /\
  length (predict_demand moody five_samples 4) = 4%nat /\
  predict_demand moody five_samples 4 = [100; 42; 42; 42]%Q.
Proof.
  assert (H : Forall (fun m => in_range (load_score m)) five_samples).
  { repeat constructor; discriminate. }
  split; [exact H|]. split.
  - exact (proj1 (predict_demand_length_and_range moody five_samples 4 H)).
  - reflexivity.
Defined.

End PredictorFacts.

(** ** The rule ladder on doubles *)

Module LadderFacts.

Import PredictorDoubles.




(** At a threshold the rounding decides.  In doubles [64.01 - 49.01] is
    above 15, so one prediction of 64.01 at a current load of 49.01 is a
    rising trend; and the left-to-right sum of 23.06, 25.04, 39.54, 35.26
    and 27.1 divided by 5 is below 30, so at a current load of 25 these
    predictions are a low load. *)
Lemma rounding_decides_the_rule :
  above (64.01 - 49.01)%float 15 /\
  (let r := get_scaling_recommendation silent left_sum
              [64.01]%float 49.01%float in
   action r = "scale_up" /\ confidence r = 0.7%float) /\
  below (left_sum [23.06; 25.04; 39.54; 35.26; 27.1]%float / 5)%float 30 /\
  (let r := get_scaling_recommendation silent left_sum
              [23.06; 25.04; 39.54; 35.26; 27.1]%float 25%float in
   action r = "scale_down").
Proof. repeat split; reflexivity. Qed.

End LadderFacts.

(** ** The decision engine *)

Module EngineFacts.

Import Engine EngineSpec.

Lemma maxZ_spec a b : Py.maxZ a b = Z.max a b.
Proof. unfold Py.maxZ. destruct (Z.ltb_spec a b); lia. Qed.

Lemma minZ_spec a b : Py.minZ a b = Z.min a b.
Proof. unfold Py.minZ. destruct (Z.ltb_spec b a); lia. Qed.

Lemma take_last_snoc {A} n (xs : list A) x :
  Py.take_last (S n) (xs ++ [x]) = (Py.take_last n xs ++ [x])%list.
Proof.
  unfold Py.take_last. rewrite length_app. cbn [length].
  replace (length xs + 1 - S n)%nat with (length xs - n)%nat by lia.
  apply drop_app_le. lia.
Qed.

Lemma clamp_within_bounds config target :
  min_instances config <= max_instances config ->
  within_instance_bounds config
    (Py.maxZ (min_instances config) (Py.minZ (max_instances config) target)).
Proof.
  intros H. unfold within_instance_bounds.
  rewrite maxZ_spec, minZ_spec. lia.
Qed.

Lemma allocation_within_ceilings config instances predicted_load :
  within_ceilings config
    (_calculate_resource_allocation config instances predicted_load).
Proof.
  unfold within_ceilings, _calculate_resource_allocation.
  repeat split.
  - rewrite lookup_insert_eq. apply PyFacts.min2_le_l.
  - rewrite lookup_insert_ne by done. rewrite lookup_insert_eq.
    apply PyFacts.min2_le_l.
  - do 2 rewrite lookup_insert_ne by done. rewrite lookup_insert_eq.
    apply PyFacts.min2_le_l.
Qed.

(** A vetoed decision is "maintain" at the current count and resources. *)
Lemma vetoed_decision_echoes fmt config timestamp current_time
    current_state recommendation recent_decisions :
  vetoed config current_time recommendation recent_decisions = true ->
  let d := make_scaling_decision fmt config timestamp current_time
             current_state recommendation recent_decisions in
  action d = "maintain" /\
  recommended_instances d = default 1 (current_instances current_state) /\
  recommended_resources d = default ∅ (current_resources current_state).
Proof.
  unfold vetoed, make_scaling_decision. intros H.
  destruct (negb (allowed (_check_cooldown config current_time
                             recent_decisions))); [now cbn|].
  simpl in H. rewrite H. now cbn.
Qed.

(** A decision that passes both gates is sized by the engine. *)
Lemma passed_decision_sized fmt config timestamp current_time
    current_state recommendation recent_decisions :
  vetoed config current_time recommendation recent_decisions = false ->
  let d := make_scaling_decision fmt config timestamp current_time
             current_state recommendation recent_decisions in
  let sized :=
    _calculate_target_resources config current_state recommendation in
  recommended_instances d =
    Py.maxZ (min_instances config)
            (Py.minZ (max_instances config) (fst sized)) /\
  recommended_resources d = snd sized.
Proof.
  unfold vetoed, make_scaling_decision. intros H.
  apply orb_false_iff in H as [H1 H2]. rewrite H1, H2.
  destruct (_calculate_target_resources config current_state recommendation).
  now cbn.
Qed.

Lemma in_cooldown_dec config current_time d :
  in_cooldown config current_time d \/ ~ in_cooldown config current_time d.
Proof.
  unfold in_cooldown.
  destruct (Qlt_le_dec (current_time - pd_timestamp d) (cooldown_of config d))
    as [Hlt|Hge].
  - destruct (decide (pd_action d = "scale_up")) as [Hu|Hu]; [left; auto|].
    destruct (decide (pd_action d = "scale_down")) as [Hd|Hd];
      [left; auto|].
    right. intros [[?|?] _]; contradiction.
  - right. intros [_ Hlt]. exact (Qlt_not_le _ _ Hlt Hge).
Qed.

(** One pass of the scan over a prior decision that is not in cooldown
    moves on to the next one. *)
Lemma cooldown_scan_skip config current_time d rest :
  ~ in_cooldown config current_time d ->
  cooldown_scan config current_time (d :: rest) =
  cooldown_scan config current_time rest.
Proof.
  intros Hn. unfold in_cooldown, cooldown_of in Hn. cbn [cooldown_scan].
  destruct (pd_action d =? "scale_up")%string eqn:Eu.
  - apply String.eqb_eq in Eu.
    destruct (Py.ltb _ _) eqn:El; [|reflexivity].
    apply PyFacts.ltb_lt in El. exfalso. apply Hn. auto.
  - destruct (pd_action d =? "scale_down")%string eqn:Ed; [|reflexivity].
    apply String.eqb_eq in Ed.
    destruct (Py.ltb _ _) eqn:El; [|reflexivity].
    apply PyFacts.ltb_lt in El. exfalso. apply Hn. auto.
Qed.

(** One pass over a prior decision in cooldown ends the scan. *)
Lemma cooldown_scan_hit config current_time d rest :
  in_cooldown config current_time d ->
  let check := cooldown_scan config current_time (d :: rest) in
  allowed check = false /\
  remaining_time check =
    Some (cooldown_of config d - (current_time - pd_timestamp d))%Q.
Proof.
  intros [Hact Hlt]. unfold cooldown_of in *. cbn [cooldown_scan].
  destruct (pd_action d =? "scale_up")%string eqn:Eu.
  - apply PyFacts.ltb_lt in Hlt. rewrite Hlt. now cbn.
  - destruct Hact as [Hact|Hact].
    + apply String.eqb_eq in Hact. congruence.
    + apply String.eqb_eq in Hact. rewrite Hact.
      apply PyFacts.ltb_lt in Hlt. rewrite Hlt. now cbn.
Qed.

Lemma cooldown_scan_first_match config current_time earlier d later :
  Forall (fun e => ~ in_cooldown config current_time e) earlier ->
  in_cooldown config current_time d ->
  let check := cooldown_scan config current_time (earlier ++ d :: later) in
  allowed check = false /\
  remaining_time check =
    Some (cooldown_of config d - (current_time - pd_timestamp d))%Q.
Proof.
  intros Hearlier Hd. induction Hearlier as [|e earlier He _ IH].
  - now apply cooldown_scan_hit.
  - cbv zeta. rewrite <- app_comm_cons.
    rewrite cooldown_scan_skip by exact He. exact IH.
Qed.

Lemma cooldown_scan_no_match config current_time decisions :
  Forall (fun e => ~ in_cooldown config current_time e) decisions ->
  cooldown_scan config current_time decisions = cooldown_allowed.
Proof.
  induction 1 as [|e rest He _ IH]; [reflexivity|].
  now rewrite cooldown_scan_skip.
Qed.

(** Among scanned decisions of which one is in cooldown, there is a first
    such one. *)
Lemma first_in_cooldown config current_time decisions :
  Exists (in_cooldown config current_time) decisions ->
  exists earlier prior later,
    decisions = (earlier ++ prior :: later)%list /\
    Forall (fun e => ~ in_cooldown config current_time e) earlier /\
    in_cooldown config current_time prior.
Proof.
  induction decisions as [|d rest IH]; intros Hex.
  - inversion Hex.
  - destruct (in_cooldown_dec config current_time d) as [Hd|Hd].
    + exists [], d, rest. split; [reflexivity|].
      split; [apply List.Forall_nil|exact Hd].
    + apply Exists_cons in Hex as [Hex|Hex]; [contradiction|].
      destruct (IH Hex) as (earlier & prior & later & -> & Hearlier & Hprior).
      exists (d :: earlier), prior, later. split; [reflexivity|].
      split; [now apply List.Forall_cons|exact Hprior].
Qed.

(** What [_check_cooldown] does is the scan of the reversed last ten. *)
Lemma check_cooldown_scan config current_time recent_decisions :
  _check_cooldown config current_time recent_decisions =
  cooldown_scan config current_time (rev (Py.take_last 10 recent_decisions)).
Proof. now destruct recent_decisions. Qed.

(** C2, as stated, fails: a vetoed decision is outside the limits when the
    current state is.  The confidence veto on a host with 32 cores returns a
    CPU total of 32 under a ceiling of 16; the cooldown veto with twelve
    instances running returns 12 under a maximum of 10. *)
Lemma vetoed_decision_outside_limits :
  ~ within_limits default_config
      (make_scaling_decision plain default_config 0 0
         on_big_host high_load []) /\
  ~ within_limits default_config
      (make_scaling_decision plain default_config 1060 1060
         twelve_running confident_up [scaled_up_at_1000]).
Proof.
  split.
  - intros [_ [Hcpu _]]. vm_compute in Hcpu. now apply Hcpu.
  - intros [[_ Hmax] _]. vm_compute in Hmax. now apply Hmax.
Qed.

(** C2, amended.  With [min_instances <= max_instances]: a decision that
    passes the cooldown gate and the confidence gate has its recommended
    instance count within [min_instances, max_instances] and its resource
    totals within the ceilings; a vetoed decision is "maintain" and returns
    the current instance count and the current resources as they are, so
    every decision is within the limits when the current state is. *)
Theorem decision_within_limits_unless_vetoed fmt config timestamp
    current_time current_state recommendation recent_decisions :
  min_instances config <= max_instances config ->
  let d := make_scaling_decision fmt config timestamp current_time
             current_state recommendation recent_decisions in
  (vetoed config current_time recommendation recent_decisions = false ->
     within_limits config d) /\
  (vetoed config current_time recommendation recent_decisions = true ->
     action d = "maintain" /\
     recommended_instances d = default 1 (current_instances current_state) /\
     recommended_resources d =
       default ∅ (current_resources current_state)) /\
  (within_instance_bounds config
     (default 1 (current_instances current_state)) ->
   within_ceilings config (default ∅ (current_resources current_state)) ->
     within_limits config d).
Proof.
  intros Hcfg d.
  assert (Hpass :
    vetoed config current_time recommendation recent_decisions = false ->
    within_limits config d).
  { intros Hv.
    destruct (passed_decision_sized fmt config timestamp current_time
                current_state recommendation recent_decisions Hv)
      as [Hn Hr].
    split.
    - fold d in Hn. rewrite Hn. now apply clamp_within_bounds.
    - fold d in Hr. rewrite Hr. apply allocation_within_ceilings. }
  pose proof (vetoed_decision_echoes fmt config timestamp current_time
                current_state recommendation recent_decisions) as Hveto.
  fold d in Hveto.
  split; [exact Hpass|]. split; [exact Hveto|].
  intros Hn Hr.
  destruct (vetoed config current_time recommendation recent_decisions);
    [|now apply Hpass].
  destruct (Hveto eq_refl) as (_ & En & Er).
  split; [now rewrite En | now rewrite Er].
Qed.

Lemma decision_within_limits_witness :
  min_instances small_config <= max_instances small_config /\
  vetoed small_config 0 confident_up [] = false /\
  recommended_instances
    (make_scaling_decision plain small_config 0 0 one_running
       confident_up []) = 3 /\
  within_limits small_config
    (make_scaling_decision plain small_config 0 0 one_running
       confident_up []).
Proof.
  assert (H : min_instances small_config <= max_instances small_config)
    by (cbn; lia).
  split; [exact H|]. split; [reflexivity|]. split; [reflexivity|].
  exact (proj1 (decision_within_limits_unless_vetoed plain small_config 0 0
                  one_running confident_up [] H) eq_refl).
Defined.

(** C4. The cooldown gate scans the last ten prior decisions from the most
    recent one backwards.  The first of them that is a scale_up younger
    than [scale_up_cooldown], or a scale_down younger than
    [scale_down_cooldown], makes [make_scaling_decision] answer "maintain"
    with [cooldown_remaining] equal to that cooldown minus the elapsed time
    (so any such decision among the last ten gives "maintain");
    decisions older than the last ten play no part; when none of the last
    ten is such a decision the action is allowed and the answer carries no
    [cooldown_remaining].  A most recent prior scale_up 60 seconds old under
    a scale_up cooldown of 300 gives "maintain" with 240 remaining. *)
Theorem cooldown_gate fmt config timestamp current_time current_state
    recommendation recent_decisions :
  let scanned := rev (Py.take_last 10 recent_decisions) in
  let d := make_scaling_decision fmt config timestamp current_time
             current_state recommendation recent_decisions in
  (forall earlier prior later,
     scanned = (earlier ++ prior :: later)%list ->
     Forall (fun e => ~ in_cooldown config current_time e) earlier ->
     in_cooldown config current_time prior ->
     action d = "maintain" /\
     cooldown_remaining d =
       Some (cooldown_of config prior
             - (current_time - pd_timestamp prior))%Q) /\
  (Exists (in_cooldown config current_time) scanned ->
     action d = "maintain" /\ is_Some (cooldown_remaining d)) /\
  (forall older, (10 <= length recent_decisions)%nat ->
     _check_cooldown config current_time (older ++ recent_decisions) =
     _check_cooldown config current_time
       (Py.take_last 10 recent_decisions)) /\
  (Forall (fun e => ~ in_cooldown config current_time e) scanned ->
     allowed (_check_cooldown config current_time recent_decisions) = true /\
     cooldown_remaining d = None) /\
  (forall prior,
     last recent_decisions = Some prior ->
     pd_action prior = "scale_up" ->
     (current_time - pd_timestamp prior == 60)%Q ->
     (scale_up_cooldown config == 300)%Q ->
     action d = "maintain" /\
     exists remaining,
       cooldown_remaining d = Some remaining /\ (remaining == 240)%Q).
Proof.
  intros scanned d.
  assert (Hfirst : forall earlier prior later,
     scanned = (earlier ++ prior :: later)%list ->
     Forall (fun e => ~ in_cooldown config current_time e) earlier ->
     in_cooldown config current_time prior ->
     action d = "maintain" /\
     cooldown_remaining d =
       Some (cooldown_of config prior
             - (current_time - pd_timestamp prior))%Q).
  { intros earlier prior later Hsplit Hearlier Hprior.
    pose proof (cooldown_scan_first_match config current_time earlier prior
                  later Hearlier Hprior) as [Hallowed Hremaining].
    rewrite <- Hsplit in Hallowed, Hremaining. subst scanned.
    rewrite <- check_cooldown_scan in Hallowed, Hremaining.
    subst d. unfold make_scaling_decision.
    rewrite Hallowed. cbn. now rewrite Hremaining. }
  split; [exact Hfirst|]. split; [|split; [|split]].
  - intros Hex.
    destruct (first_in_cooldown config current_time scanned Hex)
      as (earlier & prior & later & Hsplit & Hearlier & Hprior).
    destruct (Hfirst earlier prior later Hsplit Hearlier Hprior) as [Ha Hr].
    split; [exact Ha|]. rewrite Hr. eauto.
  - intros older Hlen. rewrite !check_cooldown_scan. f_equal. f_equal.
    unfold Py.take_last at 1 2. rewrite length_app.
    rewrite PyFacts.length_take_last.
    replace (length older + length recent_decisions - 10)%nat
      with (length older + (length recent_decisions - 10))%nat by lia.
    rewrite drop_app_add'  by reflexivity.
    replace (Nat.min 10 (length recent_decisions) - 10)%nat with 0%nat by lia.
    reflexivity.
  - intros Hnone.
    pose proof (cooldown_scan_no_match config current_time scanned Hnone)
      as Hscan.
    subst scanned. rewrite <- check_cooldown_scan in Hscan.
    subst d. unfold make_scaling_decision. rewrite Hscan. cbn.
    split; [reflexivity|].
    destruct (Py.ltb (Predictor.confidence recommendation)
                (confidence_threshold config)); [reflexivity|].
    now destruct (_calculate_target_resources config current_state
                    recommendation).
  - intros prior Hlast Hact Hage Hcool.
    apply last_Some in Hlast as [older ->].
    assert (Hin : in_cooldown config current_time prior).
    { split; [now left|]. unfold cooldown_of. rewrite Hact. cbn.
      rewrite Hage, Hcool. reflexivity. }
    destruct (Hfirst [] prior (rev (Py.take_last 9 older))) as [Ha Hr];
      [|constructor|exact Hin|].
    { subst scanned. rewrite take_last_snoc. now rewrite rev_app_distr. }
    split; [exact Ha|].
    eexists. split; [exact Hr|].
    unfold cooldown_of. rewrite Hact. cbn. rewrite Hage, Hcool. reflexivity.
Qed.

Lemma cooldown_gate_witness :
  rev (Py.take_last 10 [scaled_up_at_1000]) = [scaled_up_at_1000] /\
  in_cooldown default_config 1060 scaled_up_at_1000 /\
  action (make_scaling_decision plain default_config 1060 1060 one_running
            confident_up [scaled_up_at_1000]) = "maintain" /\
  cooldown_remaining
    (make_scaling_decision plain default_config 1060 1060 one_running
       confident_up [scaled_up_at_1000]) = Some (300 - (1060 - 1000))%Q.
Proof.
  assert (Hin : in_cooldown default_config 1060 scaled_up_at_1000).
  { split; [now left|reflexivity]. }
  split; [reflexivity|]. split; [exact Hin|].
  exact (proj1 (cooldown_gate plain default_config 1060 1060
           one_running confident_up [scaled_up_at_1000])
           [] scaled_up_at_1000 [] eq_refl (List.Forall_nil _) Hin).
Defined.

End EngineFacts.

(** ** The operations when no step raises *)

Module ManagerCalm.

Import Manager ManagerSpec ManagerTerms.

(** A loop whose passes return without touching the object collects what
    they return. *)
Lemma for_each_pure {S A B} (xs : list A) (body : A -> M S B) (g : A -> B) s :
  (forall x, body x s = (Ok (g x), s)) ->
  for_each xs body s = (Ok (map g xs), s).
Proof.
  intros Hbody. induction xs as [|x xs IH]; [reflexivity|].
  cbn [for_each map]. unfold bind. rewrite Hbody, IH. reflexivity.
Qed.

Lemma run_steps_calm {S} w (f : string -> string) steps (s : S) :
  calm_world w ->
  for_each steps (fun step => run_step w (f step)) s
    = (Ok (map (fun _ => tt) steps), s).
Proof.
  intros Hcalm. apply for_each_pure. intros step.
  unfold run_step. now rewrite Hcalm.
Qed.

Lemma scale_up_calm w d s target r :
  calm_world w ->
  recommended_instances d = Some target ->
  recommended_resources d = Some r ->
  (instances s < target -> sized_per_instance r) ->
  _scale_up w d s =
    (Ok (ScaledUp (target - instances s) target
           (map (fun i => active_instance r (instances s + i + 1))
                (seqZ 0 (target - instances s)))
           r), s).
Proof.
  intros Hcalm Ht Hr Hsized. unfold _scale_up. rewrite Ht, Hr.
  unfold bind at 1. cbn [get]. unfold bind at 1. cbn [item ret].
  destruct (decide (instances s < target)) as [Hlt|Hge].
  - destruct (Hsized Hlt) as ([cpu Hcpu] & [mem Hmem] & [sto Hsto]).
    unfold bind at 1.
    rewrite (for_each_pure _ _
               (fun i => active_instance r (instances s + i + 1))).
    + reflexivity.
    + intros i. unfold bind at 1.
      rewrite (run_steps_calm w
                 (fun step => "  " +:+ ("instance-" +:+
                    pretty (instances s + i + 1)) +:+ ": " +:+ step +:+ "...")
                 provisioning_steps s Hcalm).
      unfold active_instance, bind, item, ret. cbv beta iota.
      rewrite Hcpu. cbv beta iota. rewrite Hmem. cbv beta iota.
      rewrite Hsto. reflexivity.
  - replace (seqZ 0 (target - instances s)) with (@nil Z).
    + reflexivity.
    + symmetry. apply seqZ_nil. lia.
Qed.

Lemma scale_down_calm w d s target r :
  calm_world w ->
  recommended_instances d = Some target ->
  recommended_resources d = Some r ->
  _scale_down w d s =
    (Ok (ScaledDown (instances s - target) target
           (map (fun i => terminated_instance (instances s - i))
                (seqZ 0 (instances s - target)))
           r), s).
Proof.
  intros Hcalm Ht Hr. unfold _scale_down. rewrite Ht, Hr.
  unfold bind at 1. cbn [get]. unfold bind at 1. cbn [item ret].
  unfold bind at 1.
  rewrite (for_each_pure _ _ (fun i => terminated_instance (instances s - i))).
  - reflexivity.
  - intros i. unfold bind at 1.
    rewrite (run_steps_calm w
               (fun step => "  " +:+ ("instance-" +:+
                  pretty (instances s - i)) +:+ ": " +:+ step +:+ "...")
               shutdown_steps s Hcalm).
    reflexivity.
Qed.

Lemma maintain_calm w d s :
  calm_world w ->
  _maintain_resources w d s
    = (Ok (Maintained (instances s) true (resources s)), s).
Proof.
  intros Hcalm. unfold _maintain_resources. unfold bind at 1.
  rewrite (run_steps_calm w (fun check => "  " +:+ check +:+ "...")
             maintenance_checks s Hcalm).
  reflexivity.
Qed.

End ManagerCalm.

(** ** The resource manager *)

Module ManagerFacts.

Import Manager ManagerSpec ManagerTerms.

(** *** Computations that only read the object *)

Lemma read_only_ret {S A} (a : A) : read_only (@ret S A a).
Proof. intros s. reflexivity. Qed.

Lemma read_only_raise {S A} msg : read_only (@raise S A msg).
Proof. intros s. reflexivity. Qed.

Lemma read_only_get {S} : read_only (@get S).
Proof. intros s. reflexivity. Qed.

Lemma read_only_item {S A} (field : option A) key :
  read_only (@item S A field key).
Proof. destruct field; intros s; reflexivity. Qed.

Lemma read_only_bind {S A B} (c : M S A) (k : A -> M S B) :
  read_only c -> (forall a, read_only (k a)) -> read_only (bind c k).
Proof.
  intros Hc Hk s. unfold bind. specialize (Hc s).
  destruct (c s) as [[a|msg] s']; simpl in Hc; subst s'.
  - apply Hk.
  - reflexivity.
Qed.

Lemma read_only_for_each {S A B} (xs : list A) (body : A -> M S B) :
  (forall x, read_only (body x)) -> read_only (for_each xs body).
Proof.
  intros Hbody. induction xs as [|x xs IH]; simpl.
  - apply read_only_ret.
  - apply read_only_bind; [apply Hbody|]. intros y.
    apply read_only_bind; [exact IH|]. intros ys. apply read_only_ret.
Qed.

Lemma read_only_run_step {S} w line : read_only (@run_step S w line).
Proof.
  unfold run_step. destruct (step_raises w line); intros st; reflexivity.
Qed.

Create HintDb read_only.
#[local] Hint Resolve read_only_ret read_only_raise read_only_get
  read_only_item read_only_run_step : read_only.
#[local] Hint Extern 2 (read_only (bind _ _)) =>
  apply read_only_bind; [|intros ?] : read_only.
#[local] Hint Extern 2 (read_only (for_each _ _)) =>
  apply read_only_for_each; intros ? : read_only.

Lemma read_only_scale_up w d : read_only (_scale_up w d).
Proof. unfold _scale_up. auto 20 with read_only. Qed.

Lemma read_only_scale_down w d : read_only (_scale_down w d).
Proof. unfold _scale_down. auto 20 with read_only. Qed.

Lemma read_only_maintain w d : read_only (_maintain_resources w d).
Proof. unfold _maintain_resources. auto 20 with read_only. Qed.

Lemma read_only_operation w d a : read_only (operation_for w d a).
Proof.
  unfold operation_for.
  destruct (a =? "scale_up")%string; [apply read_only_scale_up|].
  destruct (a =? "scale_down")%string; [apply read_only_scale_down|].
  apply read_only_maintain.
Qed.

(** *** What [_update_state] does, case by case *)

Lemma update_state_cases d r s a :
  action d = Some a -> er_status r = "completed" ->
  _update_state d r s =
    if is_scaling a then
      match recommended_instances d with
      | None => (Raise "'recommended_instances'", s)
      | Some n =>
          match recommended_resources d with
          | None => (Raise "'recommended_resources'", set_instances n s)
          | Some res =>
              let s' := set_resources res (set_instances n s) in
              match reason d with
              | None => (Raise "'reason'", s')
              | Some why =>
                  (Ok tt,
                   set_scaling_events
                     (record_event (event_of r a n why) (scaling_events s))
                     s')
              end
          end
      end
    else
      match reason d with
      | None => (Raise "'reason'", s)
      | Some why =>
          (Ok tt,
           set_scaling_events
             (record_event (event_of r a (instances s) why)
                (scaling_events s))
             s)
      end.
Proof.
  intros Ha Hst. unfold _update_state, is_scaling, record_event.
  apply String.eqb_eq in Hst. rewrite Hst, Ha.
  unfold bind, item, key_error, raise, ret, get, modify, event_of.
  destruct ((a =? "scale_up")%string || (a =? "scale_down")%string);
    destruct (recommended_instances d) as [n|];
    destruct (recommended_resources d) as [res|];
    destruct (reason d) as [why|];
    cbn -[Nat.ltb Py.take_last]; try reflexivity;
    match goal with
    | |- context [(50 <? ?n)%nat] => destruct (50 <? n)%nat; reflexivity
    end.
Qed.

(** *** What [execute_scaling_decision] does, case by case *)

Lemma execute_without_action w d self :
  action d = None ->
  execute_scaling_decision w d self = (Raise "'action'", self).
Proof. intros H. unfold execute_scaling_decision. rewrite H. reflexivity. Qed.

Lemma try_body_unfold w d a r s :
  action d = Some a ->
  try_body w d (r, s) =
    match fst (operation_for w d a s) with
    | Raise msg => (Raise msg, (r, s))
    | Ok op =>
        let r' := set_status "completed" (update_with op r) in
        match _update_state d r' s with
        | (outcome, s') => (outcome, (r', s'))
        end
    end.
Proof.
  intros Ha. unfold try_body. rewrite Ha.
  unfold bind, on_state, on_result, on_part, item, ret, get, modify.
  cbn [fst snd]. fold (operation_for w d a).
  pose proof (read_only_operation w d a s) as Hro.
  destruct (operation_for w d a s) as [[op|msg] s0]; cbn in Hro; subst s0;
    cbn [fst snd]; [|reflexivity].
  destruct (_update_state d (set_status "completed" (update_with op r)) s)
    as [o s']. reflexivity.
Qed.

Lemma execute_unfold w d a self :
  action d = Some a ->
  execute_scaling_decision w d self =
    match try_body w d (started w a self, current_state self) with
    | (Ok _, (r, s)) => (Ok r, saved w r s self)
    | (Raise msg, (r, s)) =>
        let r' := add_error msg (set_status "failed" r) in
        (Ok r', saved w r' s self)
    end.
Proof.
  intros Ha. unfold execute_scaling_decision. rewrite Ha.
  unfold except_handler, _save_state, try_except, on_result, on_part, item,
    bind, modify, get, ret, started.
  cbn [fst snd].
  destruct (try_body w d _) as [[[]|msg] [r s]]; reflexivity.
Qed.

Lemma bind_ok_inv {S A B} (c : M S A) (k : A -> M S B) s b :
  fst (bind c k s) = Ok b ->
  exists a s', c s = (Ok a, s') /\ fst (k a s') = Ok b.
Proof.
  unfold bind. destruct (c s) as [[a|msg] s']; cbn; [eauto|discriminate].
Qed.

(** A scale_up or scale_down operation that returns has read both the
    recommended count and the recommended resources. *)
Lemma scaling_operation_reads_keys w d a s op :
  is_scaling a = true ->
  fst (operation_for w d a s) = Ok op ->
  is_Some (recommended_instances d) /\ is_Some (recommended_resources d).
Proof.
  unfold is_scaling, operation_for. intros Hsc Hop.
  assert (Hrun : fst (_scale_up w d s) = Ok op \/
                 fst (_scale_down w d s) = Ok op).
  { destruct (a =? "scale_up")%string; [now left|].
    destruct (a =? "scale_down")%string; [now right|discriminate]. }
  clear Hop Hsc.
  destruct Hrun as [Hrun|Hrun];
    [unfold _scale_up in Hrun|unfold _scale_down in Hrun];
    apply bind_ok_inv in Hrun as (state & s1 & _ & Hrun);
    apply bind_ok_inv in Hrun as (target & s2 & Htarget & Hrun);
    apply bind_ok_inv in Hrun as (done & s3 & _ & Hrun);
    apply bind_ok_inv in Hrun as (alloc & s4 & Halloc & _);
    (split;
     [destruct (recommended_instances d); [eauto|discriminate]
     |destruct (recommended_resources d); [eauto|discriminate]]).
Qed.

(** The outcome of a call on a decision that names its action: the call
    returns; either the [try] block raised and the result is "failed" with
    the message recorded, or it ran through and the result is "completed"
    with the state updated and one event recorded. *)
Lemma execute_outcome w d a self :
  action d = Some a ->
  let s := current_state self in
  exists r s',
    execute_scaling_decision w d self = (Ok r, saved w r s' self) /\
    er_timestamp r = now_on_entry w /\
    prev_instances (previous_state r) = instances s /\
    ((exists msg r0,
        try_body w d (started w a self, s) = (Raise msg, (r0, s')) /\
        er_status r = "failed" /\ errors r = [msg] /\
        scaling_events s' = scaling_events s /\
        (is_scaling a = false \/ is_Some (reason d) -> s' = s))
     \/
     (try_body w d (started w a self, s) = (Ok tt, (r, s')) /\
      er_status r = "completed" /\ errors r = [] /\
      exists why, reason d = Some why /\
        if is_scaling a then
          exists n res,
            recommended_instances d = Some n /\
            recommended_resources d = Some res /\
            s' = set_scaling_events
                   (record_event (event_of r a n why) (scaling_events s))
                   (set_resources res (set_instances n s))
        else
          s' = set_scaling_events
                 (record_event (event_of r a (instances s) why)
                    (scaling_events s))
                 s)).
Proof.
  intros Ha s. subst s.
  rewrite (execute_unfold w d a self Ha).
  rewrite (try_body_unfold w d a _ _ Ha).
  set (s := current_state self).
  destruct (fst (operation_for w d a s)) as [op|msg] eqn:Hop.
  - cbv zeta.
    set (r1 := set_status "completed" (update_with op (started w a self))).
    rewrite (update_state_cases d r1 s a Ha eq_refl).
    destruct (is_scaling a) eqn:Hsc.
    + destruct (scaling_operation_reads_keys w d a s op Hsc Hop)
        as [[n Hn] [res Hres]].
      rewrite Hn, Hres. cbv zeta.
      destruct (reason d) as [why|] eqn:Hwhy.
      * eexists _, _. split; [reflexivity|]. split; [reflexivity|].
        split; [reflexivity|]. right.
        split; [reflexivity|]. split; [reflexivity|]. split; [reflexivity|].
        exists why. split; [reflexivity|]. eauto.
      * eexists _, _. split; [reflexivity|]. split; [reflexivity|].
        split; [reflexivity|]. left.
        eexists _, _. split; [reflexivity|]. split; [reflexivity|].
        split; [reflexivity|]. split; [reflexivity|].
        intros [H|[? H]]; discriminate.
    + destruct (reason d) as [why|] eqn:Hwhy.
      * eexists _, _. split; [reflexivity|]. split; [reflexivity|].
        split; [reflexivity|]. right.
        split; [reflexivity|]. split; [reflexivity|]. split; [reflexivity|].
        exists why. split; reflexivity.
      * eexists _, _. split; [reflexivity|]. split; [reflexivity|].
        split; [reflexivity|]. left.
        eexists _, _. split; [reflexivity|]. split; [reflexivity|].
        split; [reflexivity|]. split; reflexivity.
  - eexists _, _. split; [reflexivity|]. split; [reflexivity|].
    split; [reflexivity|]. left.
    eexists _, _. split; [reflexivity|]. split; [reflexivity|].
    split; [reflexivity|]. split; reflexivity.
Qed.

(** *** The event log *)

Lemma record_event_take_last ev evs :
  record_event ev evs = Py.take_last 50 (evs ++ [ev]).
Proof.
  unfold record_event.
  destruct (50 <? length (evs ++ [ev]))%nat eqn:E; [reflexivity|].
  apply Nat.ltb_ge in E. symmetry. now apply PyFacts.take_last_all.
Qed.

Lemma length_record_event ev evs :
  length (record_event ev evs) = Nat.min 50 (length evs + 1).
Proof.
  rewrite record_event_take_last, PyFacts.length_take_last, length_app.
  reflexivity.
Qed.

Lemma take_last_take_last_app {A} n (xs ys : list A) :
  Py.take_last n (Py.take_last n xs ++ ys) = Py.take_last n (xs ++ ys).
Proof.
  destruct (decide (length xs <= n)%nat) as [Hle|Hgt].
  - now rewrite (PyFacts.take_last_all n xs).
  - unfold Py.take_last. rewrite !length_app, length_drop.
    rewrite !drop_app, drop_drop, length_drop. f_equal; f_equal; lia.
Qed.

Lemma saved_events w r s self :
  scaling_events (current_state (saved w r s self)) = scaling_events s.
Proof. reflexivity. Qed.

(** The event log after any call: as before, or with one event recorded. *)
Lemma execute_events w d self :
  let before := scaling_events (current_state self) in
  let after :=
    scaling_events (current_state (snd (execute_scaling_decision w d self))) in
  after = before \/ exists ev, after = record_event ev before.
Proof.
  cbv zeta. destruct (action d) as [a|] eqn:Ha.
  - destruct (execute_outcome w d a self Ha) as (r & s' & Hexec & _ & _ & H).
    rewrite Hexec. cbn [snd]. rewrite saved_events.
    destruct H as [(msg & r0 & _ & _ & _ & Hev & _)
                  |(_ & _ & _ & why & _ & Hs')].
    + now left.
    + right. destruct (is_scaling a).
      * destruct Hs' as (n & res & _ & _ & ->). eexists. reflexivity.
      * rewrite Hs'. eexists. reflexivity.
  - rewrite execute_without_action by exact Ha. now left.
Qed.

(** The event log after a call that completed: one event recorded, stamped
    with the time of the call. *)
Lemma execute_completed_event w d self r self' :
  execute_scaling_decision w d self = (Ok r, self') ->
  er_status r = "completed" ->
  exists ev,
    ev_timestamp ev = er_timestamp r /\
    scaling_events (current_state self') =
      record_event ev (scaling_events (current_state self)).
Proof.
  intros Hexec Hst. destruct (action d) as [a|] eqn:Ha.
  - destruct (execute_outcome w d a self Ha) as (r' & s' & Hexec' & _ & _ & H).
    rewrite Hexec in Hexec'. injection Hexec' as -> ->.
    rewrite saved_events.
    destruct H as [(msg & r0 & _ & Hfailed & _)
                  |(_ & _ & _ & why & _ & Hs')].
    + rewrite Hst in Hfailed. discriminate.
    + destruct (is_scaling a).
      * destruct Hs' as (n & res & _ & _ & ->).
        eexists. split; [|reflexivity]. reflexivity.
      * rewrite Hs'. eexists. split; [|reflexivity]. reflexivity.
  - rewrite execute_without_action in Hexec by exact Ha. discriminate.
Qed.

Lemma execute_all_cons call calls self results self' :
  execute_all (call :: calls) self = (Ok results, self') ->
  exists r rest self1,
    execute_scaling_decision (fst call) (snd call) self = (Ok r, self1) /\
    execute_all calls self1 = (Ok rest, self') /\
    results = r :: rest.
Proof.
  unfold execute_all. cbn [for_each]. unfold bind at 1.
  destruct (execute_scaling_decision (fst call) (snd call) self)
    as [[r|msg] self1]; [|discriminate].
  unfold bind.
  destruct (for_each calls _ self1) as [[rest|msg] self2] eqn:Hrest;
    [|discriminate].
  cbn. intros [= <- <-]. exists r, rest, self1. auto.
Qed.

(** After a run of completed calls the log holds the last fifty of the old
    events followed by one new event per call, in call order. *)
Lemma execute_all_events calls : forall self results self',
  execute_all calls self = (Ok results, self') ->
  all_completed results ->
  exists new_events,
    map ev_timestamp new_events = map er_timestamp results /\
    length new_events = length calls /\
    (calls <> [] \/ (length (scaling_events (current_state self)) <= 50)%nat ->
     scaling_events (current_state self') =
       Py.take_last 50 (scaling_events (current_state self) ++ new_events)).
Proof.
  induction calls as [|call calls IH]; intros self results self' Hrun Hall.
  - injection Hrun as <- <-. exists []. split; [reflexivity|].
    split; [reflexivity|]. intros [H|H]; [contradiction|].
    rewrite app_nil_r. symmetry. now apply PyFacts.take_last_all.
  - apply execute_all_cons in Hrun as (r & rest & self1 & Hcall & Hrest & ->).
    apply Forall_cons in Hall as [Hr Hall].
    destruct (execute_completed_event _ _ _ _ _ Hcall Hr) as (ev & Hts & Hev).
    destruct (IH _ _ _ Hrest Hall) as (evs & Hmap & Hlen & Hevs).
    exists (ev :: evs). split; [cbn; congruence|].
    split; [cbn; congruence|]. intros _.
    rewrite Hevs.
    + rewrite Hev, record_event_take_last, take_last_take_last_app.
      now rewrite <- app_assoc.
    + right. rewrite Hev, length_record_event. lia.
Qed.

(** *** A raising step stops the operation *)

Lemma bind_raises {S A B} (c : M S A) (k : A -> M S B) s msg :
  fst (c s) = Raise msg -> fst (bind c k s) = Raise msg.
Proof.
  unfold bind. destruct (c s) as [[a|msg'] s']; cbn [fst]; intros H;
    [discriminate H|now injection H as ->].
Qed.

(** A loop in which some pass raises whatever the object holds raises. *)
Lemma for_each_raises {S A B} (xs : list A) (body : A -> M S B) :
  Exists (fun x => forall s, exists msg, fst (body x s) = Raise msg) xs ->
  forall s, exists msg, fst (for_each xs body s) = Raise msg.
Proof.
  induction 1 as [x xs Hx|x xs _ IH]; intros s; cbn [for_each];
    unfold bind at 1.
  - destruct (Hx s) as [msg Hmsg].
    destruct (body x s) as [[y|msg'] s']; cbn in Hmsg; [discriminate|].
    exists msg'. reflexivity.
  - destruct (body x s) as [[y|msg'] s']; [|exists msg'; reflexivity].
    destruct (IH s') as [msg Hmsg]. unfold bind.
    destruct (for_each xs body s') as [[ys|msg''] s'']; cbn in Hmsg;
      [discriminate|].
    exists msg''. reflexivity.
Qed.

Lemma exists_in_map {A B} (P : B -> Prop) (f : A -> B) (l : list A) :
  Exists P (map f l) -> Exists (fun x => P (f x)) l.
Proof.
  induction l as [|x l IH]; cbn [map]; intros H; inversion H; subst.
  - now left.
  - right. now apply IH.
Qed.

Lemma exists_in_concat {A} (P : A -> Prop) (ls : list (list A)) :
  Exists P (concat ls) -> Exists (Exists P) ls.
Proof.
  induction ls as [|l ls IH]; cbn [concat]; intros H; [inversion H|].
  apply Exists_app in H as [H|H]; [now left|right; now apply IH].
Qed.

Lemma steps_raise {S} w (f : string -> string) steps :
  Exists (fun line => is_Some (step_raises w line)) (map f steps) ->
  forall s : S,
    exists msg,
      fst (for_each steps (fun step => run_step w (f step)) s) = Raise msg.
Proof.
  intros H. apply for_each_raises. apply exists_in_map in H.
  eapply List.Exists_impl; [|exact H].
  intros step [msg Hmsg] s. exists msg. unfold run_step. now rewrite Hmsg.
Qed.

(** When the simulated action of a checklist step raises, the operation
    raises: at that step, or before it. *)
Lemma raising_step_stops_operation w d a s :
  checklist_step_raises w d a s ->
  exists msg, fst (operation_for w d a s) = Raise msg.
Proof.
  unfold checklist_step_raises, checklist, operation_for. intros H.
  destruct (a =? "scale_up")%string; [|destruct (a =? "scale_down")%string].
  - destruct (recommended_instances d) as [target|] eqn:Ht; [|inversion H].
    apply exists_in_concat, exists_in_map in H.
    unfold _scale_up. rewrite Ht.
    unfold bind at 1. cbn [get]. unfold bind at 1. cbn [item ret].
    match goal with
    | |- exists msg, fst (bind (for_each ?xs ?body) ?k ?st) = _ =>
        destruct (for_each_raises xs body) with (s := st) as [msg Hmsg];
          [|exists msg; now apply bind_raises]
    end.
    eapply List.Exists_impl; [|exact H]. intros i Hi st.
    destruct (steps_raise w (instance_line (instances s + i + 1))
                provisioning_steps Hi st) as [msg Hmsg].
    exists msg. apply bind_raises. exact Hmsg.
  - destruct (recommended_instances d) as [target|] eqn:Ht; [|inversion H].
    apply exists_in_concat, exists_in_map in H.
    unfold _scale_down. rewrite Ht.
    unfold bind at 1. cbn [get]. unfold bind at 1. cbn [item ret].
    match goal with
    | |- exists msg, fst (bind (for_each ?xs ?body) ?k ?st) = _ =>
        destruct (for_each_raises xs body) with (s := st) as [msg Hmsg];
          [|exists msg; now apply bind_raises]
    end.
    eapply List.Exists_impl; [|exact H]. intros i Hi st.
    destruct (steps_raise w (instance_line (instances s - i))
                shutdown_steps Hi st) as [msg Hmsg].
    exists msg. apply bind_raises. exact Hmsg.
  - unfold _maintain_resources.
    destruct (steps_raise w (fun check => "  " +:+ check +:+ "...")
                maintenance_checks H s) as [msg Hmsg].
    exists msg. apply bind_raises. exact Hmsg.
Qed.

(** A call whose operation raises is reported as failed, with the message,
    and leaves the state as it was. *)
Lemma failed_operation_keeps_state w d a self msg :
  action d = Some a ->
  fst (operation_for w d a (current_state self)) = Raise msg ->
  exists r,
    execute_scaling_decision w d self
      = (Ok r, saved w r (current_state self) self) /\
    er_status r = "failed" /\ errors r = [msg].
Proof.
  intros Ha Hop.
  rewrite (execute_unfold w d a self Ha), (try_body_unfold w d a _ _ Ha), Hop.
  eexists. split; [reflexivity|]. split; reflexivity.
Qed.

(** The state that a failed call leaves: the one it found, or, for a
    scale_up or scale_down without ['reason'], that state with the
    recommended count and resources, which [_update_state] had assigned
    when it missed the key. *)
Lemma failed_call_state w d a self :
  action d = Some a ->
  let s := current_state self in
  exists r s',
    execute_scaling_decision w d self = (Ok r, saved w r s' self) /\
    (er_status r = "completed" \/ er_status r = "failed") /\
    (er_status r = "failed" ->
       (is_scaling a = false \/ is_Some (reason d) -> s' = s) /\
       (s' = s \/
        (is_scaling a = true /\ reason d = None /\
         exists n res,
           recommended_instances d = Some n /\
           recommended_resources d = Some res /\
           s' = set_resources res (set_instances n s)))).
Proof.
  intros Ha s. subst s.
  rewrite (execute_unfold w d a self Ha).
  rewrite (try_body_unfold w d a _ _ Ha).
  set (s := current_state self).
  destruct (fst (operation_for w d a s)) as [op|msg] eqn:Hop.
  - cbv zeta.
    set (r1 := set_status "completed" (update_with op (started w a self))).
    rewrite (update_state_cases d r1 s a Ha eq_refl).
    destruct (is_scaling a) eqn:Hsc.
    + destruct (scaling_operation_reads_keys w d a s op Hsc Hop)
        as [[n Hn] [res Hres]].
      rewrite Hn, Hres. cbv zeta.
      destruct (reason d) as [why|] eqn:Hwhy.
      * eexists _, _. split; [reflexivity|]. split; [now left|].
        intros Hf. discriminate.
      * eexists _, _. split; [reflexivity|]. split; [now right|].
        intros _. split; [intros [H|[? H]]; discriminate|].
        right. split; [reflexivity|]. split; [reflexivity|]. eauto.
    + destruct (reason d) as [why|] eqn:Hwhy.
      * eexists _, _. split; [reflexivity|]. split; [now left|].
        intros Hf. discriminate.
      * eexists _, _. split; [reflexivity|]. split; [now right|].
        intros _. split; [reflexivity|now left].
  - eexists _, _. split; [reflexivity|]. split; [now right|].
    intros _. split; [reflexivity|now left].
Qed.

(** *** Calls that cannot fail *)

(** In a world where no step raises, a decision that has what is read is
    executed to completion. *)
Lemma sound_call_completes w d self :
  calm_world w -> complete_decision d ->
  exists r self',
    execute_scaling_decision w d self = (Ok r, self') /\
    er_status r = "completed".
Proof.
  intros Hcalm (a & Ha & [why Hwhy] & Hkeys).
  rewrite (execute_unfold w d a self Ha).
  rewrite (try_body_unfold w d a _ _ Ha).
  set (s := current_state self).
  assert (Hop : exists op, operation_for w d a s = (Ok op, s)).
  { unfold operation_for.
    destruct (a =? "scale_up")%string eqn:Eu.
    - apply String.eqb_eq in Eu.
      destruct Hkeys as (n & res & Hn & Hres & Hsized);
        [unfold is_scaling; now rewrite Eu|].
      eexists. apply (ManagerCalm.scale_up_calm w d s n res Hcalm Hn Hres).
      intros _. now apply Hsized.
    - destruct (a =? "scale_down")%string eqn:Ed.
      + destruct Hkeys as (n & res & Hn & Hres & _);
          [unfold is_scaling; rewrite Ed; apply orb_true_r|].
        eexists. apply (ManagerCalm.scale_down_calm w d s n res Hcalm Hn Hres).
      + eexists. now apply ManagerCalm.maintain_calm. }
  destruct Hop as [op Hop]. rewrite Hop. cbn [fst]. cbv zeta.
  rewrite (update_state_cases d
             (set_status "completed" (update_with op (started w a self)))
             s a Ha eq_refl).
  rewrite Hwhy.
  destruct (is_scaling a) eqn:Hsc.
  - destruct (Hkeys eq_refl) as (n & res & Hn & Hres & _).
    rewrite Hn, Hres. cbv zeta. eexists _, _. split; reflexivity.
  - eexists _, _. split; reflexivity.
Qed.

(** A run of such calls returns, and all of them completed. *)
Lemma sound_calls_complete calls : forall self,
  Forall sound_call calls ->
  exists results self',
    execute_all calls self = (Ok results, self') /\ all_completed results.
Proof.
  induction calls as [|call calls IH]; intros self Hall.
  - exists [], self. split; [reflexivity|constructor].
  - apply Forall_cons in Hall as [[Hcalm Hd] Hall].
    destruct (sound_call_completes _ _ self Hcalm Hd)
      as (r & self1 & Hcall & Hst).
    destruct (IH self1 Hall) as (rest & self' & Hrest & Hdone).
    exists (r :: rest), self'. split; [|constructor; assumption].
    unfold execute_all in *. cbn [for_each]. unfold bind at 1.
    rewrite Hcall. unfold bind. rewrite Hrest. reflexivity.
Qed.

(** *** Failure is reported, not raised; what it leaves behind *)

(** C1, as stated, fails.  A scale_up dict without ['reason'] passes the
    operation, has its count and resources assigned by [_update_state], and
    only then raises [KeyError('reason')]: the result is "failed", and the
    state holds three instances where it held one. *)
Lemma failed_call_changes_instances :
  match execute_scaling_decision (calm "t1" "t2") up_to_three_unexplained
          just_started with
  | (Ok result, self') =>
      er_status result = "failed" /\
      errors result = ["'reason'"] /\
      instances (current_state just_started) = 1 /\
      instances (current_state self') = 3 /\
      ~ same_allocation (current_state just_started) (current_state self')
  | (Raise _, _) => False
  end.
Proof. vm_compute. repeat split. intros [H _]. discriminate H. Qed.

(** C1, amended.  For a dict that has ['action'], [execute_scaling_decision]
    returns a result, "completed" or "failed", and raises nothing.  When the
    simulated action of any step of the operation's checklist raises, the
    result is "failed" with a non-empty error list, and the instances, the
    resources and the scaling events are those from before the call.  Any
    failed result has a non-empty error list and leaves the scaling events
    as they were; it leaves the instances and the resources as they were
    whenever the dict carries ['reason'] or its action is neither scale_up
    nor scale_down. *)
Theorem execute_reports_failure_and_keeps_state w d a self :
  action d = Some a ->
  let s := current_state self in
  exists result self',
    execute_scaling_decision w d self = (Ok result, self') /\
    (er_status result = "completed" \/ er_status result = "failed") /\
    (checklist_step_raises w d a s ->
       er_status result = "failed" /\
       errors result <> [] /\
       same_allocation s (current_state self')) /\
    (er_status result = "failed" ->
       errors result <> [] /\
       scaling_events (current_state self') = scaling_events s /\
       (is_scaling a = false \/ is_Some (reason d) ->
          same_allocation s (current_state self'))).
Proof.
  intros Ha s.
  destruct (fst (operation_for w d a s)) as [op|msg] eqn:Hop.
  - destruct (execute_outcome w d a self Ha) as (r & s' & Hexec & _ & _ & H).
    exists r, (saved w r s' self). split; [exact Hexec|].
    assert (Hcalm : ~ checklist_step_raises w d a s).
    { intros Hc. destruct (raising_step_stops_operation w d a s Hc)
        as [msg Hmsg].
      fold s in Hop. rewrite Hop in Hmsg. discriminate. }
    destruct H as [(msg & r0 & _ & Hst & Herr & Hev & Hsame)
                  |(_ & Hst & _)].
    + split; [now right|]. split; [intros Hc; contradiction|].
      intros _. rewrite Herr. split; [discriminate|].
      split; [exact Hev|]. intros Hcond.
      fold s in Hsame. rewrite (Hsame Hcond). repeat split.
    + split; [now left|]. split; [intros Hc; contradiction|].
      intros Hf. rewrite Hst in Hf. discriminate.
  - destruct (failed_operation_keeps_state w d a self msg Ha Hop)
      as (r & Hexec & Hst & Herr).
    exists r, (saved w r s self). split; [exact Hexec|].
    split; [now right|].
    assert (Hnonempty : errors r <> []) by (rewrite Herr; discriminate).
    split; [intros _|intros _]; repeat split; assumption.
Qed.

Lemma execute_reports_failure_witness :
  checklist_step_raises install_fails up_to_three "scale_up"
    (current_state just_started) /\
  exists result self',
    execute_scaling_decision install_fails up_to_three just_started
      = (Ok result, self') /\
    er_status result = "failed" /\
    errors result <> [] /\
    same_allocation (current_state just_started) (current_state self').
Proof.
  assert (Hraises : checklist_step_raises install_fails up_to_three
                      "scale_up" (current_state just_started)).
  { apply List.Exists_exists.
    exists "  instance-3: Installing application...".
    split; [vm_compute; auto 20|eexists; reflexivity]. }
  split; [exact Hraises|].
  destruct (execute_reports_failure_and_keeps_state install_fails
              up_to_three "scale_up" just_started eq_refl)
    as (result & self' & Hexec & _ & Hstep & _).
  exists result, self'. split; [exact Hexec|]. exact (Hstep Hraises).
Defined.

(** C10, as stated, fails.  The failed call on a scale_up dict without
    ['reason'] changes the instance count, not only [last_updated]; and a
    call on a dict without ['action'] raises before anything is written:
    the state file of a manager that has none is not created. *)
Lemma failed_call_changes_more_than_the_stamp :
  match execute_scaling_decision (calm "t1" "t2") up_to_three_unexplained
          just_started with
  | (Ok result, self') =>
      er_status result = "failed" /\
      instances (current_state just_started) = 1 /\
      instances (current_state self') = 3
  | (Raise _, _) => False
  end /\
  state_file just_started = None /\
  execute_scaling_decision (calm "t1" "t2") without_action just_started
    = (Raise "'action'", just_started).
Proof. vm_compute. repeat split. Qed.

(** C10, amended.  A call on a dict without ['action'] raises
    [KeyError('action')] and writes nothing.  Every other call returns a
    result, "completed" or "failed", writes the state file with the state it
    leaves, and sets [last_updated] to the clock reading of [_save_state].
    After a failed call the state is the one from before with only
    [last_updated] replaced, whenever the dict carries ['reason'] or its
    action is neither scale_up nor scale_down; the one other case is a
    scale_up or scale_down without ['reason'], after which the state also
    holds the recommended count and resources. *)
Theorem execute_saves_and_stamps_state w d self :
  (action d = None ->
     execute_scaling_decision w d self = (Raise "'action'", self)) /\
  (forall a, action d = Some a ->
     let s := current_state self in
     exists result self',
       execute_scaling_decision w d self = (Ok result, self') /\
       (er_status result = "completed" \/ er_status result = "failed") /\
       state_file self' = Some (current_state self') /\
       last_updated (current_state self') = now_on_save w /\
       (er_status result = "failed" ->
          (is_scaling a = false \/ is_Some (reason d) ->
             current_state self' = set_last_updated (now_on_save w) s) /\
          (current_state self' = set_last_updated (now_on_save w) s \/
           (is_scaling a = true /\ reason d = None /\
            exists n res,
              recommended_instances d = Some n /\
              recommended_resources d = Some res /\
              current_state self' =
                set_last_updated (now_on_save w)
                  (set_resources res (set_instances n s)))))).
Proof.
  split; [apply execute_without_action|].
  intros a Ha s.
  destruct (failed_call_state w d a self Ha)
    as (r & s' & Hexec & Hstatus & Hstate).
  exists r, (saved w r s' self). split; [exact Hexec|].
  split; [exact Hstatus|]. split; [reflexivity|]. split; [reflexivity|].
  intros Hf. destruct (Hstate Hf) as [Hsame Hcases]. fold s in Hsame, Hcases.
  split.
  - intros Hcond. cbn [saved current_state]. now rewrite (Hsame Hcond).
  - cbn [saved current_state].
    destruct Hcases as [->|(Hsc & Hwhy & n & res & Hn & Hres & ->)].
    + now left.
    + right. split; [exact Hsc|]. split; [exact Hwhy|].
      exists n, res. auto.
Qed.

Lemma execute_saves_and_stamps_witness :
  action up_to_three = Some "scale_up" /\
  exists result self',
    execute_scaling_decision install_fails up_to_three just_started
      = (Ok result, self') /\
    state_file self' = Some (current_state self') /\
    last_updated (current_state self') = "t2".
Proof.
  split; [reflexivity|].
  destruct (proj2 (execute_saves_and_stamps_state install_fails up_to_three
                     just_started) "scale_up" eq_refl)
    as (result & self' & Hexec & _ & Hfile & Hstamp & _).
  exists result, self'. auto.
Defined.

(** *** The cap on the event log *)

(** C7, as stated, fails.  [_load_state] takes the event log as the state
    file has it, so a file with fifty-one events gives a manager with
    fifty-one; a call that fails on it (a scale_up without
    ['recommended_instances']) leaves the log as it was, longer than
    fifty. *)
Lemma failed_call_keeps_overlong_log :
  _load_state a_host "t0" (Document (state_document (current_state overlong)))
    !! "scaling_events" = Some (SEvents fifty_one_events) /\
  match execute_scaling_decision (calm "t1" "t2") up_without_count overlong
  with
  | (Ok result, self') =>
      er_status result = "failed" /\
      length (scaling_events (current_state self')) = 51%nat
  | (Raise _, _) => False
  end.
Proof. split; [reflexivity|]. vm_compute. repeat split. Qed.

(** C7, amended.  A call leaves the event log as it was or as the last
    fifty of the old log with one event appended; a failed call leaves it
    as it was, and a completed call appends the event of that call, so the
    log then holds at most fifty events, oldest dropped first.  A log of at
    most fifty events never grows beyond fifty.  A run of calls in which no
    step raises and no key is missing completes call by call and leaves the
    last fifty of the old log followed by one event per call in call order;
    after fifty-five completed calls, from any state, the length is exactly
    fifty. *)
Theorem scaling_events_capped_at_fifty :
  (forall w d self,
     let before := scaling_events (current_state self) in
     let after :=
       scaling_events
         (current_state (snd (execute_scaling_decision w d self))) in
     (after = before \/
      exists ev, after = Py.take_last 50 (before ++ [ev])) /\
     ((length before <= 50)%nat -> (length after <= 50)%nat) /\
     (forall r self',
        execute_scaling_decision w d self = (Ok r, self') ->
        (er_status r = "failed" -> after = before) /\
        (er_status r = "completed" ->
           (length after <= 50)%nat /\
           exists ev,
             ev_timestamp ev = er_timestamp r /\
             after = Py.take_last 50 (before ++ [ev])))) /\
  (forall calls self,
     Forall sound_call calls ->
     exists results self' new_events,
       execute_all calls self = (Ok results, self') /\
       all_completed results /\
       map ev_timestamp new_events = map er_timestamp results /\
       length new_events = length calls /\
       (calls <> [] ->
        scaling_events (current_state self') =
          Py.take_last 50
            (scaling_events (current_state self) ++ new_events)) /\
       (length calls = 55%nat ->
        length (scaling_events (current_state self')) = 50%nat)) /\
  (forall calls self results self',
     length calls = 55%nat ->
     execute_all calls self = (Ok results, self') ->
     all_completed results ->
     length (scaling_events (current_state self')) = 50%nat).
Proof.
  assert (H55 : forall calls self results self',
            length calls = 55%nat ->
            execute_all calls self = (Ok results, self') ->
            all_completed results ->
            length (scaling_events (current_state self')) = 50%nat).
  { intros calls self results self' Hlen Hrun Hall.
    destruct (execute_all_events calls self results self' Hrun Hall)
      as (evs & _ & Hlen' & Hevs).
    rewrite Hevs.
    - rewrite PyFacts.length_take_last, length_app. lia.
    - left. intros ->. discriminate. }
  split; [|split; [|exact H55]].
  - intros w d self. cbv zeta. split; [|split].
    + destruct (execute_events w d self) as [->|[ev ->]]; [now left|].
      right. exists ev. apply record_event_take_last.
    + intros Hcap. destruct (execute_events w d self) as [->|[ev ->]];
        [exact Hcap|]. rewrite length_record_event. lia.
    + intros r self' Hexec. rewrite Hexec. cbn [snd]. split.
      * intros Hf. destruct (action d) as [a|] eqn:Ha.
        -- destruct (execute_outcome w d a self Ha)
             as (r' & s' & Hexec' & _ & _ & H).
           rewrite Hexec in Hexec'. injection Hexec' as -> ->.
           rewrite saved_events.
           destruct H as [(msg & r0 & _ & _ & _ & Hev & _)|(_ & Hst & _)];
             [exact Hev|]. rewrite Hst in Hf. discriminate.
        -- rewrite execute_without_action in Hexec by exact Ha.
           discriminate.
      * intros Hc.
        destruct (execute_completed_event w d self r self' Hexec Hc)
          as (ev & Hts & Hev).
        rewrite Hev. split; [rewrite length_record_event; lia|].
        exists ev. split; [exact Hts|apply record_event_take_last].
  - intros calls self Hsound.
    destruct (sound_calls_complete calls self Hsound)
      as (results & self' & Hrun & Hall).
    destruct (execute_all_events calls self results self' Hrun Hall)
      as (evs & Hmap & Hlen & Hevs).
    exists results, self', evs. repeat split; try assumption.
    + intros Hne. apply Hevs. now left.
    + intros H. exact (H55 calls self results self' H Hrun Hall).
Qed.

Lemma scaling_events_capped_witness :
  Forall sound_call fifty_five_calls /\
  length
    (scaling_events
       (current_state (snd (execute_all fifty_five_calls just_started))))
    = 50%nat.
Proof.
  assert (H : Forall sound_call fifty_five_calls).
  { unfold fifty_five_calls. apply Forall_replicate.
    split; [intros line; reflexivity|].
    exists "scale_up". split; [reflexivity|]. split; [eexists; reflexivity|].
    intros _. exists 3, small_allocation.
    split; [reflexivity|]. split; [reflexivity|].
    intros _. repeat split; eexists; reflexivity. }
  split; [exact H|].
  destruct (proj1 (proj2 scaling_events_capped_at_fifty) fifty_five_calls
              just_started H)
    as (results & self' & evs & Hrun & _ & _ & _ & _ & Hlen).
  rewrite Hrun. apply Hlen. reflexivity.
Defined.

(** *** Actions that are not scale_up or scale_down *)

(** A call whose action is neither scale_up nor scale_down leaves the
    instances and the resources alone; when it completes it records one
    event, under that action, with the same count before and after. *)
Lemma execute_other_action w d a self :
  action d = Some a -> is_scaling a = false ->
  exists result self',
    execute_scaling_decision w d self = (Ok result, self') /\
    (er_status result = "completed" \/ er_status result = "failed") /\
    instances (current_state self') = instances (current_state self) /\
    resources (current_state self') = resources (current_state self) /\
    (er_status result = "failed" ->
       scaling_events (current_state self') =
       scaling_events (current_state self)) /\
    (er_status result = "completed" ->
       exists ev,
         scaling_events (current_state self') =
           record_event ev (scaling_events (current_state self)) /\
         ev_action ev = a /\
         instances_before ev = instances (current_state self) /\
         instances_after ev = instances (current_state self)).
Proof.
  intros Ha Hsc.
  destruct (execute_outcome w d a self Ha)
    as (r & s' & Hexec & _ & Hprev & H).
  exists r, (saved w r s' self). split; [exact Hexec|].
  rewrite Hsc in H.
  destruct H as [(msg & r0 & _ & Hst & _ & _ & Hsame)
                |(_ & Hst & _ & why & _ & Hs')].
  - rewrite (Hsame (or_introl eq_refl)).
    split; [now right|]. repeat split.
    intros Hc. rewrite Hst in Hc. discriminate.
  - rewrite Hs'. split; [now left|]. repeat split.
    + intros Hf. rewrite Hst in Hf. discriminate.
    + intros _. eexists. split; [reflexivity|]. repeat split. exact Hprev.
Qed.

(** C8, as stated, fails: a completed "maintain" lengthens the event log,
    and the event it adds records no scale_up or scale_down. *)
Lemma maintain_records_an_event :
  let after :=
    current_state
      (snd (execute_scaling_decision (calm "t1" "t2") keep_as_is
              just_started)) in
  scaling_events after <> scaling_events (current_state just_started) /\
  ~ Forall records_scaling_transition (scaling_events after).
Proof.
  cbv zeta. split.
  - vm_compute. discriminate.
  - intros H. apply Forall_inv in H. vm_compute in H.
    destruct H as [H|H]; discriminate.
Qed.

(** C8, amended. A call with action "maintain" never changes the instances
    or the resources of the state.  When it fails the event log is
    untouched; when it completes the log receives exactly one event, with
    action "maintain" and the same instance count before and after, so the
    log records every completed call, not only scale_up and scale_down
    transitions. *)
Theorem maintain_keeps_allocation w d self :
  action d = Some "maintain" ->
  exists result self',
    execute_scaling_decision w d self = (Ok result, self') /\
    (er_status result = "completed" \/ er_status result = "failed") /\
    instances (current_state self') = instances (current_state self) /\
    resources (current_state self') = resources (current_state self) /\
    (er_status result = "failed" ->
       scaling_events (current_state self') =
       scaling_events (current_state self)) /\
    (er_status result = "completed" ->
       exists ev,
         scaling_events (current_state self') =
           record_event ev (scaling_events (current_state self)) /\
         ev_action ev = "maintain" /\
         ~ changes_instance_count ev /\
         instances_after ev = instances (current_state self)).
Proof.
  intros Ha.
  destruct (execute_other_action w d "maintain" self Ha eq_refl)
    as (r & self' & Hexec & Hst & Hi & Hr & Hfail & Hdone).
  exists r, self'. repeat split; try assumption.
  intros Hc. destruct (Hdone Hc) as (ev & Hev & Hact & Hb & Haf).
  exists ev. repeat split; try assumption.
  unfold changes_instance_count. rewrite Hb, Haf. auto.
Qed.

Lemma maintain_keeps_allocation_witness :
  action keep_as_is = Some "maintain" /\
  exists result self',
    execute_scaling_decision (calm "t1" "t2") keep_as_is just_started
      = (Ok result, self') /\
    instances (current_state self') = 1 /\
    resources (current_state self') = small_allocation.
Proof.
  split; [reflexivity|].
  destruct (maintain_keeps_allocation (calm "t1" "t2") keep_as_is
              just_started eq_refl)
    as (result & self' & Hexec & _ & Hi & Hr & _).
  exists result, self'. auto.
Defined.

(** *** Rollback *)

(** [rollback_last_scaling] on a log with a last event is the execution of
    the rollback decision; the instance count and the resources stay as
    they are, whatever the count before that event was. *)
Lemma rollback_leaves_allocation w self last_event :
  last (scaling_events (current_state self)) = Some last_event ->
  exists result self',
    rollback_last_scaling w self = (Ok (Executed result), self') /\
    execute_scaling_decision w (rollback_decision last_event) self
      = (Ok result, self') /\
    recommended_instances (rollback_decision last_event)
      = Some (instances_before last_event) /\
    instances (current_state self') = instances (current_state self) /\
    resources (current_state self') = resources (current_state self).
Proof.
  intros Hlast.
  destruct (execute_other_action w (rollback_decision last_event) "rollback"
              self eq_refl eq_refl)
    as (r & self' & Hexec & _ & Hi & Hr & _).
  exists r, self'. repeat split; try assumption.
  unfold rollback_last_scaling, bind, get. rewrite Hlast.
  unfold bind. rewrite Hexec. reflexivity.
Qed.

(** C3, on the code.  After a completed scale_up from one instance to
    three, the last event has [instances_before = 1];
    [rollback_last_scaling] builds a decision recommending one instance and
    runs it through [execute_scaling_decision], the execution completes,
    and the state still holds three instances: the "rollback" action falls
    into the maintain branch, and [_update_state] assigns the instance
    count for scale_up and scale_down only. *)
Theorem rollback_after_scale_up_keeps_three_instances :
  instances (current_state scaled_to_three) = 3 /\
  instances_before <$> last (scaling_events (current_state scaled_to_three))
    = Some 1 /\
  match rollback_last_scaling (calm "t3" "t4") scaled_to_three with
  | (Ok (Executed result), self') =>
      er_action result = "rollback" /\
      er_status result = "completed" /\
      instances (current_state self') = 3 /\
      (fun ev => (ev_action ev, instances_before ev, instances_after ev))
        <$> last (scaling_events (current_state self'))
        = Some ("rollback", 3, 3)
  | _ => False
  end.
Proof. vm_compute. repeat split. Qed.

End ManagerFacts.

(** ** More facts about the Python numerics *)

Module PyMore.

Lemma scale_positive ndigits : (0 < Py.scale_of ndigits)%Q.
Proof.
  unfold Py.scale_of, Py.scale_of. change 0%Q with (inject_Z 0). rewrite <- Zlt_Qlt.
  apply Z.pow_pos_nonneg; lia.
Qed.

(** [round] picks the integer below the scaled value, or the next one; the
    next one only when the scaled value is strictly above the lower. *)
Lemma round_nearest x ndigits :
  exists k,
    Py.round x ndigits = (inject_Z k / Py.scale_of ndigits)%Q /\
    (k = Qfloor (x * Py.scale_of ndigits) \/
     k = Qfloor (x * Py.scale_of ndigits) + 1 /\
     (inject_Z (Qfloor (x * Py.scale_of ndigits)) < x * Py.scale_of ndigits)%Q).
Proof.
  unfold Py.round. fold (Py.scale_of ndigits).
  set (scaled := (x * Py.scale_of ndigits)%Q).
  set (low := Qfloor scaled).
  set (rest := (scaled - inject_Z low)%Q).
  assert (Hup : (0.5 <= rest)%Q -> (inject_Z low < scaled)%Q).
  { intros H. unfold rest in H.
    apply Qlt_minus_iff. eapply Qlt_le_trans; [|exact H]. reflexivity. }
  destruct (Py.ltb rest 0.5) eqn:E1; [eexists; split; [reflexivity|now left]|].
  apply PyFacts.ltb_ge in E1.
  destruct (Py.ltb 0.5 rest) eqn:E2.
  { eexists. split; [reflexivity|]. right. split; [reflexivity|auto]. }
  destruct (Z.even low).
  - eexists. split; [reflexivity|now left].
  - eexists. split; [reflexivity|]. right. split; [reflexivity|auto].
Qed.

Lemma round_lower x ndigits (lo : Z) :
  (inject_Z lo <= x * Py.scale_of ndigits)%Q ->
  (inject_Z lo / Py.scale_of ndigits <= Py.round x ndigits)%Q.
Proof.
  intros H. destruct (round_nearest x ndigits) as (k & -> & Hk).
  apply Qle_shift_div_l; [apply scale_positive|].
  unfold Qdiv. rewrite <- Qmult_assoc, (Qmult_comm (/ _)).
  rewrite Qmult_inv_r, Qmult_1_r
    by (intros E; pose proof (scale_positive ndigits) as P;
        rewrite E in P; discriminate).
  rewrite <- Zle_Qle.
  apply Qfloor_resp_le in H. rewrite Qfloor_Z in H.
  destruct Hk as [->|[-> _]]; lia.
Qed.

Lemma round_upper x ndigits (hi : Z) :
  (x * Py.scale_of ndigits <= inject_Z hi)%Q ->
  (Py.round x ndigits <= inject_Z hi / Py.scale_of ndigits)%Q.
Proof.
  intros H. destruct (round_nearest x ndigits) as (k & -> & Hk).
  apply Qle_shift_div_r; [apply scale_positive|].
  unfold Qdiv. rewrite <- Qmult_assoc, (Qmult_comm (/ _)).
  rewrite Qmult_inv_r, Qmult_1_r
    by (intros E; pose proof (scale_positive ndigits) as P;
        rewrite E in P; discriminate).
  rewrite <- Zle_Qle.
  destruct Hk as [->|[-> Hlt]].
  - apply Qfloor_resp_le in H. now rewrite Qfloor_Z in H.
  - assert (Hlow : Qfloor (x * Py.scale_of ndigits) < hi).
    { rewrite Zlt_Qlt. eapply Qlt_le_trans; [exact Hlt|exact H]. }
    lia.
Qed.

(** A value with at most [ndigits] decimals is its own rounding. *)
Lemma round_exact x ndigits (k : Z) :
  (x * Py.scale_of ndigits == inject_Z k)%Q ->
  (Py.round x ndigits == x)%Q.
Proof.
  intros H.
  assert (Hx : (x == inject_Z k / Py.scale_of ndigits)%Q).
  { rewrite <- H. unfold Qdiv. rewrite <- Qmult_assoc.
    rewrite Qmult_inv_r, Qmult_1_r; [reflexivity|].
    intros E. pose proof (scale_positive ndigits) as P.
    rewrite E in P. discriminate. }
  apply Qle_antisym.
  - apply Qle_trans with (inject_Z k / Py.scale_of ndigits)%Q.
    + apply round_upper. rewrite H. apply Qle_refl.
    + rewrite Hx. apply Qle_refl.
  - apply Qle_trans with (inject_Z k / Py.scale_of ndigits)%Q.
    + rewrite Hx. apply Qle_refl.
    + apply round_lower. rewrite H. apply Qle_refl.
Qed.

(** Bounds with at most [ndigits] decimals survive the rounding. *)
Lemma round_between x ndigits (lo hi : Z) (a b : Q) :
  (a * Py.scale_of ndigits == inject_Z lo)%Q ->
  (b * Py.scale_of ndigits == inject_Z hi)%Q ->
  (a <= x <= b)%Q ->
  (a <= Py.round x ndigits <= b)%Q.
Proof.
  intros Ha Hb [Hax Hxb].
  pose proof (scale_positive ndigits) as P.
  assert (Hne : ~ (Py.scale_of ndigits == 0)%Q).
  { intros E. rewrite E in P. discriminate. }
  assert (Ea : (a == inject_Z lo / Py.scale_of ndigits)%Q).
  { rewrite <- Ha. unfold Qdiv. rewrite <- Qmult_assoc.
    now rewrite Qmult_inv_r, Qmult_1_r. }
  assert (Eb : (b == inject_Z hi / Py.scale_of ndigits)%Q).
  { rewrite <- Hb. unfold Qdiv. rewrite <- Qmult_assoc.
    now rewrite Qmult_inv_r, Qmult_1_r. }
  split.
  - apply Qle_trans with (inject_Z lo / Py.scale_of ndigits)%Q.
    + rewrite Ea. apply Qle_refl.
    + apply round_lower. rewrite <- Ha.
      apply Qmult_le_compat_r; [exact Hax|now apply Qlt_le_weak].
  - apply Qle_trans with (inject_Z hi / Py.scale_of ndigits)%Q.
    + apply round_upper. rewrite <- Hb.
      apply Qmult_le_compat_r; [exact Hxb|now apply Qlt_le_weak].
    + rewrite Eb. apply Qle_refl.
Qed.

Lemma abs_nonneg x : (0 <= Py.abs x)%Q.
Proof.
  unfold Py.abs. destruct (Py.ltb x 0) eqn:E.
  - apply PyFacts.ltb_lt in E. apply (Qopp_le_compat x 0).
    now apply Qlt_le_weak.
  - now apply PyFacts.ltb_ge in E.
Qed.

Lemma leb_le x y : Py.leb x y = true <-> (x <= y)%Q.
Proof.
  unfold Py.leb. rewrite negb_true_iff. apply PyFacts.ltb_ge.
Qed.

Lemma slice_last_positive {A} (k : Z) (xs : list A) :
  0 < k -> Py.slice_last k xs = Py.take_last (Z.to_nat k) xs.
Proof.
  intros H. unfold Py.slice_last. apply Z.ltb_lt in H. now rewrite H.
Qed.

Lemma take_last_suffix {A} n (xs : list A) :
  exists older, xs = (older ++ Py.take_last n xs)%list.
Proof.
  exists (take (length xs - n) xs). unfold Py.take_last.
  symmetry. apply take_drop.
Qed.

Lemma scale_nonzero ndigits : ~ (Py.scale_of ndigits == 0)%Q.
Proof.
  intros E. pose proof (scale_positive ndigits) as P.
  rewrite E in P. discriminate.
Qed.

Lemma scale_is_integer ndigits (b : Z) :
  (inject_Z b * Py.scale_of ndigits
   == inject_Z (b * 10 ^ Z.of_nat ndigits))%Q.
Proof. unfold Py.scale_of. now rewrite inject_Z_mult. Qed.

(** Integer bounds survive the rounding. *)
Lemma round_le_integer x ndigits (b : Z) :
  (x <= inject_Z b)%Q -> (Py.round x ndigits <= inject_Z b)%Q.
Proof.
  intros H.
  apply (round_between x ndigits (Qfloor (x * Py.scale_of ndigits))
           (b * 10 ^ Z.of_nat ndigits)
           (inject_Z (Qfloor (x * Py.scale_of ndigits))
            / Py.scale_of ndigits)%Q (inject_Z b)).
  - unfold Qdiv. rewrite <- Qmult_assoc, (Qmult_comm (/ _)).
    rewrite Qmult_inv_r by apply scale_nonzero. apply Qmult_1_r.
  - apply scale_is_integer.
  - split; [|exact H].
    apply Qle_shift_div_r; [apply scale_positive|apply Qfloor_le].
Qed.

Lemma round_ge_integer x ndigits (a : Z) :
  (inject_Z a <= x)%Q -> (inject_Z a <= Py.round x ndigits)%Q.
Proof.
  intros H.
  apply (round_between x ndigits (a * 10 ^ Z.of_nat ndigits)
           (Qfloor (x * Py.scale_of ndigits) + 1)
           (inject_Z a)
           (inject_Z (Qfloor (x * Py.scale_of ndigits) + 1)
            / Py.scale_of ndigits)%Q).
  - apply scale_is_integer.
  - unfold Qdiv. rewrite <- Qmult_assoc, (Qmult_comm (/ _)).
    rewrite Qmult_inv_r by apply scale_nonzero. apply Qmult_1_r.
  - split; [exact H|].
    apply Qle_shift_div_l; [apply scale_positive|].
    apply Qlt_le_weak, Qlt_floor.
Qed.

(** An integer is its own rounding. *)
Lemma round_integer ndigits (b : Z) x :
  (x == inject_Z b)%Q -> (Py.round x ndigits == inject_Z b)%Q.
Proof.
  intros H. transitivity x; [|exact H].
  apply (round_exact x ndigits (b * 10 ^ Z.of_nat ndigits)).
  rewrite H. apply scale_is_integer.
Qed.

(** *** [dict.update] from a settings file *)

Lemma union_covered {V} (d defaults : gmap string V) :
  (forall k, is_Some (defaults !! k) -> is_Some (d !! k)) ->
  d ∪ defaults = d.
Proof.
  intros Hcover. apply map_eq. intros k. rewrite lookup_union.
  destruct (d !! k) as [v|] eqn:Hd.
  - now destruct (defaults !! k).
  - destruct (defaults !! k) as [v|] eqn:Hdef; [|reflexivity].
    destruct (Hcover k) as [v' Hv']; [now rewrite Hdef|]. congruence.
Qed.

(** A key that no pair of the array assigns keeps what it had. *)
Lemma assigned_other {V} (assigned : list (string * V)) :
  forall (defaults : gmap string V) k,
    k ∉ assigned.*1 ->
    update_from (Pairs assigned) defaults !! k = defaults !! k.
Proof.
  unfold update_from.
  induction assigned as [|[k' v'] assigned IH]; intros defaults k Hk;
    [reflexivity|].
  cbn [foldl fst snd]. rewrite IH.
  - apply lookup_insert_ne. intros ->. apply Hk. cbn. apply elem_of_cons.
    now left.
  - intros H. apply Hk. cbn. apply elem_of_cons. now right.
Qed.

(** A key has the value of the last pair that assigns it. *)
Lemma assigned_last {V} (before : list (string * V)) k v after defaults :
  k ∉ after.*1 ->
  update_from (Pairs (before ++ (k, v) :: after)) defaults !! k = Some v.
Proof.
  intros Hk. unfold update_from. rewrite foldl_app. cbn [foldl fst snd].
  etrans; [exact (assigned_other after _ k Hk)|apply lookup_insert_eq].
Qed.

(** [update] removes no key. *)
Lemma update_from_keeps_keys {V} (file : FileContent V) defaults k :
  is_Some (defaults !! k) -> is_Some (update_from file defaults !! k).
Proof.
  destruct file as [| |loaded|assigned]; cbn [update_from]; try easy.
  - intros H. apply lookup_union_is_Some. now right.
  - revert defaults. induction assigned as [|[k' v'] assigned IH];
      intros defaults H; [exact H|].
    cbn [foldl fst snd]. apply IH.
    destruct (decide (k' = k)) as [->|Hne].
    + rewrite lookup_insert_eq. eauto.
    + now rewrite lookup_insert_ne.
Qed.


End PyMore.

(** ** More about the forecaster *)

Module PredictorMore.

Import Predictor PredictorSpec PredictorTerms.

Lemma clamp_monotone x y : (x <= y)%Q -> (clamp x <= clamp y)%Q.
Proof.
  intros H. unfold clamp. rewrite !PyFacts.max2_spec, !PyFacts.min2_spec.
  apply Q.max_le_compat_l. now apply Q.min_le_compat_l.
Qed.

Lemma clamp_in_range x : in_range x -> (clamp x == x)%Q.
Proof.
  intros [H0 H100]. unfold clamp.
  rewrite PyFacts.max2_spec, PyFacts.min2_spec.
  rewrite (Q.min_r 100 x) by exact H100. now apply Q.max_r.
Qed.

(** The value that pass [k] of the trend loop appends. *)
Lemma trend_steps_lookup current_load trend n : forall i (k : nat),
  (k < n)%nat ->
  trend_steps current_load trend i n !! k =
    Some (clamp (current_load
                 + trend * inject_Z (Z.of_nat (i + k) + 1))).
Proof.
  induction n as [|n IH]; intros i k Hk; [lia|].
  destruct k as [|k]; cbn [trend_steps lookup list_lookup].
  - now rewrite Nat.add_0_r.
  - rewrite IH by lia.
    now replace (S i + k)%nat with (i + S k)%nat by lia.
Qed.

Lemma slope_up c t x y :
  (x <= y)%Q -> (0 <= t)%Q -> (c + t * x <= c + t * y)%Q.
Proof.
  intros Hxy Ht. apply Qplus_le_r.
  rewrite (Qmult_comm t x), (Qmult_comm t y).
  now apply Qmult_le_compat_r.
Qed.

Lemma slope_down c t x y :
  (x <= y)%Q -> (t <= 0)%Q -> (c + t * y <= c + t * x)%Q.
Proof.
  intros Hxy Ht. apply Qplus_le_r.
  apply Qopp_le_compat in Ht. change (- 0)%Q with 0%Q in Ht.
  pose proof (Qmult_le_compat_r x y (- t) Hxy Ht) as H.
  apply Qopp_le_compat in H.
  assert (E1 : (- (x * - t) == t * x)%Q) by ring.
  assert (E2 : (- (y * - t) == t * y)%Q) by ring.
  now rewrite E1, E2 in H.
Qed.

Lemma len_positive {A} (xs : list A) : xs <> [] -> (0 < Py.len xs)%Q.
Proof.
  intros H. destruct xs as [|x xs]; [contradiction|].
  unfold Py.len, Qlt. cbn [length Qnum Qden inject_Z]. lia.
Qed.

Lemma step_index_le (i : nat) :
  (inject_Z (Z.of_nat (0 + i) + 1) <= inject_Z (Z.of_nat (0 + S i) + 1))%Q.
Proof. rewrite <- Zle_Qle. lia. Qed.

(** The trend loop is monotone in the direction of its slope. *)
Lemma trend_steps_monotone current_load trend horizon :
  ((0 <= trend)%Q -> nondecreasing (trend_steps current_load trend 0 horizon))
  /\ ((trend <= 0)%Q ->
      nonincreasing (trend_steps current_load trend 0 horizon)).
Proof.
  split; intros Ht i a b Ha Hb;
    pose proof (lookup_lt_Some _ _ _ Hb) as Hi;
    rewrite PredictorFacts.trend_steps_length in Hi;
    rewrite trend_steps_lookup in Ha, Hb by lia;
    injection Ha as <-; injection Hb as <-; apply clamp_monotone.
  - apply slope_up; [apply step_index_le|exact Ht].
  - apply slope_down; [apply step_index_le|exact Ht].
Qed.

(** X21. [_simple_trend_prediction] moves in one direction only: when the
    last load of its ten-sample window is at least the first one, each
    prediction is at least the one before it; when it is at most the first
    one, each prediction is at most the one before it. *)
Theorem trend_prediction_is_monotone recent horizon first final :
  head (trend_window recent) = Some first ->
  last (trend_window recent) = Some final ->
  ((first <= final)%Q ->
     nondecreasing (_simple_trend_prediction recent horizon)) /\
  ((final <= first)%Q ->
     nonincreasing (_simple_trend_prediction recent horizon)).
Proof.
  intros Hfirst Hfinal. unfold _simple_trend_prediction.
  destruct (length recent <? 2)%nat.
  { split; intros _ i a b Ha Hb;
      apply lookup_replicate in Ha as [-> _];
      apply lookup_replicate in Hb as [-> _]; apply Qle_refl. }
  fold (trend_window recent).
  destruct (trend_window recent) as [|first' others] eqn:E; [discriminate|].
  injection Hfirst as ->.
  apply PredictorFacts.last_cons_default in Hfinal. cbv zeta. rewrite Hfinal.
  pose proof (len_positive (first :: others) ltac:(discriminate)) as Hlen.
  destruct (trend_steps_monotone final
              (if (1 <? length (first :: others))%nat
               then (final - first) / Py.len (first :: others) else 0)%Q
              horizon) as [Hup Hdown].
  split; intros Hdir.
  - apply Hup. destruct (1 <? length (first :: others))%nat;
      [|apply Qle_refl].
    apply Qle_shift_div_l; [exact Hlen|].
    rewrite Qmult_0_l. exact (proj1 (Qle_minus_iff first final) Hdir).
  - apply Hdown. destruct (1 <? length (first :: others))%nat;
      [|apply Qle_refl].
    apply Qle_shift_div_r; [exact Hlen|].
    rewrite Qmult_0_l.
    apply Qplus_le_l with (z := first).
    assert (E1 : (final - first + first == final)%Q) by ring.
    rewrite E1, Qplus_0_l. exact Hdir.
Qed.

Lemma trend_prediction_is_monotone_witness :
  nondecreasing (_simple_trend_prediction six_rising 4).
Proof.
  apply (trend_prediction_is_monotone six_rising 4 10 60);
    [reflexivity|reflexivity|discriminate].
Defined.

(** X22. For a predicted load between 0 and 100 the synthetic sample of
    [_create_synthetic_metric] carries that load one minute later, and its
    derived metrics never reach their caps: the CPU share is 0.8 times the
    load, the memory share 0.7 times, and the response time lies between
    50 and 200 ms. *)
Theorem synthetic_metric_ranges last_metric predicted :
  in_range predicted ->
  let synthetic := _create_synthetic_metric last_metric predicted in
  (load_score synthetic == predicted)%Q /\
  (timestamp synthetic == timestamp last_metric + 60)%Q /\
  (cpu_percent synthetic == predicted * 0.8)%Q /\
  (memory_percent synthetic == predicted * 0.7)%Q /\
  (50 <= response_time_ms synthetic <= 200)%Q /\
  disk_percent synthetic = disk_percent last_metric /\
  active_connections synthetic = active_connections last_metric.
Proof.
  intros [H0 H100]. cbv zeta. cbn [_create_synthetic_metric load_score
    timestamp cpu_percent memory_percent response_time_ms disk_percent
    active_connections].
  assert (Hf0 : (0 <= predicted / 100)%Q).
  { apply Qle_shift_div_l; [reflexivity|]. now rewrite Qmult_0_l. }
  assert (Hf1 : (predicted / 100 <= 1)%Q).
  { apply Qle_shift_div_r; [reflexivity|]. now rewrite Qmult_1_l. }
  repeat split; try reflexivity.
  - rewrite PyFacts.min2_spec, Q.min_r.
    + unfold Qdiv. rewrite <- Qmult_assoc.
      apply Qmult_comp; [reflexivity|now vm_compute].
    + apply Qle_trans with (1 * 80)%Q; [|discriminate].
      apply Qmult_le_compat_r; [exact Hf1|discriminate].
  - rewrite PyFacts.min2_spec, Q.min_r.
    + unfold Qdiv. rewrite <- Qmult_assoc.
      apply Qmult_comp; [reflexivity|now vm_compute].
    + apply Qle_trans with (1 * 70)%Q; [|discriminate].
      apply Qmult_le_compat_r; [exact Hf1|discriminate].
  - rewrite <- (Qplus_0_r 50) at 1. apply Qplus_le_r.
    apply Qmult_le_0_compat; [exact Hf0|discriminate].
  - apply Qle_trans with (50 + 1 * 150)%Q; [|discriminate].
    apply Qplus_le_r. apply Qmult_le_compat_r; [exact Hf1|discriminate].
Qed.

Lemma synthetic_metric_ranges_witness :
  (cpu_percent (_create_synthetic_metric (sample 42) 50) == 50 * 0.8)%Q.
Proof.
  apply (synthetic_metric_ranges (sample 42) 50). split; discriminate.
Defined.

(** A pass whose frame cannot be built ends the loop without predictions,
    whatever the passes before it appended. *)
Lemma forecast_loop_frame_error p current_load n :
  forall window (k : nat),
    window <> [] -> (k < n)%nat ->
    model_step p (window_at p window k) = FrameError ->
    forecast_loop p current_load window n = None.
Proof.
  induction n as [|n IH]; intros window k Hne Hk Hframe; [lia|].
  rewrite PredictorFacts.forecast_loop_step by exact Hne.
  destruct k as [|k].
  - cbn [window_at] in Hframe. now rewrite Hframe.
  - cbn [window_at] in Hframe.
    rewrite (IH (next_window p window) k
               (PredictorFacts.next_window_nonempty p window Hne)
               ltac:(lia) Hframe).
    now destruct (model_step p window).
Qed.

(** X23. When the frame of any pass of the forecasting loop cannot be
    built, a trained predictor with at least five samples throws away the
    predictions of the passes before it and answers with the trend
    prediction over the original samples. *)
Theorem frame_error_falls_back_to_trend p recent horizon (k : nat) :
  is_trained p = true -> (5 <= length recent)%nat -> (k < horizon)%nat ->
  model_step p (window_at p (Py.take_last 15 recent) k) = FrameError ->
  predict_demand p recent horizon = _simple_trend_prediction recent horizon.
Proof.
  intros Ht Hlen Hk Hframe.
  assert (Hne : recent <> []).
  { intros ->. cbn [length] in Hlen. lia. }
  destruct (PredictorFacts.last_nonempty recent Hne) as [m Hm].
  rewrite (PredictorFacts.predict_demand_trained p recent horizon m Ht Hlen Hm).
  now rewrite (forecast_loop_frame_error p (load_score m) horizon
                 (Py.take_last 15 recent) k
                 (PredictorFacts.take_last_nonempty 15 recent ltac:(lia) Hne)
                 Hk Hframe).
Qed.

Lemma frame_error_falls_back_witness :
  predict_demand brittle six_rising 3 = _simple_trend_prediction six_rising 3.
Proof.
  apply (frame_error_falls_back_to_trend brittle six_rising 3 1);
    [reflexivity|cbn [length six_rising]; lia|lia|reflexivity].
Defined.

(** X24. Whatever the predictions and the current load,
    [get_scaling_recommendation] answers with one of the three actions and
    with a confidence above 0 and at most 0.9; only a scale-up can carry a
    confidence of 0.25 or less. *)
Theorem recommendation_action_and_confidence fmt predictions current_load :
  let r := get_scaling_recommendation fmt predictions current_load in
  (action r = "scale_up" \/ action r = "scale_down" \/
   action r = "maintain") /\
  (0 < confidence r <= 0.9)%Q /\
  (action r = "scale_up" \/ (0.25 < confidence r)%Q).
Proof.
  destruct predictions as [|first others].
  { cbn. split; [auto|].
    split; [split; [reflexivity|discriminate]|]. right. reflexivity. }
  cbv zeta.
  destruct (PredictorFacts.recommendation_cases fmt first others current_load)
    as [(Htop & -> & ->)
       |[(_ & [Havg _] & -> & ->)
        |[(_ & _ & _ & -> & ->)
         |[(_ & _ & _ & _ & -> & ->)|(_ & _ & _ & _ & -> & ->)]]]];
    (split; [auto|]).
  - split; [|now left]. rewrite PyFacts.min2_spec. split.
    + apply Q.min_glb_lt; [reflexivity|].
      apply Qlt_shift_div_l; [reflexivity|]. rewrite Qmult_0_l.
      exact (proj1 (Qlt_minus_iff _ _) Htop).
    + apply Q.le_min_l.
  - assert (Hquarter :
      (0.25 < Py.min2 0.8
                ((40 - Py.sum_list (first :: others)
                         / Py.len (first :: others)) / 40))%Q).
    { rewrite PyFacts.min2_spec. apply Q.min_glb_lt; [reflexivity|].
      apply Qlt_shift_div_l; [reflexivity|].
      apply Qle_lt_trans with (40 - 30)%Q; [discriminate|].
      apply (proj2 (Qplus_lt_r _ _ 40)). now apply Qopp_lt_compat. }
    split; [|now right]. split.
    + eapply Qlt_trans; [|exact Hquarter]. reflexivity.
    + rewrite PyFacts.min2_spec.
      eapply Qle_trans; [apply Q.le_min_l|discriminate].
  - split; [split; [reflexivity|discriminate]|now left].
  - split; [split; [reflexivity|discriminate]|right; reflexivity].
  - split; [split; [reflexivity|discriminate]|right; reflexivity].
Qed.

Lemma lookup_map {A B} (f : A -> B) (l : list A) (i : nat) :
  map f l !! i = f <$> (l !! i).
Proof. exact (list_lookup_fmap f l i). Qed.

(** X25. [detect_anomalies] with a positive window size answers with one
    flag per sample; the first [window_size] samples are never flagged; and
    a later sample is flagged exactly when the deviation of the
    [window_size] loads before it is positive and its load is more than two
    deviations away from their mean. *)
Theorem anomaly_flags np_mean np_std recent (window_size : nat) :
  (0 < window_size)%nat ->
  let flags := detect_anomalies np_mean np_std recent window_size in
  length flags = length recent /\
  (forall i : nat, (i < window_size)%nat -> (i < length recent)%nat ->
     flags !! i = Some false) /\
  (forall (i : nat) m, recent !! i = Some m ->
     let window :=
       map load_score (take window_size (drop (i - window_size) recent)) in
     flags !! i = Some true <->
     (window_size <= i)%nat /\
     length window = window_size /\
     (0 < np_std window)%Q /\
     (anomaly_threshold * np_std window
        < Py.abs (load_score m - np_mean window))%Q).
Proof.
  intros Hw. cbv zeta. unfold detect_anomalies.
  destruct (length recent <? window_size)%nat eqn:Eshort.
  { apply Nat.ltb_lt in Eshort.
    split; [apply length_replicate|]. split.
    - intros i _ Hi. now apply lookup_replicate_2.
    - intros i m Hm. pose proof (lookup_lt_Some _ _ _ Hm) as Hi. split.
      + intros H. apply lookup_replicate in H as [H _]. discriminate.
      + intros [Hge _]. lia. }
  apply Nat.ltb_ge in Eshort.
  rewrite (List.length_map load_score recent).
  split; [now rewrite List.length_map, length_seq|]. split.
  - intros i Hi Hlen. rewrite lookup_map, lookup_seq_lt by exact Hlen.
    cbn [fmap option_fmap option_map]. rewrite Nat.add_0_l.
    apply Nat.ltb_lt in Hi. now rewrite Hi.
  - intros i m Hm. pose proof (lookup_lt_Some _ _ _ Hm) as Hlen.
    rewrite lookup_map, lookup_seq_lt by exact Hlen.
    cbn [fmap option_fmap option_map]. rewrite !Nat.add_0_l.
    rewrite lookup_map, Hm. cbn [fmap option_fmap option_map].
    rewrite List.skipn_map, List.firstn_map.
    set (window := map load_score
                     (take window_size (drop (i - window_size) recent))).
    assert (Escale : (Py.abs (load_score m - np_mean window) / np_std window
                        * np_std window
                      == Py.abs (load_score m - np_mean window))%Q
                     \/ ~ (0 < np_std window)%Q).
    { destruct (Qlt_le_dec 0 (np_std window)) as [Hpos|Hle].
      - left. field. intros E0. rewrite E0 in Hpos.
        now apply Qlt_irrefl in Hpos.
      - right. now apply Qle_not_lt. }
    destruct (i <? window_size)%nat eqn:Ei.
    { apply Nat.ltb_lt in Ei. split; [discriminate|]. intros [Hge _]. lia. }
    apply Nat.ltb_ge in Ei.
    assert (Hwindow : length window = window_size).
    { subst window. rewrite List.length_map, length_take, length_drop. lia. }
    destruct (Py.ltb 0 (np_std window)) eqn:Estd.
    + apply PyFacts.ltb_lt in Estd.
      destruct Escale as [Escale|Hno]; [|contradiction].
      split.
      * intros Hflag. injection Hflag as Hflag.
        apply PyFacts.ltb_lt in Hflag.
        apply (Qmult_lt_compat_r _ _ (np_std window) Estd) in Hflag.
        rewrite Escale in Hflag. auto.
      * intros (_ & _ & _ & Hfar). f_equal. apply PyFacts.ltb_lt.
        apply Qlt_shift_div_l; assumption.
    + apply PyFacts.ltb_ge in Estd. split; [discriminate|].
      intros (_ & _ & Hpos & _). exfalso. exact (Qlt_not_le _ _ Hpos Estd).
Qed.

Lemma anomaly_flags_witness :
  detect_anomalies mean_50 deviation_10 spike 2 !! 0%nat = Some false.
Proof.
  apply (anomaly_flags mean_50 deviation_10 spike 2); cbn [length spike]; lia.
Defined.

Lemma filter_from (k n : nat) :
  (k <= n)%nat ->
  List.filter (fun i => (k <=? i)%nat) (seq 0 n) = seq k (n - k).
Proof.
  intros Hk. replace n with (k + (n - k))%nat at 1 by lia.
  rewrite seq_app, List.filter_app. cbn [Nat.add].
  assert (Hlow : forall a m, (a + m <= k)%nat ->
            List.filter (fun i => (k <=? i)%nat) (seq a m) = []).
  { intros a m. revert a. induction m as [|m IH]; intros a Ha; [reflexivity|].
    cbn [seq List.filter].
    destruct (k <=? a)%nat eqn:E; [apply Nat.leb_le in E; lia|].
    apply IH. lia. }
  assert (Hhigh : forall a m, (k <= a)%nat ->
            List.filter (fun i => (k <=? i)%nat) (seq a m) = seq a m).
  { intros a m. revert a. induction m as [|m IH]; intros a Ha; [reflexivity|].
    cbn [seq List.filter].
    destruct (k <=? a)%nat eqn:E; [|apply Nat.leb_gt in E; lia].
    f_equal. apply IH. lia. }
  rewrite Hlow by lia. rewrite Hhigh by lia. reflexivity.
Qed.

Lemma lookups_from {A} (d : A) (l : list A) : forall k : nat,
  map (fun i => default d (l !! i)) (seq k (length l - k)) = drop k l.
Proof.
  induction l as [|x l IH]; intros k.
  - now destruct k.
  - destruct k as [|k].
    + cbn [length Nat.sub seq map drop lookup list_lookup default].
      f_equal. rewrite <- seq_shift, List.map_map.
      specialize (IH 0%nat). rewrite Nat.sub_0_r in IH. exact IH.
    + cbn [length Nat.sub drop]. rewrite <- seq_shift, List.map_map.
      exact (IH k).
Qed.

(** X26. [prepare_time_series_data] returns nothing exactly when it is
    given fewer than ten samples, so its second early return is never
    taken.  Otherwise ten samples give ten feature columns and lose their
    first three rows, more samples give eleven columns and lose their first
    four; every row of the matrix has one value per column, and the targets
    are the load scores of the rows that are kept. *)
Theorem prepared_frame_shape hour minute day_of_week metrics :
  match prepare_time_series_data hour minute day_of_week metrics with
  | None => (length metrics < 10)%nat
  | Some p =>
      (10 <= length metrics)%nat /\
      let lost := if (length metrics =? 10)%nat then 3%nat else 4%nat in
      length (feature_columns p) = (7 + lost)%nat /\
      length (X p) = (length metrics - lost)%nat /\
      Forall (fun row => length row = length (feature_columns p)) (X p) /\
      y p = drop lost (map load_score metrics)
  end.
Proof.
  unfold prepare_time_series_data.
  destruct (length metrics <? 10)%nat eqn:Eshort;
    [now apply Nat.ltb_lt in Eshort|].
  apply Nat.ltb_ge in Eshort. cbv zeta.
  destruct (length metrics =? 10)%nat eqn:Eten.
  - apply Nat.eqb_eq in Eten. rewrite Eten.
    cbn [List.filter Nat.add Nat.ltb Nat.leb].
    rewrite (List.filter_ext _ (fun i => (3 <=? i)%nat)).
    2:{ intros i. cbn [forallb Nat.sub].
        destruct i as [|[|[|i]]]; reflexivity. }
    rewrite (filter_from 3 10) by lia.
    cbn [Nat.sub seq length Nat.ltb Nat.leb].
    split; [lia|]. split; [reflexivity|]. split; [reflexivity|]. split.
    + assert (Hrows : forall i, (i < 10)%nat -> exists m, metrics !! i = Some m).
      { intros i Hi. apply lookup_lt_is_Some_2. lia. }
      cbn [map]. repeat constructor;
        match goal with
        | |- context [metrics !! ?i] =>
            destruct (Hrows i ltac:(lia)) as [m ->]; reflexivity
        end.
    + rewrite <- (lookups_from 0%Q (map load_score metrics) 3).
      rewrite List.length_map, Eten. reflexivity.
  - apply Nat.eqb_neq in Eten.
    assert (E1 : (1 + 5 <? length metrics)%nat = true)
      by (apply Nat.ltb_lt; lia).
    assert (E2 : (2 + 5 <? length metrics)%nat = true)
      by (apply Nat.ltb_lt; lia).
    assert (E3 : (3 + 5 <? length metrics)%nat = true)
      by (apply Nat.ltb_lt; lia).
    assert (E5 : (5 + 5 <? length metrics)%nat = true)
      by (apply Nat.ltb_lt; lia).
    cbn [List.filter]. rewrite E1, E2, E3, E5.
    rewrite (List.filter_ext _ (fun i => (4 <=? i)%nat)).
    2:{ intros i. cbn [forallb Nat.sub].
        destruct i as [|[|[|[|i]]]]; reflexivity. }
    rewrite (filter_from 4 (length metrics)) by lia.
    rewrite length_seq.
    assert (E : (length metrics - 4 <? 5)%nat = false)
      by (apply Nat.ltb_ge; lia).
    rewrite E. cbn [feature_columns X y].
    split; [lia|]. split; [reflexivity|].
    split; [now rewrite List.length_map, length_seq|]. split.
    + apply Forall_forall. intros row Hrow.
      apply list_elem_of_In, in_map_iff in Hrow as (i & <- & Hi).
      apply in_seq in Hi.
      destruct (lookup_lt_is_Some_2 metrics i ltac:(lia)) as [m ->].
      reflexivity.
    + rewrite <- (lookups_from 0%Q (map load_score metrics) 4).
      now rewrite List.length_map.
Qed.

End PredictorMore.

(** ** More about the decision engine *)

Module EngineMore.

Import Engine EngineSpec EngineTerms.

Lemma int_le_integer x (k : Z) : (x <= inject_Z k)%Q -> Py.int x <= k.
Proof.
  unfold Qle, Py.int. cbn. intros H.
  apply Z.quot_le_upper_bound; lia.
Qed.

Lemma int_lt_integer x (k : Z) :
  (x < inject_Z k)%Q -> 0 < k -> Py.int x < k.
Proof.
  unfold Qlt, Py.int. cbn. intros H Hk.
  destruct (Z.lt_ge_cases (Qnum x) 0) as [Hneg|Hpos].
  - apply Z.le_lt_trans with 0; [|exact Hk].
    apply Z.quot_le_upper_bound; lia.
  - apply Z.quot_lt_upper_bound; lia.
Qed.

(** The action of a decision that passed both gates. *)
Lemma passed_decision_action fmt config timestamp current_time
    current_state recommendation recent_decisions :
  vetoed config current_time recommendation recent_decisions = false ->
  let d := make_scaling_decision fmt config timestamp current_time
             current_state recommendation recent_decisions in
  action d =
    if current_count current_state <? recommended_instances d then "scale_up"
    else if recommended_instances d <? current_count current_state
         then "scale_down"
    else "maintain".
Proof.
  unfold vetoed, make_scaling_decision, current_count. intros H.
  apply orb_false_iff in H as [H1 H2]. rewrite H1, H2.
  destruct (_calculate_target_resources config current_state recommendation).
  reflexivity.
Qed.

(** X12. Whatever the gates decide, the action of the decision tells how
    the recommended instance count compares with the current one: scale_up
    exactly when it is larger, scale_down exactly when it is smaller,
    maintain exactly when it is the same. *)
Theorem action_follows_instance_change fmt config timestamp current_time
    current_state recommendation recent_decisions :
  let d := make_scaling_decision fmt config timestamp current_time
             current_state recommendation recent_decisions in
  let current := current_count current_state in
  (action d = "scale_up" <-> current < recommended_instances d) /\
  (action d = "scale_down" <-> recommended_instances d < current) /\
  (action d = "maintain" <-> recommended_instances d = current).
Proof.
  cbv zeta.
  destruct (vetoed config current_time recommendation recent_decisions)
    eqn:Hv.
  - destruct (EngineFacts.vetoed_decision_echoes fmt config timestamp
                current_time current_state recommendation recent_decisions
                Hv) as (Ha & Hn & _).
    rewrite Ha, Hn. unfold current_count.
    repeat split; intros; try discriminate; try lia; reflexivity.
  - rewrite (passed_decision_action fmt config timestamp current_time
               current_state recommendation recent_decisions Hv).
    destruct (Z.ltb_spec (current_count current_state)
                (recommended_instances
                   (make_scaling_decision fmt config timestamp current_time
                      current_state recommendation recent_decisions)));
      [repeat split; intros; try discriminate; try lia; reflexivity|].
    destruct (Z.ltb_spec
                (recommended_instances
                   (make_scaling_decision fmt config timestamp current_time
                      current_state recommendation recent_decisions))
                (current_count current_state));
      repeat split; intros; try discriminate; try lia; reflexivity.
Qed.

(** X13. With [min_instances <= max_instances], the engine never answers
    scale_up when the current count has reached [max_instances], and never
    answers scale_down when it is at or below [min_instances]. *)
Theorem no_scaling_beyond_capacity fmt config timestamp current_time
    current_state recommendation recent_decisions :
  min_instances config <= max_instances config ->
  let d := make_scaling_decision fmt config timestamp current_time
             current_state recommendation recent_decisions in
  (max_instances config <= current_count current_state ->
     action d <> "scale_up") /\
  (current_count current_state <= min_instances config ->
     action d <> "scale_down").
Proof.
  intros Hcfg. cbv zeta.
  destruct (vetoed config current_time recommendation recent_decisions)
    eqn:Hv.
  - destruct (EngineFacts.vetoed_decision_echoes fmt config timestamp
                current_time current_state recommendation recent_decisions
                Hv) as (Ha & _).
    rewrite Ha. split; intros _; discriminate.
  - rewrite (passed_decision_action fmt config timestamp current_time
               current_state recommendation recent_decisions Hv).
    destruct (EngineFacts.passed_decision_sized fmt config timestamp
                current_time current_state recommendation recent_decisions
                Hv) as [Hn _].
    pose proof (EngineFacts.clamp_within_bounds config
                  (fst (_calculate_target_resources config current_state
                          recommendation)) Hcfg) as [Hlo Hhi].
    rewrite <- Hn in Hlo, Hhi.
    split; intros Hcur.
    + destruct (Z.ltb_spec (current_count current_state)
                  (recommended_instances
                     (make_scaling_decision fmt config timestamp
                        current_time current_state recommendation
                        recent_decisions))); [lia|].
      destruct (_ <? _); discriminate.
    + destruct (Z.ltb_spec (current_count current_state)
                  (recommended_instances
                     (make_scaling_decision fmt config timestamp
                        current_time current_state recommendation
                        recent_decisions))); [discriminate|].
      destruct (Z.ltb_spec
                  (recommended_instances
                     (make_scaling_decision fmt config timestamp
                        current_time current_state recommendation
                        recent_decisions))
                  (current_count current_state)); [lia|discriminate].
Qed.

Lemma no_scaling_beyond_capacity_witness :
  min_instances default_config <= max_instances default_config /\
  max_instances default_config <= current_count twelve_running /\
  action (make_scaling_decision plain default_config 0 0 twelve_running
            confident_up []) <> "scale_up".
Proof.
  assert (H1 : min_instances default_config <= max_instances default_config)
    by (cbn; lia).
  assert (H2 : max_instances default_config <= current_count twelve_running)
    by (cbn; lia).
  split; [exact H1|]. split; [exact H2|].
  exact (proj1 (no_scaling_beyond_capacity plain default_config 0 0
                  twelve_running confident_up [] H1) H2).
Defined.

(** The unclamped target of a decision that passed the gates moves by at
    most two instances when the sizing load is below 150. *)
Lemma target_within_two config current_state recommendation :
  1 <= current_count current_state ->
  (sizing_load current_state recommendation < 150)%Q ->
  let target :=
    fst (_calculate_target_resources config current_state recommendation) in
  current_count current_state - 2 <= target
  <= current_count current_state + 2.
Proof.
  intros Hone Hload. unfold _calculate_target_resources. cbn [fst].
  fold (current_count current_state).
  fold (sizing_load current_state recommendation).
  set (current := current_count current_state) in *.
  set (load := sizing_load current_state recommendation) in *.
  destruct (Predictor.action recommendation =? "scale_up")%string.
  - assert (Hint : Py.int (load / 100 * 2) < 3).
    { apply int_lt_integer; [|lia].
      apply Qlt_le_trans with (150 / 100 * 2)%Q; [|discriminate].
      apply Qmult_lt_compat_r; [reflexivity|].
      apply Qmult_lt_compat_r; [reflexivity|exact Hload]. }
    rewrite EngineFacts.maxZ_spec. lia.
  - destruct (Predictor.action recommendation =? "scale_down")%string;
      [|lia].
    destruct (Py.ltb load 20); [rewrite EngineFacts.maxZ_spec; lia|].
    destruct (Py.ltb load 40); [rewrite EngineFacts.maxZ_spec; lia|lia].
Qed.

(** X14. When the current count is at least one and lies within
    [[min_instances, max_instances]], and the sizing load is below 150, a
    decision changes the instance count by at most two. *)
Theorem decision_moves_at_most_two_instances fmt config timestamp
    current_time current_state recommendation recent_decisions :
  1 <= current_count current_state ->
  min_instances config <= current_count current_state
    <= max_instances config ->
  (sizing_load current_state recommendation < 150)%Q ->
  let d := make_scaling_decision fmt config timestamp current_time
             current_state recommendation recent_decisions in
  current_count current_state - 2 <= recommended_instances d
    <= current_count current_state + 2.
Proof.
  intros Hone Hcur Hload. cbv zeta.
  destruct (vetoed config current_time recommendation recent_decisions)
    eqn:Hv.
  - destruct (EngineFacts.vetoed_decision_echoes fmt config timestamp
                current_time current_state recommendation recent_decisions
                Hv) as (_ & Hn & _).
    rewrite Hn. unfold current_count. lia.
  - destruct (EngineFacts.passed_decision_sized fmt config timestamp
                current_time current_state recommendation recent_decisions
                Hv) as [Hn _].
    rewrite Hn, EngineFacts.maxZ_spec, EngineFacts.minZ_spec.
    pose proof (target_within_two config current_state recommendation
                  Hone Hload).
    cbv zeta in *. lia.
Qed.

Lemma decision_moves_at_most_two_witness :
  1 <= current_count one_running /\
  min_instances small_config <= current_count one_running
    <= max_instances small_config /\
  (sizing_load one_running confident_up < 150)%Q /\
  recommended_instances
    (make_scaling_decision plain small_config 0 0 one_running
       confident_up []) <= current_count one_running + 2.
Proof.
  assert (H1 : min_instances small_config <= current_count one_running
               <= max_instances small_config) by (cbn; lia).
  assert (H2 : (sizing_load one_running confident_up < 150)%Q)
    by reflexivity.
  assert (H0 : 1 <= current_count one_running) by (cbn; lia).
  split; [exact H0|]. split; [exact H1|]. split; [exact H2|].
  exact (proj2 (decision_moves_at_most_two_instances plain small_config 0 0
                  one_running confident_up [] H0 H1 H2)).
Defined.

(** A scan that ends in a veto stopped at a decision in cooldown. *)
Lemma cooldown_scan_veto config current_time decisions :
  allowed (cooldown_scan config current_time decisions) = false ->
  exists prior,
    In prior decisions /\
    in_cooldown config current_time prior /\
    remaining_time (cooldown_scan config current_time decisions) =
      Some (cooldown_of config prior
            - (current_time - pd_timestamp prior))%Q.
Proof.
  induction decisions as [|d rest IH]; intros Hveto; [discriminate|].
  destruct (EngineFacts.in_cooldown_dec config current_time d) as [Hd|Hd].
  - exists d. split; [now left|]. split; [exact Hd|].
    now apply EngineFacts.cooldown_scan_hit.
  - rewrite EngineFacts.cooldown_scan_skip in * by exact Hd.
    destruct (IH Hveto) as (prior & Hin & Hcool & Hrem).
    exists prior. split; [now right|]. auto.
Qed.

Lemma cooldown_scan_allowed config current_time decisions :
  allowed (cooldown_scan config current_time decisions) = true ->
  cooldown_scan config current_time decisions = cooldown_allowed.
Proof.
  induction decisions as [|d rest IH]; intros Hallowed; [reflexivity|].
  destruct (EngineFacts.in_cooldown_dec config current_time d) as [Hd|Hd].
  - destruct (EngineFacts.cooldown_scan_hit config current_time d rest Hd)
      as [Hfalse _]. congruence.
  - rewrite EngineFacts.cooldown_scan_skip in * by exact Hd. now apply IH.
Qed.

(** X15. A cooldown veto always reports a positive remaining time, that of
    one of the last ten prior decisions, and never more than that
    decision's cooldown unless the decision is stamped in the future; an
    allowed check reports no remaining time. *)
Theorem cooldown_remaining_is_positive config current_time recent_decisions :
  let check := _check_cooldown config current_time recent_decisions in
  if allowed check then remaining_time check = None
  else
    exists prior remaining,
      In prior (Py.take_last 10 recent_decisions) /\
      remaining_time check = Some remaining /\
      (remaining ==
         cooldown_of config prior - (current_time - pd_timestamp prior))%Q /\
      (0 < remaining)%Q /\
      ((pd_timestamp prior <= current_time)%Q ->
         (remaining <= cooldown_of config prior)%Q).
Proof.
  cbv zeta. rewrite EngineFacts.check_cooldown_scan.
  destruct (allowed (cooldown_scan config current_time
                       (rev (Py.take_last 10 recent_decisions)))) eqn:Ha.
  - now rewrite (cooldown_scan_allowed config current_time _ Ha).
  - destruct (cooldown_scan_veto config current_time _ Ha)
      as (prior & Hin & [Hact Hlt] & Hrem).
    exists prior, (cooldown_of config prior
                   - (current_time - pd_timestamp prior))%Q.
    split; [now apply in_rev|]. split; [exact Hrem|].
    split; [reflexivity|]. split.
    + exact (proj1 (Qlt_minus_iff _ _) Hlt).
    + intros Hpast.
      apply Qle_trans with (cooldown_of config prior - 0)%Q.
      * apply Qplus_le_r. apply Qopp_le_compat.
        apply (Qplus_le_l _ _ (pd_timestamp prior)).
        ring_simplify. exact Hpast.
      * ring_simplify. apply Qle_refl.
Qed.

(** X16. A resource allocation has exactly the six allocation keys.  Each
    total is at most its ceiling and at most [instances] times the
    per-instance size; for a load in [0, 100] the per-instance sizes lie in
    [2, 4] cores, [4, 8] GB of memory and [20, 30] GB of storage. *)
Theorem allocation_shape config instances predicted_load :
  let r := _calculate_resource_allocation config instances predicted_load in
  let f := (predicted_load / 100)%Q in
  (forall k, is_Some (r !! k) <-> k ∈ allocation_keys) /\
  r !! "cpu_per_instance" = Some (2 + f * 2)%Q /\
  r !! "memory_per_instance" = Some (4 + f * 4)%Q /\
  r !! "storage_per_instance" = Some (20 + f * 10)%Q /\
  (exists cpu memory storage,
     r !! "total_cpu_cores" = Some cpu /\
     r !! "total_memory_gb" = Some memory /\
     r !! "total_storage_gb" = Some storage /\
     (cpu <= cpu_cores (resource_limits config))%Q /\
     (cpu <= inject_Z instances * (2 + f * 2))%Q /\
     (memory <= memory_gb (resource_limits config))%Q /\
     (memory <= inject_Z instances * (4 + f * 4))%Q /\
     (storage <= storage_gb (resource_limits config))%Q /\
     (storage <= inject_Z instances * (20 + f * 10))%Q) /\
  ((0 <= predicted_load <= 100)%Q ->
     (2 <= 2 + f * 2 <= 4)%Q /\ (4 <= 4 + f * 4 <= 8)%Q /\
     (20 <= 20 + f * 10 <= 30)%Q).
Proof.
  cbv zeta. split; [|split; [|split; [|split; [|split]]]];
    try reflexivity.
  - intros k. split.
    + intros [v Hv]. unfold _calculate_resource_allocation, allocation_keys
        in *.
      repeat (apply lookup_insert_Some in Hv as [[<- _]|[_ Hv]];
              [set_solver|]).
      apply lookup_singleton_Some in Hv as [<- _]. set_solver.
    + unfold allocation_keys. intros Hk.
      repeat (apply elem_of_cons in Hk as [->|Hk]; [eexists; reflexivity|]).
      inversion Hk.
  - eexists _, _, _. split; [reflexivity|]. split; [reflexivity|].
    split; [reflexivity|].
    repeat split; first [apply PyFacts.min2_le_l | apply PyFacts.min2_le_r].
  - intros [Hlo Hhi].
    assert (Hf : (0 <= predicted_load / 100 <= 1)%Q).
    { split.
      - apply Qle_shift_div_l; [reflexivity|]. now rewrite Qmult_0_l.
      - apply Qle_shift_div_r; [reflexivity|]. now rewrite Qmult_1_l. }
    destruct Hf as [Hf0 Hf1].
    set (f := (predicted_load / 100)%Q) in *.
    assert (Hmul : forall c, (0 <= c)%Q -> (0 <= f * c <= c)%Q).
    { intros c Hc. split.
      - now apply Qmult_le_0_compat.
      - apply Qle_trans with (1 * c)%Q.
        + now apply Qmult_le_compat_r.
        + rewrite Qmult_1_l. apply Qle_refl. }
    assert (Hadd : forall b c, (0 <= c)%Q -> (b <= b + f * c <= b + c)%Q).
    { intros b c Hc. destruct (Hmul c Hc) as [H0 H1]. split.
      - apply Qle_trans with (b + 0)%Q.
        + rewrite Qplus_0_r. apply Qle_refl.
        + now apply Qplus_le_r.
      - now apply Qplus_le_r. }
    split; [apply (Hadd 2%Q 2%Q); discriminate|].
    split; [apply (Hadd 4%Q 4%Q); discriminate
           |apply (Hadd 20%Q 10%Q); discriminate].
Qed.

Lemma allocation_shape_witness :
  (0 <= 50 <= 100)%Q /\
  _calculate_resource_allocation default_config 3 50
    !! "cpu_per_instance" = Some (2 + 50 / 100 * 2)%Q /\
  (2 <= 2 + 50 / 100 * 2 <= 4)%Q.
Proof.
  assert (H : (0 <= 50 <= 100)%Q) by (split; discriminate).
  split; [exact H|].
  pose proof (allocation_shape default_config 3 50) as (_ & Hcpu & _ & _ & _ & Hrange).
  split; [exact Hcpu|exact (proj1 (Hrange H))].
Defined.

(** X17. The cost impact is exact: each hourly cost is 0.10 per instance,
    the hourly change is 0.10 per added instance (negative when instances
    are removed, zero when the count stays), the daily change 24 times and
    the monthly change 720 times the hourly change. *)
Theorem cost_impact_is_linear current_instances target_instances :
  let c := _estimate_cost_impact current_instances target_instances in
  let delta := inject_Z (target_instances - current_instances) in
  (current_hourly_cost c == inject_Z current_instances * 0.10)%Q /\
  (target_hourly_cost c == inject_Z target_instances * 0.10)%Q /\
  (hourly_cost_change c == delta * 0.10)%Q /\
  (daily_cost_change c == 24 * hourly_cost_change c)%Q /\
  (monthly_cost_change c == 720 * hourly_cost_change c)%Q.
Proof.
  cbv zeta. unfold _estimate_cost_impact.
  cbn [current_hourly_cost target_hourly_cost hourly_cost_change
       daily_cost_change monthly_cost_change].
  set (c := current_instances). set (t := target_instances).
  assert (E1 : forall n, (Py.round (inject_Z n * 0.10) 2
                          == inject_Z n * 0.10)%Q).
  { intros n. apply (PyMore.round_exact _ 2 (n * 10)). unfold Qeq. cbn. lia. }
  assert (E2 : (Py.round (inject_Z t * 0.10 - inject_Z c * 0.10) 2
                == inject_Z (t - c) * 0.10)%Q).
  { transitivity (inject_Z t * 0.10 - inject_Z c * 0.10)%Q.
    - apply (PyMore.round_exact _ 2 ((t - c) * 10)). unfold Qeq. cbn. lia.
    - unfold Qeq. cbn. lia. }
  assert (E3 : (Py.round ((inject_Z t * 0.10 - inject_Z c * 0.10) * 24) 2
                == inject_Z (t - c) * 0.10 * 24)%Q).
  { transitivity ((inject_Z t * 0.10 - inject_Z c * 0.10) * 24)%Q.
    - apply (PyMore.round_exact _ 2 ((t - c) * 240)). unfold Qeq. cbn. lia.
    - unfold Qeq. cbn. lia. }
  assert (E4 : (Py.round ((inject_Z t * 0.10 - inject_Z c * 0.10) * 24 * 30)
                  2 == inject_Z (t - c) * 0.10 * 24 * 30)%Q).
  { transitivity ((inject_Z t * 0.10 - inject_Z c * 0.10) * 24 * 30)%Q.
    - apply (PyMore.round_exact _ 2 ((t - c) * 7200)). unfold Qeq. cbn. lia.
    - unfold Qeq. cbn. lia. }
  rewrite !E1, E2, E3, E4.
  repeat split; try reflexivity; unfold Qeq; cbn; lia.
Qed.

(** The accuracy, the appropriateness and the overall score that
    [evaluate_scaling_effectiveness] computes before rounding, for a
    decision and the mean of the loads that followed. *)
Lemma effectiveness_parts decision first others :
  let actual := first :: others in
  let avg :=
    (Py.sum_list (map Predictor.load_score actual)
     / Py.len (map Predictor.load_score actual))%Q in
  let e := evaluate_scaling_effectiveness decision actual in
  exists accuracy appropriateness,
    (0 <= accuracy <= 1)%Q /\
    (appropriateness = 0.3 \/ appropriateness = 0.4 \/
     appropriateness = 0.7 \/ appropriateness = 0.8 \/
     appropriateness = 0.9)%Q /\
    (misjudged (action decision) avg ->
       appropriateness = 0.3%Q \/ appropriateness = 0.4%Q) /\
    score e = Py.round ((accuracy + appropriateness) / 2) 2 /\
    effectiveness e =
      (if Py.ltb 0.8 ((accuracy + appropriateness) / 2) then "excellent"
       else if Py.ltb 0.6 ((accuracy + appropriateness) / 2) then "good"
       else if Py.ltb 0.4 ((accuracy + appropriateness) / 2) then "fair"
       else "poor") /\
    exists det,
      details e = Some det /\
      prediction_accuracy det = Py.round accuracy 2 /\
      decision_appropriateness det = Py.round appropriateness 2.
Proof.
  cbv zeta. unfold evaluate_scaling_effectiveness.
  set (avg := (Py.sum_list (map Predictor.load_score (first :: others))
               / Py.len (map Predictor.load_score (first :: others)))%Q).
  set (err := Py.abs (default 50%Q (predicted_load decision) - avg)).
  exists (Py.max2 0 (1 - err / 100)). eexists.
  split; [|split; [|split; [|split; [reflexivity|split; [reflexivity|]]]]].
  - split; [apply PyFacts.max2_ge_l|].
    rewrite PyFacts.max2_spec. apply Q.max_lub; [discriminate|].
    apply Qle_trans with (1 - 0)%Q; [|discriminate].
    apply Qplus_le_r, Qopp_le_compat.
    apply Qle_shift_div_l; [reflexivity|].
    rewrite Qmult_0_l. apply PyMore.abs_nonneg.
  - destruct (action decision =? "scale_up")%string;
      [|destruct (action decision =? "scale_down")%string].
    + destruct (Py.ltb 70 avg); [auto 10|destruct (Py.ltb 50 avg); auto 10].
    + destruct (Py.ltb avg 30); [auto 10|destruct (Py.ltb avg 50); auto 10].
    + destruct (Py.leb 30 avg && Py.leb avg 70); auto 10.
  - intros [[Ha Havg]|[[Ha Havg]|(Hu & Hd & Havg)]].
    + rewrite Ha. cbn [String.eqb Ascii.eqb Bool.eqb andb].
      apply PyFacts.ltb_ge in Havg.
      assert (H70 : Py.ltb 70 avg = false).
      { apply PyFacts.ltb_ge. apply PyFacts.ltb_ge in Havg.
        eapply Qle_trans; [exact Havg|discriminate]. }
      rewrite H70, Havg. now left.
    + rewrite Ha. cbn [String.eqb Ascii.eqb Bool.eqb andb].
      apply PyFacts.ltb_ge in Havg.
      assert (H30 : Py.ltb avg 30 = false).
      { apply PyFacts.ltb_ge. apply PyFacts.ltb_ge in Havg.
        eapply Qle_trans; [|exact Havg]. discriminate. }
      rewrite H30, Havg. now left.
    + apply String.eqb_neq in Hu, Hd. rewrite Hu, Hd.
      assert (Hout : Py.leb 30 avg && Py.leb avg 70 = false).
      { apply andb_false_iff. unfold Py.leb.
        destruct Havg as [H|H]; apply PyFacts.ltb_lt in H; rewrite H; auto. }
      rewrite Hout. now right.
  - eexists. split; [reflexivity|]. split; reflexivity.
Qed.

(** X18. [evaluate_scaling_effectiveness] on no metrics answers "unknown"
    with score 0.5 and no details.  On metrics, the label is one of
    excellent, good, fair and poor, the score lies in [0.15, 0.95], the
    reported accuracy in [0, 1] and the reported appropriateness in
    [0.3, 0.9]. *)
Theorem effectiveness_score_range decision actual_metrics :
  let e := evaluate_scaling_effectiveness decision actual_metrics in
  match actual_metrics with
  | [] => effectiveness e = "unknown" /\ score e = 0.5%Q /\ details e = None
  | _ =>
      (effectiveness e = "excellent" \/ effectiveness e = "good" \/
       effectiveness e = "fair" \/ effectiveness e = "poor") /\
      (0.15 <= score e <= 0.95)%Q /\
      exists det,
        details e = Some det /\
        (0 <= prediction_accuracy det <= 1)%Q /\
        (0.3 <= decision_appropriateness det <= 0.9)%Q
  end.
Proof.
  cbv zeta. destruct actual_metrics as [|first others]; [auto|].
  destruct (effectiveness_parts decision first others)
    as (acc & app & [Ha0 Ha1] & Happ & _ & Hscore & Hlabel
        & det & Hdet & Hacc & Hdapp).
  cbv zeta in *.
  assert (Happ' : (0.3 <= app <= 0.9)%Q).
  { destruct Happ as [->|[->|[->|[->| ->]]]]; split; discriminate. }
  split; [|split].
  - rewrite Hlabel.
    destruct (Py.ltb 0.8 _); [auto|]. destruct (Py.ltb 0.6 _); [auto|].
    destruct (Py.ltb 0.4 _); auto.
  - rewrite Hscore. apply (PyMore.round_between _ 2 15 95); try reflexivity.
    destruct Happ' as [Hl Hh]. split.
    + apply Qle_shift_div_l; [reflexivity|].
      apply Qle_trans with (0 + 0.3)%Q; [discriminate|].
      now apply Qplus_le_compat.
    + apply Qle_shift_div_r; [reflexivity|].
      apply Qle_trans with (1 + 0.9)%Q; [|discriminate].
      now apply Qplus_le_compat.
  - exists det. split; [exact Hdet|]. rewrite Hacc, Hdapp. split.
    + apply (PyMore.round_between _ 2 0 100); try reflexivity. now split.
    + apply (PyMore.round_between _ 2 30 90); try reflexivity. exact Happ'.
Qed.

Lemma len_cons {A} (x : A) xs : (Py.len (x :: xs) == Py.len xs + 1)%Q.
Proof.
  unfold Py.len. cbn [length].
  rewrite Nat2Z.inj_succ, <- Z.add_1_r, inject_Z_plus. reflexivity.
Qed.

Lemma sum_cons x xs : (Py.sum_list (x :: xs) == x + Py.sum_list xs)%Q.
Proof. rewrite !PredictorFacts.sum_list_fold_right. reflexivity. Qed.

Lemma sum_at_most c xs :
  Forall (fun x => (x <= c)%Q) xs -> (Py.sum_list xs <= c * Py.len xs)%Q.
Proof.
  induction 1 as [|x xs Hx _ IH].
  - unfold Py.sum_list, Py.len. cbn [fold_left length].
    change (inject_Z (Z.of_nat 0)) with 0%Q. rewrite Qmult_0_r.
    apply Qle_refl.
  - rewrite sum_cons, len_cons.
    assert (E : (c * (Py.len xs + 1) == c * Py.len xs + c)%Q) by ring.
    rewrite E. revert IH.
    generalize (c * Py.len xs)%Q (Py.sum_list xs). intros; lra.
Qed.

Lemma sum_at_least c xs :
  Forall (fun x => (c <= x)%Q) xs -> (c * Py.len xs <= Py.sum_list xs)%Q.
Proof.
  induction 1 as [|x xs Hx _ IH].
  - unfold Py.sum_list, Py.len. cbn [fold_left length].
    change (inject_Z (Z.of_nat 0)) with 0%Q. rewrite Qmult_0_r.
    apply Qle_refl.
  - rewrite sum_cons, len_cons.
    assert (E : (c * (Py.len xs + 1) == c * Py.len xs + c)%Q) by ring.
    rewrite E. revert IH.
    generalize (c * Py.len xs)%Q (Py.sum_list xs). intros; lra.
Qed.

(** The mean of a non-empty list lies where all its elements lie. *)
Lemma mean_bounds c x xs :
  let loads := x :: xs in
  let avg := (Py.sum_list loads / Py.len loads)%Q in
  (Forall (fun y => (y <= c)%Q) loads -> (avg <= c)%Q) /\
  (Forall (fun y => (c <= y)%Q) loads -> (c <= avg)%Q) /\
  (Forall (fun y => (y < c)%Q) loads -> (avg < c)%Q) /\
  (Forall (fun y => (c < y)%Q) loads -> (c < avg)%Q).
Proof.
  cbv zeta.
  pose proof (PredictorMore.len_positive (x :: xs) ltac:(discriminate))
    as Hlen.
  assert (E : (c * (Py.len xs + 1) == c * Py.len xs + c)%Q) by ring.
  split; [|split; [|split]]; intros H.
  - apply Qle_shift_div_r; [exact Hlen|]. now apply sum_at_most.
  - apply Qle_shift_div_l; [exact Hlen|]. now apply sum_at_least.
  - apply Qlt_shift_div_r; [exact Hlen|].
    apply Forall_cons in H as [Hx Hxs].
    assert (Hrest : (Py.sum_list xs <= c * Py.len xs)%Q).
    { apply sum_at_most. eapply Forall_impl; [exact Hxs|].
      intros y Hy. now apply Qlt_le_weak. }
    rewrite sum_cons, len_cons, E. revert Hrest.
    generalize (c * Py.len xs)%Q (Py.sum_list xs). intros; lra.
  - apply Qlt_shift_div_l; [exact Hlen|].
    apply Forall_cons in H as [Hx Hxs].
    assert (Hrest : (c * Py.len xs <= Py.sum_list xs)%Q).
    { apply sum_at_least. eapply Forall_impl; [exact Hxs|].
      intros y Hy. now apply Qlt_le_weak. }
    rewrite sum_cons, len_cons, E. revert Hrest.
    generalize (c * Py.len xs)%Q (Py.sum_list xs). intros; lra.
Qed.

(** X19. A decision that every load that followed shows to have been wrong
    (a scale_up followed only by loads of at most 50, a scale_down followed
    only by loads of at least 50, any other action followed only by loads
    below 30 or only by loads above 70) is never rated "excellent", and its
    score is at most 0.7, however accurate the prediction was. *)
Theorem misjudged_decision_is_not_excellent decision first others :
  let actual := first :: others in
  let e := evaluate_scaling_effectiveness decision actual in
  followed_by_the_wrong_loads (action decision)
    (map Predictor.load_score actual) ->
  effectiveness e <> "excellent" /\ (score e <= 0.7)%Q.
Proof.
  cbv zeta. intros Hwrong.
  destruct (effectiveness_parts decision first others)
    as (acc & app & [Ha0 Ha1] & _ & Hlow & Hscore & Hlabel & _).
  cbv zeta in *.
  assert (Hmis : misjudged (action decision)
            (Py.sum_list (map Predictor.load_score (first :: others))
             / Py.len (map Predictor.load_score (first :: others)))%Q).
  { cbn [map] in *.
    destruct (mean_bounds 50 (Predictor.load_score first)
                (map Predictor.load_score others)) as (H50a & H50b & _).
    destruct (mean_bounds 30 (Predictor.load_score first)
                (map Predictor.load_score others)) as (_ & _ & H30 & _).
    destruct (mean_bounds 70 (Predictor.load_score first)
                (map Predictor.load_score others)) as (_ & _ & _ & H70).
    cbv zeta in *.
    destruct Hwrong as [[Ha H]|[[Ha H]|(Hu & Hd & [H|H])]].
    - left. split; [exact Ha|now apply H50a].
    - right. left. split; [exact Ha|now apply H50b].
    - right. right. split; [exact Hu|]. split; [exact Hd|].
      left. now apply H30.
    - right. right. split; [exact Hu|]. split; [exact Hd|].
      right. now apply H70. }
  specialize (Hlow Hmis).
  assert (Happ : (app <= 0.4)%Q).
  { destruct Hlow as [->| ->]; discriminate. }
  assert (Hoverall : ((acc + app) / 2 <= 0.7)%Q).
  { apply Qle_shift_div_r; [reflexivity|].
    apply Qle_trans with (1 + 0.4)%Q; [|discriminate].
    now apply Qplus_le_compat. }
  split.
  - rewrite Hlabel.
    assert (E : Py.ltb 0.8 ((acc + app) / 2) = false).
    { apply PyFacts.ltb_ge. eapply Qle_trans; [exact Hoverall|discriminate]. }
    rewrite E. destruct (Py.ltb 0.6 _); [discriminate|].
    destruct (Py.ltb 0.4 _); discriminate.
  - rewrite Hscore.
    apply (PyMore.round_between _ 2 0 70 0%Q 0.7%Q); try reflexivity.
    split; [|exact Hoverall].
    apply Qle_shift_div_l; [reflexivity|].
    apply Qle_trans with (0 + 0)%Q; [discriminate|].
    apply Qplus_le_compat; [exact Ha0|].
    destruct Hlow as [->| ->]; discriminate.
Qed.

Lemma misjudged_decision_witness :
  followed_by_the_wrong_loads (action a_scale_up)
    (map Predictor.load_score
       [PredictorSpec.sample 40; PredictorSpec.sample 50]) /\
  effectiveness
    (evaluate_scaling_effectiveness a_scale_up
       [PredictorSpec.sample 40; PredictorSpec.sample 50])
    <> "excellent".
Proof.
  assert (H : followed_by_the_wrong_loads (action a_scale_up)
                (map Predictor.load_score
                   [PredictorSpec.sample 40; PredictorSpec.sample 50])).
  { left. split; [reflexivity|]. repeat constructor; discriminate. }
  split; [exact H|].
  exact (proj1 (misjudged_decision_is_not_excellent a_scale_up
                  (PredictorSpec.sample 40) [PredictorSpec.sample 50] H)).
Defined.



End EngineMore.

(** ** More about the resource manager *)

Module ManagerMore.

Import Manager ManagerSpec ManagerTerms ManagerCalm.

(** The header of the result of a call: the action, the simulated time of
    that action, the clock on entry and the state seen on entry. *)
Lemma execute_result_header w d a self r self' :
  action d = Some a ->
  execute_scaling_decision w d self = (Ok r, self') ->
  er_action r = a /\
  execution_time_seconds r = _simulate_scaling_time a /\
  er_timestamp r = now_on_entry w /\
  previous_state r = snapshot (current_state self) /\
  execution_history self' = (execution_history self ++ [r])%list /\
  state_file self' = Some (current_state self').
Proof.
  intros Ha. rewrite (ManagerFacts.execute_unfold w d a self Ha).
  rewrite (ManagerFacts.try_body_unfold w d a _ _ Ha).
  destruct (fst (operation_for w d a (current_state self))) as [op|msg].
  - cbv zeta.
    destruct (_update_state d _ (current_state self)) as [[[]|msg] s'];
      intros [= <- <-]; repeat split.
  - intros [= <- <-]. repeat split.
Qed.

Lemma last_record_event ev evs : last (record_event ev evs) = Some ev.
Proof.
  rewrite ManagerFacts.record_event_take_last.
  change 50%nat with (S 49). rewrite EngineFacts.take_last_snoc.
  apply last_snoc.
Qed.

(** X1. A completed scale_up or scale_down installs the decision: the
    state holds the recommended instance count and the recommended
    resources, and the last scaling event records the action, the count
    before and after, the decision's reason, the time of the call and the
    simulated duration of the action. *)
Theorem completed_scaling_installs_recommendation w d a self r self' :
  action d = Some a -> is_scaling a = true ->
  execute_scaling_decision w d self = (Ok r, self') ->
  er_status r = "completed" ->
  exists n res why,
    recommended_instances d = Some n /\
    recommended_resources d = Some res /\
    reason d = Some why /\
    instances (current_state self') = n /\
    resources (current_state self') = res /\
    status (current_state self') = status (current_state self) /\
    last (scaling_events (current_state self')) =
      Some {| ev_timestamp := now_on_entry w;
              ev_action := a;
              instances_before := instances (current_state self);
              instances_after := n;
              ev_reason := why;
              execution_time := _simulate_scaling_time a |}.
Proof.
  intros Ha Hsc Hexec Hst.
  destruct (execute_result_header w d a self r self' Ha Hexec)
    as (_ & Htime & Hts & Hprev & _).
  destruct (ManagerFacts.execute_outcome w d a self Ha)
    as (r' & s' & Hexec' & _ & _ & H).
  rewrite Hexec in Hexec'. injection Hexec' as <- ->.
  rewrite Hsc in H.
  destruct H as [(msg & r0 & _ & Hfailed & _)
                |(_ & _ & _ & why & Hwhy & n & res & Hn & Hres & ->)].
  { rewrite Hst in Hfailed. discriminate. }
  exists n, res, why. repeat split; try assumption.
  cbn. rewrite last_record_event. unfold event_of.
  now rewrite Hts, Hprev, Htime.
Qed.

Lemma completed_scaling_witness :
  match execute_scaling_decision (calm "t1" "t2") up_to_three just_started
  with
  | (Ok r, self') =>
      er_status r = "completed" /\ instances (current_state self') = 3
  | (Raise _, _) => False
  end.
Proof.
  destruct (execute_scaling_decision (calm "t1" "t2") up_to_three
              just_started) as [[r|msg] self'] eqn:Hexec.
  - assert (Hst : er_status r = "completed").
    { vm_compute in Hexec. now injection Hexec as <- <-. }
    split; [exact Hst|].
    destruct (completed_scaling_installs_recommendation (calm "t1" "t2")
                up_to_three "scale_up" just_started r self'
                eq_refl eq_refl Hexec Hst)
      as (n & res & why & Hn & _ & _ & Hi & _).
    injection Hn as <-. exact Hi.
  - vm_compute in Hexec. discriminate.
Defined.

(** X2. Every call that returns appends its result, and nothing else, to
    the execution history and writes the state file with the state it
    leaves; a decision without ['action'] raises [KeyError('action')] and
    leaves the manager as it was: nothing logged, nothing written. *)
Theorem execute_logs_each_returning_call w d self :
  match execute_scaling_decision w d self with
  | (Ok r, self') =>
      action d = Some (er_action r) /\
      execution_history self' = (execution_history self ++ [r])%list /\
      state_file self' = Some (current_state self')
  | (Raise msg, self') =>
      action d = None /\ msg = "'action'" /\ self' = self
  end.
Proof.
  destruct (action d) as [a|] eqn:Ha.
  - destruct (ManagerFacts.execute_outcome w d a self Ha)
      as (r & s' & Hexec & _).
    pose proof (execute_result_header w d a self r _ Ha Hexec)
      as (Hact & _ & _ & _ & Hhist & Hfile).
    rewrite Hexec. rewrite Hact. auto.
  - rewrite (ManagerFacts.execute_without_action w d self Ha). auto.
Qed.

(** X3. In a world where no simulated action raises, a decision that
    carries what its operation and [_update_state] read (the action and the
    reason; for scale_up and scale_down also the recommended count and
    resources; for a scale_up that adds instances also the per-instance
    sizes) is executed to completion, with an empty error list. *)
Theorem calm_execution_completes w d self :
  calm_world w ->
  executable (instances (current_state self)) d ->
  exists r self',
    execute_scaling_decision w d self = (Ok r, self') /\
    er_status r = "completed" /\ errors r = [].
Proof.
  intros Hcalm (a & Ha & [why Hwhy] & Hkeys).
  rewrite (ManagerFacts.execute_unfold w d a self Ha).
  rewrite (ManagerFacts.try_body_unfold w d a _ _ Ha).
  set (s := current_state self).
  assert (Hop : exists op, operation_for w d a s = (Ok op, s)).
  { unfold operation_for.
    destruct (a =? "scale_up")%string eqn:Eu.
    - apply String.eqb_eq in Eu.
      destruct Hkeys as (n & res & Hn & Hres & Hsized);
        [unfold is_scaling; now rewrite Eu|].
      eexists. apply (scale_up_calm w d s n res Hcalm Hn Hres).
      now apply Hsized.
    - destruct (a =? "scale_down")%string eqn:Ed.
      + destruct Hkeys as (n & res & Hn & Hres & _);
          [unfold is_scaling; rewrite Ed; apply orb_true_r|].
        eexists. apply (scale_down_calm w d s n res Hcalm Hn Hres).
      + eexists. now apply maintain_calm. }
  destruct Hop as [op Hop]. rewrite Hop. cbn [fst]. cbv zeta.
  rewrite (ManagerFacts.update_state_cases d
             (set_status "completed" (update_with op (started w a self)))
             s a Ha eq_refl).
  rewrite Hwhy.
  destruct (is_scaling a) eqn:Hsc.
  - destruct (Hkeys eq_refl) as (n & res & Hn & Hres & _).
    rewrite Hn, Hres. cbv zeta. eexists _, _. repeat split.
  - eexists _, _. repeat split.
Qed.

Lemma calm_execution_witness :
  calm_world (calm "t1" "t2") /\
  executable (instances (current_state just_started)) up_to_three /\
  exists r self',
    execute_scaling_decision (calm "t1" "t2") up_to_three just_started
      = (Ok r, self') /\
    er_status r = "completed".
Proof.
  assert (Hcalm : calm_world (calm "t1" "t2")) by (intros line; reflexivity).
  assert (Hexe : executable (instances (current_state just_started))
                   up_to_three).
  { exists "scale_up". split; [reflexivity|]. split; [eexists; reflexivity|].
    intros _. exists 3, small_allocation.
    split; [reflexivity|]. split; [reflexivity|].
    intros _ _. repeat split; eexists; reflexivity. }
  split; [exact Hcalm|]. split; [exact Hexe|].
  destruct (calm_execution_completes (calm "t1" "t2") up_to_three
              just_started Hcalm Hexe) as (r & self' & Hexec & Hst & _).
  exists r, self'. auto.
Defined.

(** X4. In a calm world [_scale_up] provisions exactly
    [target - current] instances ([none] when the target is not above the
    current count), numbered consecutively after the current count, each
    active with the per-instance sizes of the decision, and leaves the
    state untouched. *)
Theorem scale_up_provisions_consecutive_instances w d s target r :
  calm_world w ->
  recommended_instances d = Some target ->
  recommended_resources d = Some r ->
  (instances s < target -> sized_per_instance r) ->
  exists provisioned,
    _scale_up w d s =
      (Ok (ScaledUp (target - instances s) target provisioned r), s) /\
    length provisioned = Z.to_nat (target - instances s) /\
    forall k : nat, (k < length provisioned)%nat ->
      provisioned !! k =
        Some (active_instance r (instances s + Z.of_nat k + 1)).
Proof.
  intros Hcalm Ht Hr Hsized.
  eexists. split; [apply (scale_up_calm w d s target r Hcalm Ht Hr Hsized)|].
  split.
  - now rewrite length_map, length_seqZ.
  - intros k Hk. rewrite length_map, length_seqZ in Hk.
    rewrite list_lookup_fmap, lookup_seqZ_lt by lia.
    cbn [fmap option_fmap option_map]. now rewrite Z.add_0_l.
Qed.

Lemma scale_up_provisions_witness :
  calm_world (calm "t1" "t2") /\
  exists provisioned,
    _scale_up (calm "t1" "t2") up_to_three (current_state just_started) =
      (Ok (ScaledUp 2 3 provisioned small_allocation),
       current_state just_started) /\
    map id provisioned = ["instance-2"; "instance-3"].
Proof.
  assert (Hcalm : calm_world (calm "t1" "t2")) by (intros line; reflexivity).
  split; [exact Hcalm|].
  destruct (scale_up_provisions_consecutive_instances (calm "t1" "t2")
              up_to_three (current_state just_started) 3 small_allocation
              Hcalm eq_refl eq_refl)
    as (provisioned & Hrun & _).
  { intros _. repeat split; eexists; reflexivity. }
  exists provisioned. split; [exact Hrun|].
  vm_compute in Hrun. now injection Hrun as <-.
Defined.

(** X5. In a calm world [_scale_down] terminates exactly
    [current - target] instances ([none] when the target is not below the
    current count), the highest-numbered one first, and leaves the state
    untouched; it needs no per-instance sizes. *)
Theorem scale_down_removes_newest_first w d s target r :
  calm_world w ->
  recommended_instances d = Some target ->
  recommended_resources d = Some r ->
  exists removed,
    _scale_down w d s =
      (Ok (ScaledDown (instances s - target) target removed r), s) /\
    length removed = Z.to_nat (instances s - target) /\
    forall k : nat, (k < length removed)%nat ->
      removed !! k = Some (terminated_instance (instances s - Z.of_nat k)).
Proof.
  intros Hcalm Ht Hr.
  eexists. split; [apply (scale_down_calm w d s target r Hcalm Ht Hr)|].
  split.
  - now rewrite length_map, length_seqZ.
  - intros k Hk. rewrite length_map, length_seqZ in Hk.
    rewrite list_lookup_fmap, lookup_seqZ_lt by lia.
    cbn [fmap option_fmap option_map]. now rewrite Z.add_0_l.
Qed.

Lemma scale_down_removes_witness :
  calm_world (calm "t3" "t4") /\
  exists removed,
    _scale_down (calm "t3" "t4") scale_down_to_one
        (current_state scaled_to_three) =
      (Ok (ScaledDown 2 1 removed small_allocation),
       current_state scaled_to_three) /\
    map id removed = ["instance-3"; "instance-2"].
Proof.
  assert (Hcalm : calm_world (calm "t3" "t4")) by (intros line; reflexivity).
  split; [exact Hcalm|].
  destruct (scale_down_removes_newest_first (calm "t3" "t4")
              scale_down_to_one (current_state scaled_to_three) 1
              small_allocation Hcalm eq_refl eq_refl)
    as (removed & Hrun & _).
  exists removed. split; [exact Hrun|].
  vm_compute in Hrun. now injection Hrun as <-.
Defined.

(** X6. [rollback_last_scaling] on an empty event log returns the small
    "failed" dict and leaves the manager untouched; on a log with a last
    event it returns the result of executing a "rollback" decision that
    recommends the count before that event, and that call is logged like
    any other. *)
Theorem rollback_needs_an_event w self :
  match last (scaling_events (current_state self)) with
  | None =>
      rollback_last_scaling w self =
        (Ok (NothingToRollback "failed" "No scaling events to rollback"),
         self)
  | Some last_event =>
      exists r self',
        rollback_last_scaling w self = (Ok (Executed r), self') /\
        execute_scaling_decision w (rollback_decision last_event) self
          = (Ok r, self') /\
        er_action r = "rollback" /\
        recommended_instances (rollback_decision last_event)
          = Some (instances_before last_event) /\
        execution_history self' = (execution_history self ++ [r])%list
  end.
Proof.
  destruct (last (scaling_events (current_state self))) as [ev|] eqn:Hlast.
  - destruct (ManagerFacts.execute_outcome w (rollback_decision ev)
                "rollback" self eq_refl) as (r & s' & Hexec & _).
    destruct (execute_result_header w (rollback_decision ev) "rollback"
                self r _ eq_refl Hexec) as (Hact & _ & _ & _ & Hhist & _).
    exists r, (saved w r s' self). repeat split; try assumption.
    unfold rollback_last_scaling, bind, get. rewrite Hlast.
    unfold bind. now rewrite Hexec.
  - unfold rollback_last_scaling, bind, get. now rewrite Hlast.
Qed.

Lemma success_rate_bounds (n f : nat) :
  (0 < n)%nat ->
  let rate :=
    (inject_Z (Z.of_nat n - Z.of_nat f) / inject_Z (Z.of_nat n) * 100)%Q in
  (rate <= 100)%Q /\
  (f = 0%nat -> (rate == 100)%Q) /\
  ((n <= f)%nat -> (rate <= 0)%Q).
Proof.
  intros Hn rate.
  assert (Hpos : (0 < inject_Z (Z.of_nat n))%Q).
  { change 0%Q with (inject_Z 0). rewrite <- Zlt_Qlt. lia. }
  assert (Hne : ~ (inject_Z (Z.of_nat n) == 0)%Q).
  { intros E. rewrite E in Hpos. discriminate. }
  split; [|split].
  - unfold rate. apply Qle_trans with (1 * 100)%Q; [|discriminate].
    apply Qmult_le_compat_r; [|discriminate].
    apply Qle_shift_div_r; [exact Hpos|].
    rewrite Qmult_1_l, <- Zle_Qle. lia.
  - intros ->. unfold rate. rewrite Z.sub_0_r.
    unfold Qdiv. rewrite Qmult_inv_r by exact Hne. reflexivity.
  - intros Hf. unfold rate. apply Qle_trans with (0 * 100)%Q; [|discriminate].
    apply Qmult_le_compat_r; [|discriminate].
    apply Qle_shift_div_r; [exact Hpos|].
    rewrite Qmult_0_l. change 0%Q with (inject_Z 0).
    rewrite <- Zle_Qle. lia.
Qed.

(** X7. The success rate of [_calculate_uptime] is at most 100 percent; it
    is 100 whenever the event log is empty, whatever failed, and whenever
    no failed execution is in the history; and it is zero or negative when
    the history holds at least as many failed executions as the log holds
    events. *)
Theorem uptime_success_rate self :
  let up := _calculate_uptime self in
  (success_rate_percent up <= 100)%Q /\
  (scaling_events (current_state self) = [] ->
     (success_rate_percent up == 100)%Q) /\
  (failures self = 0%nat -> (success_rate_percent up == 100)%Q) /\
  (scaling_events (current_state self) <> [] ->
   (length (scaling_events (current_state self)) <= failures self)%nat ->
     (success_rate_percent up <= 0)%Q).
Proof.
  cbv zeta. unfold _calculate_uptime, failures. cbn [success_rate_percent].
  set (n := length (scaling_events (current_state self))).
  set (f := length (List.filter _ (execution_history self))).
  destruct (n =? 0)%nat eqn:En.
  - apply Nat.eqb_eq in En.
    assert (H100 : (Py.round (1.0 * 100) 2 == 100)%Q)
      by (apply (PyMore.round_integer 2 100); reflexivity).
    split; [rewrite H100; discriminate|].
    split; [intros _; exact H100|]. split; [intros _; exact H100|].
    intros Hne _. exfalso. apply Hne. now apply length_zero_iff_nil.
  - apply Nat.eqb_neq in En.
    destruct (success_rate_bounds n f ltac:(lia)) as (Hle & Hzero & Hneg).
    split; [apply (PyMore.round_le_integer _ 2 100); exact Hle|].
    split.
    { intros Hnil. exfalso. apply En. unfold n. now rewrite Hnil. }
    split.
    + intros Hf. apply (PyMore.round_integer 2 100). now apply Hzero.
    + intros _ Hf. apply (PyMore.round_le_integer _ 2 0). now apply Hneg.
Qed.

Lemma uptime_success_rate_witness :
  failures scaled_to_three = 0%nat /\
  (success_rate_percent (_calculate_uptime scaled_to_three) == 100)%Q.
Proof.
  assert (H : failures scaled_to_three = 0%nat) by reflexivity.
  split; [exact H|].
  exact (proj1 (proj2 (proj2 (uptime_success_rate scaled_to_three))) H).
Defined.

(** X8. The cost estimate is exact: the hourly cost is 0.10 per instance,
    the daily cost 24 times and the monthly cost 720 times the hourly cost
    (the roundings to two decimals change nothing). *)
Theorem cost_estimate_is_linear self :
  let cost := _calculate_cost_estimate self in
  let n := inject_Z (instances (current_state self)) in
  (hourly_cost cost == n * 0.10)%Q /\
  (daily_cost cost == 24 * hourly_cost cost)%Q /\
  (monthly_cost cost == 720 * hourly_cost cost)%Q /\
  (cost_per_instance cost == 0.10)%Q.
Proof.
  cbv zeta. unfold _calculate_cost_estimate.
  cbn [hourly_cost daily_cost monthly_cost cost_per_instance].
  set (n := instances (current_state self)).
  assert (Hh : (Py.round (inject_Z n * 0.10) 2 == inject_Z n * 0.10)%Q).
  { apply (PyMore.round_exact _ 2 (n * 10)).
    unfold Qeq. cbn. lia. }
  assert (Hd : (Py.round (inject_Z n * 0.10 * 24) 2
                == inject_Z n * 0.10 * 24)%Q).
  { apply (PyMore.round_exact _ 2 (n * 240)).
    unfold Qeq. cbn. lia. }
  assert (Hm : (Py.round (inject_Z n * 0.10 * 24 * 30) 2
                == inject_Z n * 0.10 * 24 * 30)%Q).
  { apply (PyMore.round_exact _ 2 (n * 7200)).
    unfold Qeq. cbn. lia. }
  rewrite Hh, Hd, Hm. repeat split; try reflexivity; unfold Qeq; cbn; lia.
Qed.

(** X9. [get_scaling_history(limit)] with a positive limit returns the
    [min(limit, len)] most recent events, a suffix of the log; with limit 0
    it returns the whole log (the slice [[-0:]]), not an empty list. *)
Theorem scaling_history_slice self limit :
  let log := scaling_events (current_state self) in
  (0 < limit ->
     length (get_scaling_history self limit)
       = Nat.min (Z.to_nat limit) (length log) /\
     exists older,
       log = (older ++ get_scaling_history self limit)%list) /\
  get_scaling_history self 0 = log.
Proof.
  cbv zeta. unfold get_scaling_history. split; [|reflexivity].
  intros Hpos. rewrite PyMore.slice_last_positive by exact Hpos.
  split; [apply PyFacts.length_take_last|apply PyMore.take_last_suffix].
Qed.

Lemma scaling_history_slice_witness :
  0 < 5 /\
  length (get_scaling_history scaled_to_three 5) = 1%nat /\
  get_scaling_history scaled_to_three 0
    = scaling_events (current_state scaled_to_three).
Proof.
  split; [lia|]. split.
  - exact (proj1 (proj1 (scaling_history_slice scaled_to_three 5)
                    ltac:(lia))).
  - exact (proj2 (scaling_history_slice scaled_to_three 5)).
Defined.

Lemma state_key_cases {V} (m : gmap string V) k vi vr vs vl ve :
  m = {[ "instances" := vi; "resources" := vr; "status" := vs;
         "last_updated" := vl; "scaling_events" := ve ]} ->
  is_Some (m !! k) -> k ∈ state_keys.
Proof.
  intros -> [v Hv]. unfold state_keys.
  repeat (apply lookup_insert_Some in Hv as [[<- _]|[_ Hv]];
          [set_solver|]).
  apply lookup_singleton_Some in Hv as [<- _]. set_solver.
Qed.

Lemma state_document_keys s k :
  k ∈ state_keys -> is_Some (state_document s !! k).
Proof.
  unfold state_keys. intros Hk.
  repeat (apply elem_of_cons in Hk as [->|Hk]; [eexists; reflexivity|]).
  inversion Hk.
Qed.

(** X10. [_load_state] always yields the five keys of a state document.
    A key of a JSON object is taken as the file has it, and only the
    missing ones come from the host defaults.  Of a JSON array the pairs
    that [update] assigns before it stops count: a key has the value of the
    last such pair that names it, and its default when none does.  With no
    file, or one from which nothing is assigned, the state is the default:
    one instance, no events, stamped now.  A document written from a state
    is loaded back unchanged, whatever the host. *)
Theorem load_state_merges_file_over_defaults host now file :
  let st := _load_state host now file in
  (forall k, k ∈ state_keys -> is_Some (st !! k)) /\
  (forall state k v,
     file = Document state -> state !! k = Some v -> st !! k = Some v) /\
  (forall before k v after,
     file = Pairs (before ++ (k, v) :: after) -> k ∉ after.*1 ->
     st !! k = Some v) /\
  (forall assigned k,
     file = Pairs assigned -> k ∉ assigned.*1 ->
     st !! k = _load_state host now Missing !! k) /\
  (file = Missing \/ file = Unreadable ->
     st !! "instances" = Some (SNumber 1) /\
     st !! "status" = Some (SText "active") /\
     st !! "last_updated" = Some (SText now) /\
     st !! "scaling_events" = Some (SEvents [])) /\
  (forall s,
     _load_state host now (Document (state_document s)) = state_document s).
Proof.
  cbv zeta.
  assert (Hdefault : forall k, k ∈ state_keys ->
            is_Some (_load_state host now Missing !! k)).
  { unfold state_keys. intros k Hk.
    repeat (apply elem_of_cons in Hk as [->|Hk]; [eexists; reflexivity|]).
    inversion Hk. }
  split; [|split; [|split; [|split; [|split]]]].
  - intros k Hk. unfold _load_state. cbv zeta.
    apply PyMore.update_from_keeps_keys. now apply Hdefault.
  - intros state k v -> Hv. unfold _load_state.
    now apply lookup_union_Some_l.
  - intros before k v after -> Hk. unfold _load_state. cbv zeta.
    now apply PyMore.assigned_last.
  - intros assigned k -> Hk. unfold _load_state. cbv zeta.
    now apply PyMore.assigned_other.
  - intros [->| ->]; repeat split; reflexivity.
  - intros s. unfold _load_state. apply PyMore.union_covered.
    intros k Hk. apply state_document_keys.
    eapply state_key_cases; [reflexivity|exact Hk].
Qed.

Lemma load_state_witness :
  only_instances !! "instances" = Some (SNumber 4) /\
  _load_state a_host "t0" (Document only_instances) !! "instances"
    = Some (SNumber 4) /\
  _load_state a_host "t0" (Document only_instances) !! "scaling_events"
    = Some (SEvents []) /\
  _load_state a_host "t0" (Pairs instances_then_junk) !! "instances"
    = Some (SNumber 5).
Proof.
  split; [reflexivity|]. split; [|split].
  - exact (proj1 (proj2 (load_state_merges_file_over_defaults a_host "t0"
             (Document only_instances)))
             only_instances "instances" (SNumber 4) eq_refl eq_refl).
  - reflexivity.
  - refine (proj1 (proj2 (proj2 (load_state_merges_file_over_defaults
             a_host "t0" (Pairs instances_then_junk))))
             [] "instances" (SNumber 5) [] eq_refl _).
    cbn. apply not_elem_of_nil.
Defined.

Lemma network_clamp_range x :
  (0 <= Py.min2 100 (Py.max2 0 x) <= 100)%Q.
Proof.
  split; [|apply PyFacts.min2_le_l].
  unfold Py.min2. destruct (Py.ltb (Py.max2 0 x) 100); [|discriminate].
  apply PyFacts.max2_ge_l.
Qed.

(** X11. [_calculate_utilization] with a collector: when
    [collect_metrics] raises, the static fallback (25, 20, 15, 10) is
    returned; otherwise the network utilization lies in [0, 100], and is
    10.0 when fewer than two recent samples exist.  Without a collector,
    a failing CPU or memory reading gives the static fallback, and
    otherwise the network utilization is at most 50. *)
Theorem utilization_fallbacks_and_bounds :
  (forall msg recent os,
     _calculate_utilization (WithCollector (Raise msg) recent) os
       = static_utilization) /\
  (forall m recent os,
     let u := _calculate_utilization (WithCollector (Ok m) recent) os in
     (0 <= network_utilization_percent u <= 100)%Q /\
     ((length recent < 2)%nat ->
        (network_utilization_percent u == 10)%Q)) /\
  (forall os,
     let u := _calculate_utilization NoCollector os in
     match ps_cpu_percent os, ps_memory_percent os with
     | Ok _, Ok _ => (network_utilization_percent u <= 50)%Q
     | _, _ => u = static_utilization
     end).
Proof.
  split; [reflexivity|]. split.
  - intros m recent os. cbv zeta.
    unfold _calculate_utilization, rounded_utilization.
    cbn [network_utilization_percent].
    assert (H10 : forall x, (x == 10)%Q ->
              (0 <= Py.round x 1 <= 100)%Q /\ (Py.round x 1 == 10)%Q).
    { intros x Hx. pose proof (PyMore.round_integer 1 10 x Hx) as E.
      rewrite E. repeat split; discriminate. }
    destruct recent as [|first others].
    { split; [apply (H10 10.0%Q); reflexivity|].
      intros _. apply (H10 10.0%Q); reflexivity. }
    destruct (1 <? length (map _ (first :: others)))%nat eqn:E.
    + split.
      * split.
        -- apply (PyMore.round_ge_integer _ 1 0), network_clamp_range.
        -- apply (PyMore.round_le_integer _ 1 100), network_clamp_range.
      * intros Hlen. apply Nat.ltb_lt in E. rewrite length_map in E. lia.
    + split; [apply (H10 10.0%Q); reflexivity|].
      intros _. apply (H10 10.0%Q); reflexivity.
  - intros os. cbv zeta. unfold _calculate_utilization.
    destruct (ps_cpu_percent os) as [cpu|msg]; [|reflexivity].
    destruct (ps_memory_percent os) as [mem|msg]; [|reflexivity].
    unfold rounded_utilization. cbn [network_utilization_percent].
    apply (PyMore.round_le_integer _ 1 50).
    destruct (ps_net_io os); try discriminate.
    apply PyFacts.min2_le_l.
Qed.

Lemma utilization_fallbacks_witness :
  (network_utilization_percent
     (_calculate_utilization
        (WithCollector (Ok (PredictorSpec.sample 42)) []) blind_os) == 10)%Q.
Proof.
  apply (proj2 (proj1 (proj2 utilization_fallbacks_and_bounds)
                  (PredictorSpec.sample 42) [] blind_os)).
  cbn [length]. lia.
Defined.

End ManagerMore.

(** ** More about the telemetry collector *)

Module CollectorMore.

Import Predictor Collector PredictorTerms.

Lemma int_nonneg x : (0 <= x)%Q -> 0 <= Py.int x.
Proof.
  unfold Qle, Py.int. cbn. intros H. apply Z.quot_pos; lia.
Qed.

Lemma response_time_range cpu :
  percent cpu -> (50 <= _simulate_response_time cpu <= 250)%Q.
Proof.
  intros [H0 H1]. unfold _simulate_response_time. cbv zeta.
  assert (E : (cpu / 100 * 200 == cpu * 2)%Q) by field.
  split.
  - apply (PyMore.round_ge_integer _ 2 50). rewrite E.
    change (inject_Z 50) with 50%Q. lra.
  - apply (PyMore.round_le_integer _ 2 250). rewrite E.
    change (inject_Z 250) with 250%Q. lra.
Qed.

Lemma connections_range cpu :
  percent cpu -> 100 <= _simulate_connections cpu <= 600.
Proof.
  intros [H0 H1]. unfold _simulate_connections. cbv zeta.
  assert (E : (cpu / 100 * 500 == cpu * 5)%Q) by field.
  assert (Hlow : 0 <= Py.int (cpu / 100 * 500)).
  { apply int_nonneg. rewrite E. lra. }
  assert (Hhigh : Py.int (cpu / 100 * 500) <= 500).
  { apply EngineMore.int_le_integer. rewrite E.
    change (inject_Z 500) with 500%Q. lra. }
  lia.
Qed.

(** The weighted sum of [_calculate_load_score], from a floor of the
    response time. *)
Lemma load_score_from cpu memory response_time (floor : Q) :
  percent cpu -> percent memory ->
  (0 <= floor <= 200)%Q -> (floor <= response_time)%Q ->
  (floor * 0.15
   <= cpu * 0.4 + memory * 0.3
      + Py.min2 (response_time / 200 * 100) 100 * 0.3
   <= 100)%Q.
Proof.
  intros [Hc0 Hc1] [Hm0 Hm1] [Hf0 Hf1] Hrt.
  assert (E : (response_time / 200 * 100 == response_time * 0.5)%Q) by field.
  rewrite PyFacts.min2_spec.
  assert (Hs1 : (Qmin (response_time / 200 * 100) 100 <= 100)%Q)
    by apply Q.le_min_r.
  assert (Hs0 : (floor * 0.5 <= Qmin (response_time / 200 * 100) 100)%Q).
  { apply Q.min_glb; [rewrite E|]; lra. }
  revert Hs0 Hs1.
  generalize (Qmin (response_time / 200 * 100) 100) as score.
  intros score Hs0 Hs1. lra.
Qed.

(** X27. For CPU and memory shares between 0 and 100,
    [_calculate_load_score] stays between 0 and 100 whatever the
    non-negative response time, and the sample that [collect_metrics] builds
    has a response time between 50 and 250 ms, between 100 and 600
    connections and a load score between 7.5 and 100; its disk share is 50
    when the disk cannot be read or reports a total of zero. *)
Theorem collected_sample_ranges r :
  percent (cpu r) -> percent (memory r) ->
  (forall response_time, (0 <= response_time)%Q ->
     (0 <= _calculate_load_score (cpu r) (memory r) response_time <= 100)%Q)
  /\
  let m := collect_metrics r in
  (50 <= response_time_ms m <= 250)%Q /\
  100 <= active_connections m <= 600 /\
  (7.5 <= load_score m <= 100)%Q /\
  match disk_usage r with
  | Some (total, used) =>
      if total =? 0 then (disk_percent m == 50)%Q
      else (disk_percent m == inject_Z used / inject_Z total * 100)%Q
  | None => (disk_percent m == 50)%Q
  end.
Proof.
  intros Hcpu Hmem. split.
  - intros response_time Hrt. unfold _calculate_load_score. cbv zeta.
    destruct (load_score_from (cpu r) (memory r) response_time 0 Hcpu Hmem
                ltac:(lra) Hrt) as [Hlow Hhigh].
    split.
    + apply (PyMore.round_ge_integer _ 2 0).
      change (inject_Z 0) with 0%Q. lra.
    + now apply (PyMore.round_le_integer _ 2 100).
  - cbv zeta. unfold collect_metrics.
    destruct (net_io r) as [| |sent recv];
      cbn [response_time_ms active_connections load_score disk_percent];
      (split; [now apply response_time_range|]);
      (split; [now apply connections_range|]);
      (split;
        [|destruct (disk_usage r) as [[total used]|];
          [destruct (total =? 0)|]; reflexivity]);
      unfold _calculate_load_score; cbv zeta;
      destruct (response_time_range (cpu r) Hcpu) as [Hrt _];
      destruct (load_score_from (cpu r) (memory r)
                  (_simulate_response_time (cpu r)) 50 Hcpu Hmem
                  ltac:(lra) Hrt) as [Hlow Hhigh];
      apply (PyMore.round_between _ 2 750 10000 7.5 100);
        try reflexivity; (split; [lra|exact Hhigh]).
Qed.

Lemma collected_sample_witness :
  (7.5 <= load_score (collect_metrics idle) <= 100)%Q.
Proof.
  apply (collected_sample_ranges idle); split; discriminate.
Defined.

(** X28. [store_metrics] appends the sample to the last 999 of the history
    it finds, so the history it leaves ends with the new sample, never
    holds more than 1000, and is what the storage file holds; asked next
    for any positive number of recent samples, [get_recent_metrics] returns
    a list that ends with the new sample. *)
Theorem store_metrics_keeps_last_thousand metrics self :
  let self' := store_metrics metrics self in
  metrics_history self' =
    (Py.take_last 999 (metrics_history self) ++ [metrics])%list /\
  (length (metrics_history self') <= 1000)%nat /\
  storage_file self' = Some (metrics_history self') /\
  (forall count, 0 < count ->
     last (get_recent_metrics self' count) = Some metrics).
Proof.
  cbv zeta.
  assert (E : metrics_history (store_metrics metrics self)
              = (Py.take_last 999 (metrics_history self) ++ [metrics])%list).
  { unfold store_metrics, _save_metrics. cbv zeta.
    cbn [metrics_history storage_file].
    destruct (1000 <? length (metrics_history self ++ [metrics]))%nat eqn:El.
    - apply (EngineFacts.take_last_snoc 999).
    - apply Nat.ltb_ge in El. rewrite length_app in El. cbn [length] in El.
      rewrite PyFacts.take_last_all by lia. reflexivity. }
  split; [exact E|]. split; [|split; [reflexivity|]].
  - rewrite E, length_app, PyFacts.length_take_last. cbn [length]. lia.
  - intros count Hcount. unfold get_recent_metrics. rewrite E.
    destruct (Py.take_last 999 (metrics_history self) ++ [metrics])%list
      eqn:Enil; [now destruct (Py.take_last 999 (metrics_history self))|].
    rewrite <- Enil. rewrite PyMore.slice_last_positive by exact Hcount.
    replace (Z.to_nat count) with (S (Z.to_nat count - 1)) by lia.
    rewrite EngineFacts.take_last_snoc. apply last_snoc.
Qed.

Lemma store_metrics_witness :
  last (get_recent_metrics
          (store_metrics (PredictorSpec.sample 42)
             {| metrics_history := []; storage_file := None |}) 30)
  = Some (PredictorSpec.sample 42).
Proof.
  apply (store_metrics_keeps_last_thousand (PredictorSpec.sample 42)
           {| metrics_history := []; storage_file := None |}).
  lia.
Defined.

End CollectorMore.

(** ** The forecaster, the engine and the manager wired together *)

Module PipelineMore.

Import Engine EngineSpec EngineTerms Pipeline.

Lemma recommendation_maximum fmt first others current_load :
  Predictor.max_predicted_load
    (Predictor.get_scaling_recommendation fmt (first :: others) current_load)
  = Some (Py.max_list first others).
Proof.
  unfold Predictor.get_scaling_recommendation. cbv zeta.
  destruct (Py.ltb 80 (Py.max_list first others)); [reflexivity|].
  destruct (Py.ltb _ 30 && Py.ltb current_load 40); [reflexivity|].
  destruct (Py.ltb 15 _); [reflexivity|].
  destruct (Py.ltb _ (-15)); reflexivity.
Qed.

(** The rule for a high predicted maximum, on its own. *)
Lemma high_maximum_rule fmt first others current_load :
  (80 < Py.max_list first others)%Q ->
  let r :=
    Predictor.get_scaling_recommendation fmt (first :: others) current_load in
  Predictor.action r = "scale_up" /\
  Predictor.confidence r =
    Py.min2 0.9 ((Py.max_list first others - 80) / 20).
Proof.
  intros Htop. cbv zeta.
  destruct (PredictorFacts.recommendation_cases fmt first others current_load)
    as [(_ & Ha & Hc)
       |[(Hle & _)|[(Hle & _)|[(Hle & _)|(Hle & _)]]]];
    [now split| | | |];
    exfalso; exact (Qlt_not_le _ _ Htop Hle).
Qed.

(** X29. Under the default configuration a forecast whose maximum is above
    80 is recommended as a scale_up, but the engine acts on it only from a
    maximum of 92 on: below that the confidence gate answers maintain with
    the current instance count, whatever the recent decisions; from 92 on,
    with no cooldown active and fewer than ten instances, the decision is a
    scale_up to more instances, at most ten. *)
Theorem high_load_forecast_needs_92 fmt timestamp current_time current_state
    predictions current_load recent_decisions top :
  PredictorSpec.is_max top predictions -> (80 < top)%Q ->
  let r := Predictor.get_scaling_recommendation fmt predictions current_load in
  let d := make_scaling_decision fmt default_config timestamp current_time
             current_state r recent_decisions in
  Predictor.action r = "scale_up" /\
  ((top < 92)%Q ->
     action d = "maintain" /\
     recommended_instances d = current_count current_state) /\
  ((92 <= top)%Q ->
     no_cooldown default_config current_time recent_decisions ->
     current_count current_state < 10 ->
     action d = "scale_up" /\
     current_count current_state < recommended_instances d <= 10).
Proof.
  intros Hmax Htop.
  destruct predictions as [|first others].
  { destruct Hmax as [(x & [] & _) _]. }
  pose proof (PredictorFacts.is_max_unique _ _ _ Hmax
                (PredictorFacts.max_list_is_max first others)) as Etop.
  assert (Htop' : (80 < Py.max_list first others)%Q) by now rewrite <- Etop.
  destruct (high_maximum_rule fmt first others current_load Htop')
    as [Hact Hconf].
  cbv zeta in Hact, Hconf. cbv zeta. split; [exact Hact|].
  assert (Ediv : ((Py.max_list first others - 80) / 20
                  == (Py.max_list first others - 80) * 0.05)%Q) by field.
  split.
  - intros H92.
    assert (Hveto : vetoed default_config current_time
              (Predictor.get_scaling_recommendation fmt (first :: others)
                 current_load) recent_decisions = true).
    { unfold vetoed. apply orb_true_iff. right. apply PyFacts.ltb_lt.
      rewrite Hconf, PyFacts.min2_spec.
      apply Q.min_lt_iff. right. rewrite Ediv.
      change (confidence_threshold default_config) with 0.6%Q.
      rewrite Etop in H92. lra. }
    destruct (EngineFacts.vetoed_decision_echoes fmt default_config timestamp
                current_time current_state _ recent_decisions Hveto)
      as (Ha & Hn & _).
    split; [exact Ha|exact Hn].
  - intros H92 Hcool Hroom.
    assert (Hpass : vetoed default_config current_time
              (Predictor.get_scaling_recommendation fmt (first :: others)
                 current_load) recent_decisions = false).
    { unfold vetoed. apply orb_false_iff. split.
      - unfold no_cooldown in Hcool. now rewrite Hcool.
      - apply PyFacts.ltb_ge. rewrite Hconf, PyFacts.min2_spec.
        change (confidence_threshold default_config) with 0.6%Q.
        apply Q.min_glb; [discriminate|]. rewrite Ediv.
        rewrite Etop in H92. lra. }
    pose proof (EngineMore.passed_decision_action fmt default_config timestamp
                  current_time current_state _ recent_decisions Hpass)
      as Haction.
    destruct (EngineFacts.passed_decision_sized fmt default_config timestamp
                current_time current_state _ recent_decisions Hpass)
      as [Hn _].
    cbv zeta in Haction, Hn.
    assert (Hgrow : current_count current_state
                    < fst (_calculate_target_resources default_config
                             current_state
                             (Predictor.get_scaling_recommendation fmt
                                (first :: others) current_load))).
    { unfold _calculate_target_resources. cbv zeta. rewrite Hact.
      cbn [fst String.eqb Ascii.eqb Bool.eqb]. unfold current_count.
      rewrite EngineFacts.maxZ_spec. lia. }
    rewrite Hn in Haction |- *.
    change (min_instances default_config) with 1 in *.
    change (max_instances default_config) with 10 in *.
    rewrite EngineFacts.maxZ_spec, EngineFacts.minZ_spec in *.
    assert (Hlt : current_count current_state
                  < Z.max 1 (Z.min 10
                      (fst (_calculate_target_resources default_config
                              current_state
                              (Predictor.get_scaling_recommendation fmt
                                 (first :: others) current_load))))) by lia.
    apply Z.ltb_lt in Hlt as Hltb. rewrite Hltb in Haction.
    split; [exact Haction|]. split; [exact Hlt|lia].
Qed.

Lemma high_load_forecast_witness :
  action (make_scaling_decision plain default_config 0 0 one_running
            (Predictor.get_scaling_recommendation plain
               [85; 90; 88]%Q 75) []) = "maintain".
Proof.
  apply (high_load_forecast_needs_92 plain 0 0 one_running [85; 90; 88]%Q
           75 [] 90).
  - split.
    + exists 90%Q. split; [right; left; reflexivity|reflexivity].
    + repeat constructor; discriminate.
  - reflexivity.
  - reflexivity.
Defined.




End PipelineMore.
